(** * The PREDICO machine-learning engine: [create_ensemble_forecasts]

    A shallow embedding of [source/ml_engine.py].  The module has one
    function, [create_ensemble_forecasts], which orchestrates a two-stage
    quantile-regression ensemble.  Every helper it imports (data
    preprocessing, augmentation, splitting, the per-quantile trainers, result
    assembly) lives in other modules; those are taken as the fields of the
    class [Collaborators] below, each one a function that either returns a
    value or raises.

    The run is written in a small monad that threads the state-file store,
    propagates Python exceptions and records the calls that leave the module
    (the call log), so that statements such as "fails before any model is
    fitted" or "the file is not written" can be made about the whole run. *)

From Stdlib Require Import ZArith QArith Bool List String Lia.
From stdpp Require Import base option gmap strings.
Import ListNotations.

Set Implicit Arguments.
Set Default Proof Using "Type".

(* ===================================================================== *)
(** * Data model *)
(* ===================================================================== *)

(** A [pd.Timestamp], counted in quarter hours. *)
Definition Timestamp := Z.

(** A Python float.  [None] is NaN; finite values are rationals, which is
    enough for the sign tests and comparisons the engine itself performs. *)
Definition float := option Q.

(** One- and two-dimensional numpy arrays (row major). *)
Definition vector := list float.
Definition matrix := list vector.

(** A column label: a string (forecaster columns, 'targets') or a number
    (the quantile level, for frames built from a quantile-keyed dict). *)
Inductive Label :=
| L_str (s : string)
| L_num (q : Q).

(** A numeric [pd.DataFrame]: a row index and labelled columns. *)
Record DataFrame := mk_DataFrame {
  index : list Timestamp;
  columns : list (Label * vector)
}.

(** A [pd.Series], as returned by [df['targets']]. *)
Record Series := mk_Series {
  s_name : Label;
  s_index : list Timestamp;
  s_values : vector
}.

(** [pd.DataFrame()] *)
Definition pd_DataFrame : DataFrame := {| index := []; columns := [] |}.

(** [df.empty]: true when one of the axes has length 0. *)
Definition empty (df : DataFrame) : bool :=
  (length (index df) =? 0)%nat || (length (columns df) =? 0)%nat.

(** [len(df)]: the number of rows. *)
Definition len (df : DataFrame) : nat := length (index df).

Definition isnan (x : float) : bool :=
  match x with None => true | Some _ => false end.

Definition count_nan (v : vector) : nat := length (filter isnan v).

(** [df.isna().sum().sum()] *)
Definition isna_sum_sum (df : DataFrame) : nat :=
  fold_right (fun c n => (count_nan (snd c) + n)%nat) 0%nat (columns df).

Definition Label_eqb (a b : Label) : bool :=
  match a, b with
  | L_str s, L_str t => String.eqb s t
  | L_num p, L_num q => Qeq_bool p q
  | _, _ => false
  end.

Fixpoint find_column (l : Label) (cols : list (Label * vector)) : option vector :=
  match cols with
  | [] => None
  | (k, v) :: cols' => if Label_eqb k l then Some v else find_column l cols'
  end.

(** A Python dict keyed by quantile level.  Insertion order is kept, as in
    Python, and keys are compared as numbers. *)
Definition dict (V : Type) := list (Q * V).

Fixpoint dict_get {V} (q : Q) (d : dict V) : option V :=
  match d with
  | [] => None
  | (k, v) :: d' => if Qeq_bool k q then Some v else dict_get q d'
  end.

(** [d[q] = v] *)
Fixpoint dict_set {V} (q : Q) (v : V) (d : dict V) : dict V :=
  match d with
  | [] => [(q, v)]
  | (k, w) :: d' => if Qeq_bool k q then (k, v) :: d' else (k, w) :: dict_set q v d'
  end.

(** The configuration record [ens_params], with the keys the engine reads. *)
Record EnsParams := mk_EnsParams {
  model_type : string;
  normalize : bool;
  standardize : bool;
  scale_features : bool;
  max_lags : Z;
  forecasters_diversity : bool;
  add_lags : bool;
  augment_with_poly : bool;
  augment_with_roll_stats : bool;
  differenciate : bool;
  add_quantile_predictions : bool;
  quantiles : list Q;
  order_diff : Z;
  differenciate_var : bool;
  max_lags_var : Z;
  add_lags_var : bool;
  augment_with_poly_var : bool
}.

(** The [stage] keyword of the rescale helpers: ['1st'] or ['2nd']. *)
Inductive Stage := Stage1st | Stage2nd.

(** Which of the three quantile frames a call works on. *)
Inductive QTag := Q50 | Q10 | Q90.

(** The three places [split_train_test_data] is called from. *)
Inductive SplitSite := SplitFeatures | SplitTargets | Split2Stage.

(** Python exceptions.  [Raised f] is any exception propagating out of the
    collaborator [f]; the others are raised by the engine's own lines. *)
Inductive exn :=
| ValueError (msg : string)
| AssertionError (msg : string)
| IndexError (msg : string)
| KeyError (key : string)
| TypeError (msg : string)
| UnboundLocalError (name : string)
| Raised (callee : string).

(* ===================================================================== *)
(** * The run monad: state, exceptions and a call log *)
(* ===================================================================== *)

Module Run.
Section Monad.
Context {St E : Type}.

Record Out (A : Type) := mk_Out {
  res : exn + A;
  st : St;
  evs : list E
}.

Definition M (A : Type) := St -> Out A.

Definition ret {A} (a : A) : M A := fun s => mk_Out (inr a) s [].

Definition raise {A} (e : exn) : M A := fun s => mk_Out (inl e) s [].

Definition bind {A B} (m : M A) (k : A -> M B) : M B := fun s =>
  match res (m s) with
  | inl e => mk_Out (inl e) (st (m s)) (evs (m s))
  | inr a =>
      let o := k a (st (m s)) in
      mk_Out (res o) (st o) (evs (m s) ++ evs o)
  end.

Definition get : M St := fun s => mk_Out (inr s) s [].

Definition put (s' : St) : M unit := fun _ => mk_Out (inr tt) s' [].

Definition log (ev : E) : M unit := fun s => mk_Out (inr tt) s [ev].

(** A call that leaves the module: it is logged with its outcome, and an
    exception in the callee propagates. *)
Definition call {A} (callee : string) (ev : option A -> E) (r : option A) : M A :=
  fun s => mk_Out (match r with Some a => inr a | None => inl (Raised callee) end)
                  s [ev r].

(** [assert c, msg] *)
Definition assert_ (c : bool) (msg : string) : M unit :=
  if c then ret tt else raise (AssertionError msg).

(** [for x in l: b = body x b] *)
Fixpoint for_each {A B} (l : list A) (body : A -> B -> M B) (b : B) : M B :=
  match l with
  | [] => ret b
  | x :: l' => bind (body x b) (for_each l' body)
  end.

(** Weakest precondition: [Q] holds of the outcome of [m] run from [s]. *)
Definition wp {A} (m : M A) (s : St) (Q : exn + A -> St -> list E -> Prop) : Prop :=
  Q (res (m s)) (st (m s)) (evs (m s)).

End Monad.
Arguments M : clear implicits.
Arguments Out : clear implicits.
End Run.
Import Run.

Notation "'let*' x ':=' m 'in' k" := (bind m (fun x => k))
  (at level 10, x pattern, m at level 100, k at level 200).

(* ===================================================================== *)
(** * Values exchanged with the collaborators *)
(* ===================================================================== *)

(** The values the engine only passes around: fitted model handles, the
    scaler statistics, and the two best-results records. *)
Class Artifacts := {
  Model : Type;
  ScalerStats : Type;
  BestResults : Type;
  BestResultsVar : Type
}.

(** Keyword arguments of [predico_ensemble_predictions_per_quantile]. *)
Module Fit.
Record args `{Artifacts} := mk {
  ens_params : EnsParams;
  X_train : matrix;
  X_test : matrix;
  y_train : vector;
  df_train_ensemble : DataFrame;
  predictions : dict vector;
  quantile : Q;
  best_results : BestResults;
  iteration : nat;
  X_train_quantile10 : matrix;
  X_test_quantile10 : matrix;
  df_train_ensemble_quantile10 : DataFrame;
  X_train_quantile90 : matrix;
  X_test_quantile90 : matrix;
  df_train_ensemble_quantile90 : DataFrame
}.
Arguments mk {_}.
End Fit.

(** The dict [results_per_quantile_wp].  The last three keys are present
    for the linear model only. *)
Module WP.
Record results `{Artifacts} := mk {
  predictions : dict vector;
  best_results : BestResults;
  fitted_model : Model;
  X_train_augmented : matrix;
  X_test_augmented : matrix;
  df_train_ensemble_augmented : DataFrame;
  coefs : option vector;
  p_values : option vector;
  model_summary : option string
}.
Arguments mk {_}.
End WP.

(** Keyword arguments of [predico_ensemble_variability_predictions]. *)
Module FitVar.
Record args `{Artifacts} := mk {
  ens_params : EnsParams;
  X_train_2stage : matrix;
  y_train_2stage : vector;
  X_test_2stage : matrix;
  variability_predictions : dict vector;
  quantile : Q;
  iteration : nat;
  best_results_var : BestResultsVar;
  variability_predictions_insample : dict vector;
  variability_predictions_outsample : dict vector
}.
Arguments mk {_}.
End FitVar.

(** The dict [results_per_quantile_wpv]. *)
Module WPV.
Record results `{Artifacts} := mk {
  variability_predictions : dict vector;
  variability_predictions_insample : dict vector;
  variability_predictions_outsample : dict vector;
  best_results_var : BestResultsVar;
  var_fitted_model : Model
}.
Arguments mk {_}.
End WPV.

(** An entry of [previous_day_results_first_stage]. *)
Module Info1.
Record t `{Artifacts} := mk {
  fitted_model : Model;
  X_train_augmented : matrix;
  X_test_augmented : matrix;
  df_train_ensemble_augmented : DataFrame;
  buyer_scaler_stats : ScalerStats;
  coefs : option vector;
  p_values : option vector;
  model_summary : option string
}.
Arguments mk {_}.
End Info1.

(** An entry of [previous_day_results_second_stage]. *)
Module Info2.
Record t `{Artifacts} := mk {
  fitted_model : Model;
  var_fitted_model : Model;
  X_train_augmented : matrix;
  X_test_augmented : matrix;
  df_train_ensemble_augmented : DataFrame;
  df_train_ensemble : DataFrame;
  df_test_ensemble : DataFrame;
  y_train : vector;
  buyer_scaler_stats : ScalerStats
}.
Arguments mk {_}.
End Info2.

(** The result bundle, which is also what the state file holds. *)
Module Bundle.
Record stage (I B : Type) := mk_stage {
  predictions : DataFrame;
  info_contributions : dict I;
  best_results : B
}.
Record ramp := mk_ramp {
  predictions_outsample : DataFrame;
  predictions_insample : DataFrame
}.
Record t `{Artifacts} := mk {
  previous_lt : Timestamp;
  iteration : nat;
  wind_power : stage Info1.t BestResults;
  wind_power_variability : stage Info2.t BestResultsVar;
  wind_power_ramp : option ramp   (* simulation mode only *)
}.
Arguments mk {_}.
End Bundle.

(** What [create_ensemble_forecasts] returns: the whole dict in simulation
    mode, one predictions table otherwise. *)
Inductive Returned `{Artifacts} :=
| RetBundle (b : Bundle.t)
| RetPredictions (df : DataFrame).

(** The state files, by path. *)
Abbreviation Files := (gmap string Bundle.t).

(** The call log: one entry per call that leaves the module, with the
    arguments the statements below talk about and the outcome ([None] when
    the callee raised). *)
Inductive Event `{Artifacts} :=
| Ev_extract_quantile_columns (suffix : string) (out : option DataFrame)
| Ev_impute_mean_for_nan (tag : QTag) (out : option DataFrame)
| Ev_buyer_scaler_statistics (out : option ScalerStats)
| Ev_scale_forecasters_dataframe (out : option (DataFrame * DataFrame * DataFrame))
| Ev_create_augmented_dataframe (tag : QTag) (out : option DataFrame)
| Ev_scale_buyer_dataframe (out : option DataFrame)
| Ev_split_train_test_data (site : SplitSite) (out : option (DataFrame * DataFrame))
| Ev_concatenate_feat_targ_dataframes (out : option (DataFrame * DataFrame))
| Ev_split_quantile_train_test_data (tag : QTag) (out : option (DataFrame * DataFrame))
| Ev_get_numpy_Xy_train_test (out : option (matrix * vector * matrix * vector))
| Ev_get_numpy_Xy_train_test_quantile (train10 test10 train90 test90 : DataFrame)
    (out : option (matrix * matrix * matrix * matrix))
| Ev_load_or_initialize_results
    (out : option (string * nat * BestResults * BestResultsVar))
| Ev_predico_ensemble_predictions_per_quantile (a : Fit.args) (out : option WP.results)
| Ev_prepare_pre_test_data (test10 test90 : DataFrame) (out : option (matrix * vector))
| Ev_predict (out : option vector)
| Ev_create_2stage_dataframe (out : option DataFrame)
| Ev_create_augmented_dataframe_2stage (out : option DataFrame)
| Ev_get_numpy_Xy_train_test_2stage (out : option (matrix * vector * matrix))
| Ev_predico_ensemble_variability_predictions (a : FitVar.args) (out : option WPV.results)
| Ev_rescale_predictions (stage : Stage) (quantile : Q) (out : option (dict vector))
| Ev_set_non_negative_predictions (quantile : Q) (out : option (dict vector))
| Ev_rescale_targets (stage : Stage) (out : option DataFrame)
| Ev_collect_quantile_ensemble_predictions (stage : Stage) (predictions : dict vector)
    (out : option (list (Label * vector)))
| Ev_create_ensemble_dataframe (quantile_predictions_dict : list (Label * vector))
    (out : option DataFrame)
| Ev_create_var_ensemble_dataframe (var_predictions_dict : list (Label * vector))
    (out : option DataFrame)
| Ev_melt_dataframe (df : DataFrame) (out : option DataFrame)
| Ev_pd_concat (df : DataFrame) (s : Series) (out : option DataFrame)
| Ev_pickle_dump (path : string) (obj : Bundle.t).

(** The imported helpers.  Their code is in other modules of the repository
    ([source.utils.*], [source.ensemble.stack_generalization.*]) and in
    pandas; each is a function of its arguments that returns a value or
    raises ([None]). *)
Class Collaborators `{Artifacts} := {
  extract_quantile_columns : DataFrame -> string -> option DataFrame;
  impute_mean_for_nan : DataFrame -> option DataFrame;
  buyer_scaler_statistics :
    EnsParams -> DataFrame -> Timestamp -> Label -> option ScalerStats;
  scale_forecasters_dataframe :
    EnsParams -> ScalerStats -> DataFrame -> DataFrame -> DataFrame -> Timestamp ->
    option (DataFrame * DataFrame * DataFrame);
  (* df, max_lags, forecasters_diversity, add_lags, augment_with_poly,
     augment_with_roll_stats, differenciate, end_train, start_prediction *)
  create_augmented_dataframe :
    DataFrame -> Z -> bool -> bool -> bool -> bool -> bool -> Timestamp -> Timestamp ->
    option DataFrame;
  scale_buyer_dataframe : EnsParams -> ScalerStats -> DataFrame -> option DataFrame;
  split_train_test_data :
    DataFrame -> Timestamp -> Timestamp -> option (DataFrame * DataFrame);
  (* buyer_resource_name, df_train_ensemble, df_test_ensemble, df_train,
     df_test, max_lag *)
  concatenate_feat_targ_dataframes :
    Label -> DataFrame -> DataFrame -> DataFrame -> DataFrame -> Z ->
    option (DataFrame * DataFrame);
  split_quantile_train_test_data :
    DataFrame -> Timestamp -> Timestamp -> option (DataFrame * DataFrame);
  get_numpy_Xy_train_test :
    DataFrame -> DataFrame -> option (matrix * vector * matrix * vector);
  get_numpy_Xy_train_test_quantile :
    EnsParams -> DataFrame -> DataFrame -> DataFrame -> DataFrame ->
    option (matrix * matrix * matrix * matrix);
  (* reads the state file of the resource, if there is one *)
  load_or_initialize_results :
    EnsParams -> Label -> Files -> option (string * nat * BestResults * BestResultsVar);
  predico_ensemble_predictions_per_quantile : Fit.args -> option WP.results;
  prepare_pre_test_data :
    EnsParams -> Q -> DataFrame -> DataFrame -> DataFrame -> option (matrix * vector);
  (* fitted_model.predict(X) *)
  predict : Model -> matrix -> option vector;
  (* df_train_ensemble, df_test_ensemble, y_train, y_test,
     predictions_insample, predictions_outsample *)
  create_2stage_dataframe :
    DataFrame -> DataFrame -> vector -> vector -> vector -> vector -> option DataFrame;
  (* df_2stage, order_diff, differentiate, max_lags, add_lags,
     augment_with_poly, end_train, start_prediction *)
  create_augmented_dataframe_2stage :
    DataFrame -> Z -> bool -> Z -> bool -> bool -> Timestamp -> Timestamp ->
    option DataFrame;
  get_numpy_Xy_train_test_2stage :
    DataFrame -> DataFrame -> option (matrix * vector * matrix);
  predico_ensemble_variability_predictions : FitVar.args -> option WPV.results;
  (* the inverse transform of the configured scaling, on one value *)
  inverse_scale : EnsParams -> ScalerStats -> Stage -> float -> float;
  rescale_targets :
    EnsParams -> ScalerStats -> DataFrame -> string -> Stage -> option DataFrame;
  collect_quantile_ensemble_predictions :
    list Q -> DataFrame -> dict vector -> option (list (Label * vector));
  create_ensemble_dataframe :
    Label -> list Q -> list (Label * vector) -> DataFrame -> option DataFrame;
  create_var_ensemble_dataframe :
    Label -> list Q -> list (Label * vector) -> DataFrame -> option DataFrame;
  melt_dataframe : DataFrame -> option DataFrame;
  (* pd.concat([df, series], axis=1) *)
  pd_concat : DataFrame -> Series -> option DataFrame
}.

(* ===================================================================== *)
(** * The engine *)
(* ===================================================================== *)

Section Engine.
Context `{Collaborators}.

Local Open Scope string_scope.

Definition Eng (A : Type) := M Files Event A.

(** ** pandas and Python primitives used inline *)

(** [forecast_range[0]] *)
Definition first_timestamp (forecast_range : list Timestamp) : Eng Timestamp :=
  match forecast_range with
  | [] => raise (IndexError "index 0 is out of bounds for axis 0 with size 0")
  | t :: _ => ret t
  end.

(** [forecast_range[-1]] *)
Definition last_timestamp (forecast_range : list Timestamp) : Eng Timestamp :=
  match forecast_range with
  | [] => raise (IndexError "index -1 is out of bounds for axis 0 with size 0")
  | t :: l => ret (List.last l t)
  end.

(** [df.columns[0]] *)
Definition first_column (df : DataFrame) : Eng Label :=
  match columns df with
  | [] => raise (IndexError "index 0 is out of bounds for axis 0 with size 0")
  | (l, _) :: _ => ret l
  end.

(** [(a.index == b.index).all()]; comparing indexes of different lengths
    raises. *)
Definition index_equal_all (a b : DataFrame) : Eng bool :=
  if (length (index a) =? length (index b))%nat
  then ret (forallb (fun p => Z.eqb (fst p) (snd p)) (combine (index a) (index b)))
  else raise (ValueError "Lengths must match to compare").

(** ['norm_' + buyer_resource_name] *)
Definition norm_name (buyer_resource_name : Label) : Eng string :=
  match buyer_resource_name with
  | L_str s => ret ("norm_" ++ s)
  | L_num _ => raise (TypeError "can only concatenate str to str")
  end.

(** [df['targets']] *)
Definition getitem (df : DataFrame) (key : string) : Eng Series :=
  match find_column (L_str key) (columns df) with
  | Some v => ret (mk_Series (L_str key) (index df) v)
  | None => raise (KeyError key)
  end.

(** [pd.DataFrame(d, index=idx)] for a dict of arrays. *)
Definition pd_DataFrame_of (d : dict vector) (idx : list Timestamp) : Eng DataFrame :=
  if forallb (fun kv => (length (snd kv) =? length idx)%nat) d
  then ret {| index := idx; columns := map (fun kv => (L_num (fst kv), snd kv)) d |}
  else raise (ValueError "Length of values does not match length of index").

(** [with open(file_info, 'wb') as handle: pickle.dump(obj, handle, ...)] *)
Definition pickle_dump (file_info : string) (obj : Bundle.t) : Eng unit :=
  let* files := get in
  let* _ := put (<[file_info := obj]> files) in
  log (Ev_pickle_dump file_info obj).

(** A local that is bound only once the second stage has run. *)
Definition bound {A} (name : string) (x : option A) : Eng A :=
  match x with
  | Some a => ret a
  | None => raise (UnboundLocalError name)
  end.

(** [results[key]] for a key that may be absent. *)
Definition key {A} (name : string) (x : option A) : Eng A :=
  match x with
  | Some a => ret a
  | None => raise (KeyError name)
  end.

(** ** Rescaling and clipping of a predictions dict *)

(** Modelled from the spec: [rescale_predictions] is in
    [source.utils.data_preprocess], which is not part of this module.  By
    section 4.7 it inverse-transforms the raw model output of one quantile
    back to physical units with the statistics of section 4.2; the
    transform itself is the collaborator [inverse_scale]. *)
Definition rescale_predictions (predictions : dict vector) (ens_params : EnsParams)
    (buyer_scaler_stats : ScalerStats) (quantile : Q) (stage : Stage)
    : option (dict vector) :=
  match dict_get quantile predictions with
  | Some v =>
      Some (dict_set quantile (map (inverse_scale ens_params buyer_scaler_stats stage) v)
                     predictions)
  | None => None
  end.

Definition clip (x : float) : float :=
  match x with
  | Some v => if Qle_bool 0 v then Some v else Some 0%Q
  | None => None
  end.

(** Modelled from the spec: [set_non_negative_predictions] is in
    [source.utils.data_preprocess], which is not part of this module.  By
    section 4.7 it clips the predictions of one quantile to the
    non-negative domain by setting any negative value to zero. *)
Definition set_non_negative_predictions (predictions : dict vector) (quantile : Q)
    : option (dict vector) :=
  match dict_get quantile predictions with
  | Some v => Some (dict_set quantile (map clip v) predictions)
  | None => None
  end.

(** ** Lines 39-58: forecast range and quantile frames *)

(** [extract_quantile_columns], then column-mean imputation when the
    extraction is not empty (lines 43-46, 48-50, 52-54). *)
Definition extract_and_impute (df_market : DataFrame) (suffix : string) (tag : QTag)
    : Eng DataFrame :=
  let* df := call "extract_quantile_columns" (Ev_extract_quantile_columns suffix)
               (extract_quantile_columns df_market suffix) in
  if negb (empty df)
  then call "impute_mean_for_nan" (Ev_impute_mean_for_nan tag) (impute_mean_for_nan df)
  else ret df.

Definition quantile_frames (df_market : DataFrame)
    : Eng (DataFrame * DataFrame * DataFrame) :=
  let* df_ensemble_quantile50 := extract_and_impute df_market "q50" Q50 in
  let* df_ensemble_quantile10 := extract_and_impute df_market "q10" Q10 in
  let* df_ensemble_quantile90 := extract_and_impute df_market "q90" Q90 in
  if empty df_ensemble_quantile50
  then raise (ValueError "Quantile columns 'q50' were not found in the DataFrame.")
  else ret (df_ensemble_quantile50, df_ensemble_quantile10, df_ensemble_quantile90).

(** ** Lines 62-79: the configuration assertions *)

(** Line 76, with Python's precedence: [and] binds tighter than [or]. *)
Definition scale_features_check (ens_params : EnsParams) : bool :=
  negb (normalize ens_params
        || (standardize ens_params && negb (scale_features ens_params))).

Definition check_configuration (ens_params : EnsParams) : Eng unit :=
  let* _ := (if String.eqb (model_type ens_params) "LR"
             then assert_ (normalize ens_params || standardize ens_params)
                    "Normalize or Standardize must be True for model_type 'LR'"
             else ret tt) in
  let* _ := assert_ (scale_features_check ens_params)
              "scale_features must be True if normalize or standardize is True" in
  assert_ (negb (normalize ens_params && standardize ens_params))
    "normalize and standardize cannot both be True".

(** ** Lines 81-205: scaling, augmentation, split, training matrices *)

(** The locals that the rest of the run reads. *)
Record Prepared := mk_Prepared {
  buyer_scaler_stats : ScalerStats;
  df_ensemble_normalized_lag_quantile10 : DataFrame;
  df_ensemble_normalized_lag_quantile90 : DataFrame;
  df_test_targ : DataFrame;
  df_train_ensemble : DataFrame;
  df_test_ensemble : DataFrame;
  df_train_ensemble_quantile10 : DataFrame;
  df_test_ensemble_quantile10 : DataFrame;
  df_train_ensemble_quantile90 : DataFrame;
  df_test_ensemble_quantile90 : DataFrame;
  X_train : matrix;
  y_train : vector;
  X_test : matrix;
  X_train_quantile10 : matrix;
  X_test_quantile10 : matrix;
  X_train_quantile90 : matrix;
  X_test_quantile90 : matrix;
  file_info : string;
  iteration : nat;
  best_results0 : BestResults;
  best_results_var0 : BestResultsVar
}.

Definition augment (ens_params : EnsParams) (tag : QTag) (df : DataFrame)
    (end_train start_prediction : Timestamp) : Eng DataFrame :=
  call "create_augmented_dataframe" (Ev_create_augmented_dataframe tag)
    (create_augmented_dataframe df (max_lags ens_params)
       (forecasters_diversity ens_params) (add_lags ens_params)
       (augment_with_poly ens_params) (augment_with_roll_stats ens_params)
       (differenciate ens_params) end_train start_prediction).

(** Lines 110-123 and 125-138: the augmentation of one optional quantile
    frame, inside [if ens_params['add_quantile_predictions']]. *)
Definition augment_quantile (ens_params : EnsParams) (tag : QTag)
    (df_ensemble_normalized_quantile : DataFrame)
    (end_train start_prediction : Timestamp) : Eng DataFrame :=
  if negb (empty df_ensemble_normalized_quantile)
  then (if negb (empty df_ensemble_normalized_quantile)
        then augment ens_params tag df_ensemble_normalized_quantile
               end_train start_prediction
        else ret pd_DataFrame)
  else ret pd_DataFrame.

(** Lines 167-172 and 173-178: the split of one optional quantile frame. *)
Definition split_quantile (tag : QTag)
    (df_ensemble_normalized_quantile df_ensemble_normalized_lag_quantile : DataFrame)
    (end_train start_prediction : Timestamp) : Eng (DataFrame * DataFrame) :=
  if negb (empty df_ensemble_normalized_quantile)
  then call "split_quantile_train_test_data" (Ev_split_quantile_train_test_data tag)
         (split_quantile_train_test_data df_ensemble_normalized_lag_quantile
            end_train start_prediction)
  else ret (pd_DataFrame, pd_DataFrame).

Definition first_stage_data (ens_params : EnsParams) (df_buyer : DataFrame)
    (df_ensemble_quantile50 df_ensemble_quantile10 df_ensemble_quantile90 : DataFrame)
    (buyer_resource_name : Label)
    (end_training_timestamp start_prediction_timestamp : Timestamp) : Eng Prepared :=
  (* 82 *)
  let* buyer_scaler_stats :=
    call "buyer_scaler_statistics" Ev_buyer_scaler_statistics
      (buyer_scaler_statistics ens_params df_buyer end_training_timestamp
         buyer_resource_name) in
  (* 90 *)
  let* (df_ensemble_normalized, df_ensemble_normalized_quantile10,
         df_ensemble_normalized_quantile90) :=
    call "scale_forecasters_dataframe" Ev_scale_forecasters_dataframe
      (scale_forecasters_dataframe ens_params buyer_scaler_stats
         df_ensemble_quantile50 df_ensemble_quantile10 df_ensemble_quantile90
         end_training_timestamp) in
  (* 96-104 *)
  let* df_ensemble_normalized_lag :=
    augment ens_params Q50 df_ensemble_normalized
      end_training_timestamp start_prediction_timestamp in
  (* 107-140 *)
  let* (df_ensemble_normalized_lag_quantile10,
         df_ensemble_normalized_lag_quantile90) :=
    (if add_quantile_predictions ens_params
     then
       let* lag10 := augment_quantile ens_params Q10 df_ensemble_normalized_quantile10
                       end_training_timestamp start_prediction_timestamp in
       let* lag90 := augment_quantile ens_params Q90 df_ensemble_normalized_quantile90
                       end_training_timestamp start_prediction_timestamp in
       ret (lag10, lag90)
     else ret (pd_DataFrame, pd_DataFrame)) in
  (* 143 *)
  let* df_buyer_norm :=
    call "scale_buyer_dataframe" Ev_scale_buyer_dataframe
      (scale_buyer_dataframe ens_params buyer_scaler_stats df_buyer) in
  (* 146-152 *)
  let* (df_train_feat, df_test_feat) :=
    call "split_train_test_data" (Ev_split_train_test_data SplitFeatures)
      (split_train_test_data df_ensemble_normalized_lag
         end_training_timestamp start_prediction_timestamp) in
  let* (df_train_targ, df_test_targ) :=
    call "split_train_test_data" (Ev_split_train_test_data SplitTargets)
      (split_train_test_data df_buyer_norm
         end_training_timestamp start_prediction_timestamp) in
  (* 154-157 *)
  let* (df_train_ensemble, df_test_ensemble) :=
    call "concatenate_feat_targ_dataframes" Ev_concatenate_feat_targ_dataframes
      (concatenate_feat_targ_dataframes buyer_resource_name
         df_train_feat df_test_feat df_train_targ df_test_targ
         (max_lags ens_params)) in
  (* 163 *)
  let* _ := assert_ (len df_test_ensemble =? 96)%nat
              "Test dataframe must have 96 rows" in
  (* 166-180 *)
  let* (df_train_ensemble_quantile10, df_test_ensemble_quantile10,
         df_train_ensemble_quantile90, df_test_ensemble_quantile90) :=
    (if add_quantile_predictions ens_params
     then
       let* (train10, test10) :=
         split_quantile Q10 df_ensemble_normalized_quantile10
           df_ensemble_normalized_lag_quantile10
           end_training_timestamp start_prediction_timestamp in
       let* (train90, test90) :=
         split_quantile Q90 df_ensemble_normalized_quantile90
           df_ensemble_normalized_lag_quantile90
           end_training_timestamp start_prediction_timestamp in
       ret (train10, test10, train90, test90)
     else ret (pd_DataFrame, pd_DataFrame, pd_DataFrame, pd_DataFrame)) in
  (* 184 *)
  let* same_index := index_equal_all df_test_targ df_test_ensemble in
  let* _ := assert_ same_index "Datetime index are not equal" in
  (* 187 *)
  let* (X_train, y_train, X_test, _) :=
    call "get_numpy_Xy_train_test" Ev_get_numpy_Xy_train_test
      (get_numpy_Xy_train_test df_train_ensemble df_test_ensemble) in
  (* 190-195 *)
  let* (X_train_quantile10, X_test_quantile10,
         X_train_quantile90, X_test_quantile90) :=
    call "get_numpy_Xy_train_test_quantile"
      (Ev_get_numpy_Xy_train_test_quantile
         df_train_ensemble_quantile10 df_test_ensemble_quantile10
         df_train_ensemble_quantile90 df_test_ensemble_quantile90)
      (get_numpy_Xy_train_test_quantile ens_params
         df_train_ensemble_quantile10 df_test_ensemble_quantile10
         df_train_ensemble_quantile90 df_test_ensemble_quantile90) in
  (* 198 *)
  let* _ := assert_ (isna_sum_sum df_train_ensemble =? 0)%nat EmptyString in
  (* 205 *)
  let* files := get in
  let* (file_info, iteration, best_results, best_results_var) :=
    call "load_or_initialize_results" Ev_load_or_initialize_results
      (load_or_initialize_results ens_params buyer_resource_name files) in
  ret {| buyer_scaler_stats := buyer_scaler_stats;
         df_ensemble_normalized_lag_quantile10 := df_ensemble_normalized_lag_quantile10;
         df_ensemble_normalized_lag_quantile90 := df_ensemble_normalized_lag_quantile90;
         df_test_targ := df_test_targ;
         df_train_ensemble := df_train_ensemble;
         df_test_ensemble := df_test_ensemble;
         df_train_ensemble_quantile10 := df_train_ensemble_quantile10;
         df_test_ensemble_quantile10 := df_test_ensemble_quantile10;
         df_train_ensemble_quantile90 := df_train_ensemble_quantile90;
         df_test_ensemble_quantile90 := df_test_ensemble_quantile90;
         X_train := X_train;
         y_train := y_train;
         X_test := X_test;
         X_train_quantile10 := X_train_quantile10;
         X_test_quantile10 := X_test_quantile10;
         X_train_quantile90 := X_train_quantile90;
         X_test_quantile90 := X_test_quantile90;
         file_info := file_info;
         iteration := iteration;
         best_results0 := best_results;
         best_results_var0 := best_results_var |}.

(** ** Lines 265-376: the second stage (variability) *)

(** The locals of the inner loop over quantiles (lines 308-355). *)
Record VarState := mk_VarState {
  variability_predictions : dict vector;
  variability_predictions_insample : dict vector;
  variability_predictions_outsample : dict vector;
  v_best_results_var : BestResultsVar;
  v_previous_day_results_second_stage : dict Info2.t;
  v_var_pred_insample_df : option DataFrame;
  v_var_pred_outsample_df : option DataFrame
}.

(** The locals that only exist once the second stage has run. *)
Record SecondStage := mk_SecondStage {
  previous_day_results_second_stage : dict Info2.t;
  var_pred_insample_df : option DataFrame;
  var_pred_outsample_df : option DataFrame;
  df_2stage_test : DataFrame;
  df_var_ensemble : DataFrame;
  df_var_ensemble_melt : DataFrame
}.

Section SecondStageLoop.
Variable ens_params : EnsParams.
Variable P : Prepared.
(* results of the first-stage fit at quantile 0.5 *)
Variable fitted_model : Model.
Variable X_train_augmented : matrix.
Variable df_train_ensemble_augmented : DataFrame.

(** Lines 315-355: one iteration of the inner loop. *)
Definition variability_body (X_test_augmented : matrix)
    (df_2stage_train df_2stage_test : DataFrame)
    (X_train_2stage : matrix) (y_train_2stage : vector) (X_test_2stage : matrix)
    (quantile : Q) (v : VarState) : Eng VarState :=
  (* 318-327 *)
  let a := FitVar.mk ens_params X_train_2stage y_train_2stage X_test_2stage
             (variability_predictions v) quantile (iteration P)
             (v_best_results_var v)
             (variability_predictions_insample v)
             (variability_predictions_outsample v) in
  let* results_per_quantile_wpv :=
    call "predico_ensemble_variability_predictions"
      (Ev_predico_ensemble_variability_predictions a)
      (predico_ensemble_variability_predictions a) in
  (* 330-334 *)
  let variability_predictions :=
    WPV.variability_predictions results_per_quantile_wpv in
  let variability_predictions_insample :=
    WPV.variability_predictions_insample results_per_quantile_wpv in
  let variability_predictions_outsample :=
    WPV.variability_predictions_outsample results_per_quantile_wpv in
  let best_results_var := WPV.best_results_var results_per_quantile_wpv in
  let var_fitted_model := WPV.var_fitted_model results_per_quantile_wpv in
  (* 337-346 *)
  let previous_day_results_second_stage :=
    dict_set quantile
      (Info2.mk fitted_model var_fitted_model X_train_augmented X_test_augmented
         df_train_ensemble_augmented (df_train_ensemble P) (df_test_ensemble P)
         (y_train P) (buyer_scaler_stats P))
      (v_previous_day_results_second_stage v) in
  (* 349-351 *)
  let* variability_predictions :=
    call "rescale_predictions" (Ev_rescale_predictions Stage2nd quantile)
      (rescale_predictions variability_predictions ens_params
         (buyer_scaler_stats P) quantile Stage2nd) in
  let* variability_predictions_insample :=
    call "rescale_predictions" (Ev_rescale_predictions Stage2nd quantile)
      (rescale_predictions variability_predictions_insample ens_params
         (buyer_scaler_stats P) quantile Stage2nd) in
  let* variability_predictions_outsample :=
    call "rescale_predictions" (Ev_rescale_predictions Stage2nd quantile)
      (rescale_predictions variability_predictions_outsample ens_params
         (buyer_scaler_stats P) quantile Stage2nd) in
  (* 354-355 *)
  let* var_pred_insample_df :=
    pd_DataFrame_of variability_predictions_insample (index df_2stage_train) in
  let* var_pred_outsample_df :=
    pd_DataFrame_of variability_predictions_outsample (index df_2stage_test) in
  ret {| variability_predictions := variability_predictions;
         variability_predictions_insample := variability_predictions_insample;
         variability_predictions_outsample := variability_predictions_outsample;
         v_best_results_var := best_results_var;
         v_previous_day_results_second_stage := previous_day_results_second_stage;
         v_var_pred_insample_df := Some var_pred_insample_df;
         v_var_pred_outsample_df := Some var_pred_outsample_df |}.

(** Lines 265-376, entered when [quantile == 0.5]. *)
Definition second_stage (buyer_resource_name : Label)
    (end_training_timestamp start_prediction_timestamp : Timestamp)
    (quantile : Q) (best_results_var : BestResultsVar)
    : Eng (SecondStage * BestResultsVar) :=
  (* 271 *)
  let* (X_test_augmented, y_test) :=
    call "prepare_pre_test_data"
      (Ev_prepare_pre_test_data (df_test_ensemble_quantile10 P)
         (df_test_ensemble_quantile90 P))
      (prepare_pre_test_data ens_params quantile (df_test_ensemble P)
         (df_test_ensemble_quantile10 P) (df_test_ensemble_quantile90 P)) in
  (* 273-274 *)
  let* predictions_insample :=
    call "predict" Ev_predict (predict fitted_model X_train_augmented) in
  let* predictions_outsample :=
    call "predict" Ev_predict (predict fitted_model X_test_augmented) in
  (* 281 *)
  let* df_2stage :=
    call "create_2stage_dataframe" Ev_create_2stage_dataframe
      (create_2stage_dataframe (df_train_ensemble P) (df_test_ensemble P)
         (y_train P) y_test predictions_insample predictions_outsample) in
  (* 284-291 *)
  let* df_2stage_buyer :=
    call "create_augmented_dataframe_2stage" Ev_create_augmented_dataframe_2stage
      (create_augmented_dataframe_2stage df_2stage (order_diff ens_params)
         (differenciate_var ens_params) (max_lags_var ens_params)
         (add_lags_var ens_params) (augment_with_poly_var ens_params)
         end_training_timestamp start_prediction_timestamp) in
  (* 294-296 *)
  let* (df_2stage_train, df_2stage_test) :=
    call "split_train_test_data" (Ev_split_train_test_data Split2Stage)
      (split_train_test_data df_2stage_buyer
         end_training_timestamp start_prediction_timestamp) in
  (* 302 *)
  let* _ := assert_ (len df_2stage_test =? 96)%nat
              "Test dataframe must have 96 rows" in
  (* 305 *)
  let* (X_train_2stage, y_train_2stage, X_test_2stage) :=
    call "get_numpy_Xy_train_test_2stage" Ev_get_numpy_Xy_train_test_2stage
      (get_numpy_Xy_train_test_2stage df_2stage_train df_2stage_test) in
  (* 308-355 *)
  let* v :=
    for_each (quantiles ens_params)
      (variability_body X_test_augmented df_2stage_train df_2stage_test
         X_train_2stage y_train_2stage X_test_2stage)
      {| variability_predictions := [];
         variability_predictions_insample := [];
         variability_predictions_outsample := [];
         v_best_results_var := best_results_var;
         v_previous_day_results_second_stage := [];
         v_var_pred_insample_df := None;
         v_var_pred_outsample_df := None |} in
  (* 359-360 *)
  let* df_2stage_test :=
    call "rescale_targets" (Ev_rescale_targets Stage2nd)
      (rescale_targets ens_params (buyer_scaler_stats P) df_2stage_test
         "targets" Stage2nd) in
  (* 363 *)
  let* var_predictions_dict :=
    call "collect_quantile_ensemble_predictions"
      (Ev_collect_quantile_ensemble_predictions Stage2nd (variability_predictions v))
      (collect_quantile_ensemble_predictions (quantiles ens_params)
         df_2stage_test (variability_predictions v)) in
  (* 366-369 *)
  let* df_var_ensemble :=
    call "create_var_ensemble_dataframe"
      (Ev_create_var_ensemble_dataframe var_predictions_dict)
      (create_var_ensemble_dataframe buyer_resource_name (quantiles ens_params)
         var_predictions_dict df_2stage_test) in
  (* 372 *)
  let* df_var_ensemble_melt :=
    call "melt_dataframe" (Ev_melt_dataframe df_var_ensemble)
      (melt_dataframe df_var_ensemble) in
  ret ({| previous_day_results_second_stage :=
            v_previous_day_results_second_stage v;
          var_pred_insample_df := v_var_pred_insample_df v;
          var_pred_outsample_df := v_var_pred_outsample_df v;
          df_2stage_test := df_2stage_test;
          df_var_ensemble := df_var_ensemble;
          df_var_ensemble_melt := df_var_ensemble_melt |},
       v_best_results_var v).
End SecondStageLoop.

(** ** Lines 215-376: the first-stage loop over quantiles *)

Record LoopState := mk_LoopState {
  predictions : dict vector;
  previous_day_results_first_stage : dict Info1.t;
  best_results : BestResults;
  best_results_var : BestResultsVar;
  second : option SecondStage
}.

Definition first_stage_body (ens_params : EnsParams) (P : Prepared)
    (buyer_resource_name : Label)
    (end_training_timestamp start_prediction_timestamp : Timestamp)
    (quantile : Q) (s : LoopState) : Eng LoopState :=
  (* 226-234 *)
  let a := Fit.mk ens_params (X_train P) (X_test P) (y_train P) (df_train_ensemble P)
             (predictions s) quantile (best_results s) (iteration P)
             (X_train_quantile10 P) (X_test_quantile10 P)
             (df_train_ensemble_quantile10 P)
             (X_train_quantile90 P) (X_test_quantile90 P)
             (df_train_ensemble_quantile90 P) in
  let* results_per_quantile_wp :=
    call "predico_ensemble_predictions_per_quantile"
      (Ev_predico_ensemble_predictions_per_quantile a)
      (predico_ensemble_predictions_per_quantile a) in
  (* 237-242 *)
  let predictions := WP.predictions results_per_quantile_wp in
  let best_results := WP.best_results results_per_quantile_wp in
  let fitted_model := WP.fitted_model results_per_quantile_wp in
  let X_train_augmented := WP.X_train_augmented results_per_quantile_wp in
  let X_test_augmented := WP.X_test_augmented results_per_quantile_wp in
  let df_train_ensemble_augmented :=
    WP.df_train_ensemble_augmented results_per_quantile_wp in
  (* 243-246 *)
  let* lr :=
    (if String.eqb (model_type ens_params) "LR"
     then
       let* coefs := key "coefs" (WP.coefs results_per_quantile_wp) in
       let* p_values := key "p_values" (WP.p_values results_per_quantile_wp) in
       let* model_summary :=
         key "model-summary" (WP.model_summary results_per_quantile_wp) in
       ret (Some coefs, Some p_values, Some model_summary)
     else ret (None, None, None)) in
  (* 255-262 *)
  let previous_day_results_first_stage :=
    dict_set quantile
      (Info1.mk fitted_model X_train_augmented X_test_augmented
         df_train_ensemble_augmented (buyer_scaler_stats P)
         (fst (fst lr)) (snd (fst lr)) (snd lr))
      (previous_day_results_first_stage s) in
  (* 265 *)
  if Qeq_bool quantile (1 # 2)
  then
    let* (locals, best_results_var) :=
      second_stage ens_params P fitted_model X_train_augmented
        df_train_ensemble_augmented buyer_resource_name
        end_training_timestamp start_prediction_timestamp
        quantile (best_results_var s) in
    ret {| predictions := predictions;
           previous_day_results_first_stage := previous_day_results_first_stage;
           best_results := best_results;
           best_results_var := best_results_var;
           second := Some locals |}
  else
    ret {| predictions := predictions;
           previous_day_results_first_stage := previous_day_results_first_stage;
           best_results := best_results;
           best_results_var := best_results_var s;
           second := second s |}.

Definition first_stage_loop (ens_params : EnsParams) (P : Prepared)
    (buyer_resource_name : Label)
    (end_training_timestamp start_prediction_timestamp : Timestamp) : Eng LoopState :=
  for_each (quantiles ens_params)
    (first_stage_body ens_params P buyer_resource_name
       end_training_timestamp start_prediction_timestamp)
    {| predictions := [];
       previous_day_results_first_stage := [];
       best_results := best_results0 P;
       best_results_var := best_results_var0 P;
       second := None |}.

(** ** Lines 393-415: rescaling and assembly of the first-stage output *)

(** Lines 394-398: one iteration of the rescaling loop. *)
Definition rescale_body (ens_params : EnsParams) (P : Prepared)
    (quantile : Q) (predictions : dict vector) : Eng (dict vector) :=
  let* predictions :=
    call "rescale_predictions" (Ev_rescale_predictions Stage1st quantile)
      (rescale_predictions predictions ens_params (buyer_scaler_stats P)
         quantile Stage1st) in
  call "set_non_negative_predictions" (Ev_set_non_negative_predictions quantile)
    (set_non_negative_predictions predictions quantile).

(** Returns the rescaled [df_test_targ] and [df_pred_ensemble]. *)
Definition rescale_and_assemble (ens_params : EnsParams) (P : Prepared)
    (buyer_resource_name : Label) (s : LoopState) : Eng (DataFrame * DataFrame) :=
  (* 394-398 *)
  let* predictions :=
    for_each (quantiles ens_params) (rescale_body ens_params P) (predictions s) in
  (* 405-406 *)
  let* target_name := norm_name buyer_resource_name in
  let* df_test_targ :=
    call "rescale_targets" (Ev_rescale_targets Stage1st)
      (rescale_targets ens_params (buyer_scaler_stats P) (df_test_targ P)
         target_name Stage1st) in
  (* 409 *)
  let* quantile_predictions_dict :=
    call "collect_quantile_ensemble_predictions"
      (Ev_collect_quantile_ensemble_predictions Stage1st predictions)
      (collect_quantile_ensemble_predictions (quantiles ens_params)
         df_test_targ predictions) in
  (* 412-415 *)
  let* df_pred_ensemble :=
    call "create_ensemble_dataframe"
      (Ev_create_ensemble_dataframe quantile_predictions_dict)
      (create_ensemble_dataframe buyer_resource_name (quantiles ens_params)
         quantile_predictions_dict df_test_targ) in
  ret (df_test_targ, df_pred_ensemble).

(** ** Lines 417-466: the two run modes *)

(** The double-quote character of the two assertion messages below. *)
Definition dq : string := String (Ascii.ascii_of_nat 34) EmptyString.

Definition usecase_is (challenge_usecase : option string) (name : string) : bool :=
  match challenge_usecase with
  | Some u => String.eqb u name
  | None => false
  end.

(** Lines 419-443: [if simulation:] *)
Definition simulation_results (P : Prepared) (s : LoopState)
    (df_test_targ df_pred_ensemble : DataFrame)
    (end_training_timestamp : Timestamp) (challenge_usecase : option string)
    : Eng Returned :=
  (* 419 *)
  let* _ := assert_ (usecase_is challenge_usecase "simulation")
              ("challenge_usecase must be " ++ dq ++ "simulation" ++ dq) in
  (* 422 *)
  let* targets := getitem df_test_targ "targets" in
  let* df_results_wind_power :=
    call "pd.concat" (Ev_pd_concat df_pred_ensemble targets)
      (pd_concat df_pred_ensemble targets) in
  (* 423 *)
  let* locals := bound "df_var_ensemble" (second s) in
  let* targets_var := getitem (df_2stage_test locals) "targets" in
  let* df_results_wind_power_variability :=
    call "pd.concat" (Ev_pd_concat (df_var_ensemble locals) targets_var)
      (pd_concat (df_var_ensemble locals) targets_var) in
  (* 426-439 *)
  let* var_pred_outsample_df :=
    bound "var_pred_outsample_df" (var_pred_outsample_df locals) in
  let* var_pred_insample_df :=
    bound "var_pred_insample_df" (var_pred_insample_df locals) in
  let results_challenge_dict_simulation :=
    Bundle.mk end_training_timestamp (iteration P)
      (Bundle.mk_stage df_results_wind_power
         (previous_day_results_first_stage s) (best_results s))
      (Bundle.mk_stage df_results_wind_power_variability
         (previous_day_results_second_stage locals) (best_results_var s))
      (Some (Bundle.mk_ramp var_pred_outsample_df var_pred_insample_df)) in
  (* 441-443 *)
  let* _ := pickle_dump (file_info P) results_challenge_dict_simulation in
  ret (RetBundle results_challenge_dict_simulation).

(** Lines 445-466: [else:] *)
Definition challenge_results (P : Prepared) (s : LoopState)
    (df_pred_ensemble : DataFrame)
    (end_training_timestamp : Timestamp) (challenge_usecase : option string)
    : Eng Returned :=
  (* 448 *)
  let* df_pred_ensemble_melt :=
    call "melt_dataframe" (Ev_melt_dataframe df_pred_ensemble)
      (melt_dataframe df_pred_ensemble) in
  (* 451-461 *)
  let* locals := bound "df_var_ensemble_melt" (second s) in
  let results_challenge_dict :=
    Bundle.mk end_training_timestamp (iteration P)
      (Bundle.mk_stage df_pred_ensemble_melt
         (previous_day_results_first_stage s) (best_results s))
      (Bundle.mk_stage (df_var_ensemble_melt locals)
         (previous_day_results_second_stage locals) (best_results_var s))
      None in
  (* 463-464 *)
  let* _ := pickle_dump (file_info P) results_challenge_dict in
  (* 465 *)
  let* _ := assert_ (usecase_is challenge_usecase "wind_power"
                     || usecase_is challenge_usecase "wind_power_variability")
              ("challenge_usecase must be either " ++ dq ++ "wind_power" ++ dq
               ++ " or " ++ dq ++ "wind_power_variability" ++ dq) in
  (* 466 *)
  ret (RetPredictions
         (if usecase_is challenge_usecase "wind_power"
          then Bundle.predictions (Bundle.wind_power results_challenge_dict)
          else Bundle.predictions
                 (Bundle.wind_power_variability results_challenge_dict))).

(** ** The function *)

Definition create_ensemble_forecasts (ens_params : EnsParams)
    (df_buyer df_market : DataFrame) (end_training_timestamp : Timestamp)
    (forecast_range : list Timestamp)
    (challenge_usecase : option string) (simulation : bool) : Eng Returned :=
  (* 39-40 *)
  let* start_prediction_timestamp := first_timestamp forecast_range in
  let* end_prediction_timestamp := last_timestamp forecast_range in
  (* 42-58 *)
  let* (df_ensemble_quantile50, df_ensemble_quantile10, df_ensemble_quantile90) :=
    quantile_frames df_market in
  (* 60 *)
  let* buyer_resource_name := first_column df_buyer in
  (* 62-79 *)
  let* _ := check_configuration ens_params in
  (* 81-205 *)
  let* P :=
    first_stage_data ens_params df_buyer
      df_ensemble_quantile50 df_ensemble_quantile10 df_ensemble_quantile90
      buyer_resource_name end_training_timestamp start_prediction_timestamp in
  (* 215-376 *)
  let* s :=
    first_stage_loop ens_params P buyer_resource_name
      end_training_timestamp start_prediction_timestamp in
  (* 393-415 *)
  let* (df_test_targ, df_pred_ensemble) :=
    rescale_and_assemble ens_params P buyer_resource_name s in
  (* 417-466 *)
  if simulation
  then simulation_results P s df_test_targ df_pred_ensemble
         end_training_timestamp challenge_usecase
  else challenge_results P s df_pred_ensemble
         end_training_timestamp challenge_usecase.

End Engine.

(* ===================================================================== *)
(** * A small scenario *)
(* ===================================================================== *)

(** Two forecasters, four training timestamps and a 96-step horizon, with
    simple stand-ins for the collaborators: scaling is off (the inverse
    transform is the identity), augmentation adds nothing, and a fitted
    model predicts one constant per quantile. *)
Module Scenario.
Local Open Scope string_scope.

#[export] Instance artifacts : Artifacts :=
  {| Model := Q; ScalerStats := unit; BestResults := nat; BestResultsVar := nat |}.

Definition ends_with (suffix s : string) : bool :=
  let n := String.length s in
  let k := String.length suffix in
  (k <=? n)%nat && String.eqb (substring (n - k) k s) suffix.

Definition label_ends_with (suffix : string) (l : Label) : bool :=
  match l with L_str s => ends_with suffix s | L_num _ => false end.

Definition extract (df : DataFrame) (suffix : string) : option DataFrame :=
  match filter (fun c => label_ends_with suffix (fst c)) (columns df) with
  | [] => Some pd_DataFrame
  | cols => Some (mk_DataFrame (index df) cols)
  end.

Fixpoint total (v : vector) : Q * nat :=
  match v with
  | [] => (0%Q, 0%nat)
  | Some x :: v' => let (t, n) := total v' in (Qred (x + t), Datatypes.S n)
  | None :: v' => total v'
  end.

Definition mean (v : vector) : float :=
  match total v with
  | (_, O) => None
  | (t, n) => Some (Qred (t / inject_Z (Z.of_nat n)))
  end.

Definition impute (df : DataFrame) : option DataFrame :=
  Some (mk_DataFrame (index df)
          (map (fun c => (fst c, map (fun x => if isnan x then mean (snd c) else x) (snd c)))
               (columns df))).

Fixpoint keep {A} (mask : list bool) (l : list A) : list A :=
  match mask, l with
  | b :: mask', x :: l' => if b then x :: keep mask' l' else keep mask' l'
  | _, _ => []
  end.

Definition rows_where (p : Timestamp -> bool) (df : DataFrame) : DataFrame :=
  let mask := map p (index df) in
  mk_DataFrame (keep mask (index df)) (map (fun c => (fst c, keep mask (snd c))) (columns df)).

Definition split (df : DataFrame) (end_train start_prediction : Timestamp)
    : option (DataFrame * DataFrame) :=
  Some (rows_where (fun t => (t <=? end_train)%Z) df,
        rows_where (fun t => (start_prediction <=? t)%Z) df).

Definition same_index (a b : list Timestamp) : bool :=
  (length a =? length b)%nat && forallb (fun p => Z.eqb (fst p) (snd p)) (combine a b).

Definition drop_rows (n : nat) (df : DataFrame) : DataFrame :=
  mk_DataFrame (skipn n (index df)) (map (fun c => (fst c, skipn n (snd c))) (columns df)).

Definition concatenate (name : Label) (train_feat test_feat train_targ test_targ : DataFrame)
    (max_lag : Z) : option (DataFrame * DataFrame) :=
  if same_index (index train_feat) (index train_targ)
     && same_index (index test_feat) (index test_targ)
  then Some (drop_rows (Z.to_nat max_lag)
               (mk_DataFrame (index train_feat)
                  (columns train_feat ++ columns train_targ)%list),
             mk_DataFrame (index test_feat) (columns test_feat ++ columns test_targ)%list)
  else None.

Definition to_rows (df : DataFrame) : matrix :=
  map (fun i => map (fun c => nth i (snd c) None) (columns df)) (seq 0 (len df)).

Definition last_column (df : DataFrame) : vector :=
  match rev (columns df) with
  | [] => []
  | c :: _ => snd c
  end.

Definition constant (c : Q) (X : matrix) : vector := map (fun _ => Some c) X.

Definition is_LR (ens_params : EnsParams) : bool := String.eqb (model_type ens_params) "LR".

(** The first-stage model of quantile [q] predicts [q - 3/5]. *)
Definition fit (a : Fit.args) : option WP.results :=
  let m := Qred (Fit.quantile a - (3 # 5)) in
  Some (WP.mk
          (dict_set (Fit.quantile a) (constant m (Fit.X_test a)) (Fit.predictions a))
          (Datatypes.S (Fit.best_results a)) m (Fit.X_train a) (Fit.X_test a)
          (Fit.df_train_ensemble a)
          (if is_LR (Fit.ens_params a) then Some [] else None)
          (if is_LR (Fit.ens_params a) then Some [] else None)
          (if is_LR (Fit.ens_params a) then Some "summary" else None)).

(** The second-stage model of quantile [q] predicts [q - 1/2]. *)
Definition fit_var (a : FitVar.args) : option WPV.results :=
  let m := Qred (FitVar.quantile a - (1 # 2)) in
  Some (WPV.mk
          (dict_set (FitVar.quantile a) (constant m (FitVar.X_test_2stage a))
             (FitVar.variability_predictions a))
          (dict_set (FitVar.quantile a) (constant m (FitVar.X_train_2stage a))
             (FitVar.variability_predictions_insample a))
          (dict_set (FitVar.quantile a) (constant m (FitVar.X_test_2stage a))
             (FitVar.variability_predictions_outsample a))
          (Datatypes.S (FitVar.best_results_var a)) m).

Definition rename_norm (c : Label * vector) : Label * vector :=
  match fst c with
  | L_str s => (L_str ("norm_" ++ s), snd c)
  | l => (l, snd c)
  end.

Definition targets_of (df : DataFrame) (target_name : string) : option DataFrame :=
  match find_column (L_str target_name) (columns df) with
  | Some v => Some (mk_DataFrame (index df) [(L_str "targets", v)])
  | None => None
  end.

Fixpoint collect (qs : list Q) (predictions : dict vector) : option (list (Label * vector)) :=
  match qs with
  | [] => Some []
  | q :: qs' =>
      match dict_get q predictions, collect qs' predictions with
      | Some v, Some l => Some ((L_num q, v) :: l)
      | _, _ => None
      end
  end.

Definition label_value (l : Label) : float :=
  match l with L_num q => Some q | L_str _ => None end.

Definition melt (df : DataFrame) : option DataFrame :=
  Some (mk_DataFrame
          (concat (map (fun _ => index df) (columns df)))
          [(L_str "variable",
            concat (map (fun c => map (fun _ => label_value (fst c)) (snd c)) (columns df)));
           (L_str "value", concat (map snd (columns df)))]).

Definition state_file : string := "results.pickle".

Definition load (files : Files) : option (string * nat * nat * nat) :=
  match files !! state_file with
  | Some b =>
      Some (state_file, Datatypes.S (Bundle.iteration b),
            Bundle.best_results (Bundle.wind_power b),
            Bundle.best_results (Bundle.wind_power_variability b))
  | None => Some (state_file, 0%nat, 0%nat, 0%nat)
  end.

#[export] Instance collaborators : Collaborators := {|
  extract_quantile_columns := extract;
  impute_mean_for_nan := impute;
  buyer_scaler_statistics := fun _ _ _ _ => Some tt;
  scale_forecasters_dataframe := fun _ _ d50 d10 d90 _ => Some (d50, d10, d90);
  create_augmented_dataframe := fun df _ _ _ _ _ _ _ _ => Some df;
  scale_buyer_dataframe := fun _ _ df =>
    Some (mk_DataFrame (index df) (map rename_norm (columns df)));
  split_train_test_data := split;
  concatenate_feat_targ_dataframes := concatenate;
  split_quantile_train_test_data := split;
  get_numpy_Xy_train_test := fun train test =>
    Some (to_rows train, last_column train, to_rows test, last_column test);
  get_numpy_Xy_train_test_quantile := fun _ a b c d =>
    Some (to_rows a, to_rows b, to_rows c, to_rows d);
  load_or_initialize_results := fun _ _ files => load files;
  predico_ensemble_predictions_per_quantile := fit;
  prepare_pre_test_data := fun _ _ test _ _ => Some (to_rows test, last_column test);
  predict := fun m X => Some (constant m X);
  create_2stage_dataframe := fun train test y_train y_test p_in p_out =>
    Some (mk_DataFrame (index train ++ index test)%list
            [(L_str "predictions", (p_in ++ p_out)%list);
             (L_str "targets", (y_train ++ y_test)%list)]);
  create_augmented_dataframe_2stage := fun df _ _ _ _ _ _ _ => Some df;
  get_numpy_Xy_train_test_2stage := fun train test =>
    Some (to_rows train, last_column train, to_rows test);
  predico_ensemble_variability_predictions := fit_var;
  inverse_scale := fun _ _ _ x => x;
  rescale_targets := fun _ _ df target_name _ => targets_of df target_name;
  collect_quantile_ensemble_predictions := fun qs _ predictions => collect qs predictions;
  create_ensemble_dataframe := fun _ _ d df => Some (mk_DataFrame (index df) d);
  create_var_ensemble_dataframe := fun _ _ d df => Some (mk_DataFrame (index df) d);
  melt_dataframe := melt;
  pd_concat := fun df s =>
    if same_index (index df) (s_index s)
    then Some (mk_DataFrame (index df) (columns df ++ [(s_name s, s_values s)])%list)
    else None
|}.

(** *** Inputs *)

Definition timestamps : list Timestamp := map Z.of_nat (seq 0 100).

Definition column_of (f : nat -> float) : vector := map f (seq 0 100).

(** Forecaster 1 misses one value in the training window. *)
Definition f1_q50 : vector :=
  column_of (fun i => if (i =? 1)%nat then None else Some (Z.of_nat i # 100)).
Definition f2_q50 : vector := column_of (fun _ => Some (1 # 2)).
Definition f1_q10 : vector := column_of (fun _ => Some (1 # 10)).
Definition f1_q90 : vector := column_of (fun _ => Some (9 # 10)).

(** A market frame with q50 columns only. *)
Definition df_market : DataFrame :=
  mk_DataFrame timestamps [(L_str "f1_q50", f1_q50); (L_str "f2_q50", f2_q50)].

(** A market frame with the three quantiles. *)
Definition df_market_q : DataFrame :=
  mk_DataFrame timestamps
    [(L_str "f1_q10", f1_q10); (L_str "f1_q50", f1_q50);
     (L_str "f2_q50", f2_q50); (L_str "f1_q90", f1_q90)].

(** A market frame whose q50 forecaster has no value at all: the column
    mean is NaN and imputation leaves the column as it is. *)
Definition df_market_nan : DataFrame :=
  mk_DataFrame timestamps [(L_str "f1_q50", column_of (fun _ => None))].


Definition df_buyer : DataFrame :=
  mk_DataFrame timestamps [(L_str "wind", column_of (fun _ => Some (1 # 4)))].

Definition end_training_timestamp : Timestamp := 3%Z.

Definition forecast_range : list Timestamp := map Z.of_nat (seq 4 96).

Definition params (model : string) (norm std scale add_q : bool) : EnsParams :=
  {| model_type := model;
     normalize := norm;
     standardize := std;
     scale_features := scale;
     max_lags := 0;
     forecasters_diversity := false;
     add_lags := false;
     augment_with_poly := false;
     augment_with_roll_stats := false;
     differenciate := false;
     add_quantile_predictions := add_q;
     quantiles := [1 # 10; 1 # 2; 9 # 10];
     order_diff := 1;
     differenciate_var := false;
     max_lags_var := 0;
     add_lags_var := false;
     augment_with_poly_var := false |}.

(** Gradient boosting, no scaling, with the q10/q90 augmentation on. *)
Definition ens_params : EnsParams := params "GBR" false false false true.

Definition run (ens : EnsParams) (market : DataFrame)
    (challenge_usecase : option string) (simulation : bool) : Out Files Event Returned :=
  create_ensemble_forecasts ens df_buyer market end_training_timestamp forecast_range
    challenge_usecase simulation ∅.
End Scenario.


(* ===================================================================== *)
(** * Vocabulary of the statements *)
(* ===================================================================== *)

Section Vocabulary.
Context `{Collaborators}.

Local Open Scope string_scope.

(** ** Messages of the engine's own errors *)

Definition msg_q50 : string :=
  "Quantile columns 'q50' were not found in the DataFrame.".
Definition msg_LR : string :=
  "Normalize or Standardize must be True for model_type 'LR'".
Definition msg_scale : string :=
  "scale_features must be True if normalize or standardize is True".
Definition msg_both : string := "normalize and standardize cannot both be True".
Definition msg_96 : string := "Test dataframe must have 96 rows".
Definition msg_usecase : string :=
  "challenge_usecase must be either " ++ dq ++ "wind_power" ++ dq
  ++ " or " ++ dq ++ "wind_power_variability" ++ dq.

(** An error other than the missing-q50 one. *)
Definition later_error (x : exn) : Prop := x <> ValueError msg_q50.

(** ** The configuration assertions as one function *)

Definition configuration_error (ens_params : EnsParams) : option exn :=
  if String.eqb (model_type ens_params) "LR"
     && negb (normalize ens_params || standardize ens_params)
  then Some (AssertionError msg_LR)
  else if negb (scale_features_check ens_params)
  then Some (AssertionError msg_scale)
  else if normalize ens_params && standardize ens_params
  then Some (AssertionError msg_both)
  else None.



(** ** Kinds of calls *)

Definition suffix_of (tag : QTag) : string :=
  match tag with Q50 => "q50" | Q10 => "q10" | Q90 => "q90" end.

(** Extraction and imputation of the market frame. *)
Definition is_frame_event (ev : Event) : Prop :=
  match ev with
  | Ev_extract_quantile_columns _ _ | Ev_impute_mean_for_nan _ _ => True
  | _ => False
  end.

(** An extraction or imputation call raised. *)
Definition frame_call_raised (ev : Event) : Prop :=
  match ev with
  | Ev_extract_quantile_columns _ None | Ev_impute_mean_for_nan _ None => True
  | _ => False
  end.

(** No imputation of quantile [tag]. *)
Definition not_imputed (tag : QTag) (ev : Event) : Prop :=
  match ev with Ev_impute_mean_for_nan t _ => t <> tag | _ => True end.

(** A model is fitted or used. *)
Definition is_model_event (ev : Event) : Prop :=
  match ev with
  | Ev_predico_ensemble_predictions_per_quantile _ _
  | Ev_predico_ensemble_variability_predictions _ _
  | Ev_predict _ => True
  | _ => False
  end.

(** The state file is not written. *)
Definition not_dump (ev : Event) : Prop :=
  match ev with Ev_pickle_dump _ _ => False | _ => True end.

(** The test partition a call produced: the first-stage ensemble split
    (line 154) and the second-stage split (line 294). *)
Definition test_partition (ev : Event) : option DataFrame :=
  match ev with
  | Ev_concatenate_feat_targ_dataframes (Some (_, test)) => Some test
  | Ev_split_train_test_data Split2Stage (Some (_, test)) => Some test
  | _ => None
  end.

(** No value of the array is negative (NaN is not). *)
Definition nonneg (x : float) : Prop :=
  match x with Some v => (0 <= v)%Q | None => True end.

Definition nonneg_at (q : Q) (predictions : dict vector) : Prop :=
  exists v, dict_get q predictions = Some v /\ Forall nonneg v.


(** The q10/q90 frames a call receives are all [pd.DataFrame()], and the
    q10/q90 augmentation and split are not called. *)
Definition q_frames_empty (ev : Event) : Prop :=
  match ev with
  | Ev_predico_ensemble_predictions_per_quantile a _ =>
      Fit.df_train_ensemble_quantile10 a = pd_DataFrame
      /\ Fit.df_train_ensemble_quantile90 a = pd_DataFrame
  | Ev_get_numpy_Xy_train_test_quantile train10 test10 train90 test90 _ =>
      train10 = pd_DataFrame /\ test10 = pd_DataFrame
      /\ train90 = pd_DataFrame /\ test90 = pd_DataFrame
  | Ev_prepare_pre_test_data test10 test90 _ =>
      test10 = pd_DataFrame /\ test90 = pd_DataFrame
  | Ev_create_augmented_dataframe tag _ => tag = Q50
  | Ev_split_quantile_train_test_data _ _ => False
  | _ => True
  end.

(** The downstream stages of quantile [tag] (q10 or q90) are no-ops: no
    augmentation or split for it, and every call that takes its frames
    receives [pd.DataFrame()]. *)
Definition skips (tag : QTag) (ev : Event) : Prop :=
  match ev with
  | Ev_create_augmented_dataframe t _ => t <> tag
  | Ev_split_quantile_train_test_data t _ => t <> tag
  | Ev_get_numpy_Xy_train_test_quantile train10 test10 train90 test90 _ =>
      match tag with
      | Q10 => train10 = pd_DataFrame /\ test10 = pd_DataFrame
      | Q90 => train90 = pd_DataFrame /\ test90 = pd_DataFrame
      | Q50 => True
      end
  | Ev_predico_ensemble_predictions_per_quantile a _ =>
      match tag with
      | Q10 => Fit.df_train_ensemble_quantile10 a = pd_DataFrame
      | Q90 => Fit.df_train_ensemble_quantile90 a = pd_DataFrame
      | Q50 => True
      end
  | Ev_prepare_pre_test_data test10 test90 _ =>
      match tag with
      | Q10 => test10 = pd_DataFrame
      | Q90 => test90 = pd_DataFrame
      | Q50 => True
      end
  | _ => True
  end.

(** The scaled frame of quantile [tag] among the three that
    [scale_forecasters_dataframe] returns. *)
Definition scaled_frame (tag : QTag) (out : DataFrame * DataFrame * DataFrame)
    : DataFrame :=
  match tag with
  | Q50 => fst (fst out)
  | Q10 => snd (fst out)
  | Q90 => snd out
  end.

(** The locals of quantile [tag]: augmented, train and test frame. *)
Definition quantile_locals (tag : QTag) (P : Prepared) : list DataFrame :=
  match tag with
  | Q10 => [df_ensemble_normalized_lag_quantile10 P; df_train_ensemble_quantile10 P;
            df_test_ensemble_quantile10 P]
  | Q90 => [df_ensemble_normalized_lag_quantile90 P; df_train_ensemble_quantile90 P;
            df_test_ensemble_quantile90 P]
  | Q50 => []
  end.

(** ** What each phase guarantees *)

(** Lines 39-58. *)
Record frames_post
    (r : exn + DataFrame * DataFrame * DataFrame) (e : list Event) : Prop := {
  fp_events : Forall is_frame_event e;
  fp_missing : r = inl (ValueError msg_q50) ->
    exists d, empty d = true /\
      (In (Ev_extract_quantile_columns "q50" (Some d)) e
       \/ In (Ev_impute_mean_for_nan Q50 (Some d)) e);
  fp_mandatory : forall d, In (Ev_extract_quantile_columns "q50" (Some d)) e ->
    empty d = true ->
    r = inl (ValueError msg_q50) \/ Exists frame_call_raised e;
  fp_optional : forall tag d, tag <> Q50 ->
    In (Ev_extract_quantile_columns (suffix_of tag) (Some d)) e ->
    empty d = true -> Forall (not_imputed tag) e
}.

(** Calls of lines 81-205. *)
Definition prep_kind (ev : Event) : Prop :=
  match ev with
  | Ev_buyer_scaler_statistics _ | Ev_scale_forecasters_dataframe _
  | Ev_create_augmented_dataframe _ _ | Ev_scale_buyer_dataframe _
  | Ev_concatenate_feat_targ_dataframes _ | Ev_split_quantile_train_test_data _ _
  | Ev_get_numpy_Xy_train_test _ | Ev_get_numpy_Xy_train_test_quantile _ _ _ _ _
  | Ev_load_or_initialize_results _ => True
  | Ev_split_train_test_data site _ => site <> Split2Stage
  | _ => False
  end.

(** Lines 81-205. *)
Record prepared_post (ens_params : EnsParams) (r : exn + Prepared) (e : list Event)
    : Prop := {
  pp_kind : Forall prep_kind e;
  pp_error : forall x, r = inl x -> later_error x;
  pp_96 : forall train test,
    In (Ev_concatenate_feat_targ_dataframes (Some (train, test))) e ->
    len test = 96%nat \/ r = inl (AssertionError msg_96);
  pp_nan : forall train test,
    In (Ev_concatenate_feat_targ_dataframes (Some (train, test))) e ->
    isna_sum_sum train <> 0%nat ->
    exists x, r = inl x /\
      forall a b c d out,
        In (Ev_get_numpy_Xy_train_test_quantile a b c d (Some out)) e ->
        x = AssertionError EmptyString;
  pp_ok : forall P, r = inr P ->
    In (Ev_concatenate_feat_targ_dataframes
          (Some (df_train_ensemble P, df_test_ensemble P))) e
    /\ isna_sum_sum (df_train_ensemble P) = 0%nat
    /\ len (df_test_ensemble P) = 96%nat
    /\ In (Ev_get_numpy_Xy_train_test_quantile
             (df_train_ensemble_quantile10 P) (df_test_ensemble_quantile10 P)
             (df_train_ensemble_quantile90 P) (df_test_ensemble_quantile90 P)
             (Some (X_train_quantile10 P, X_test_quantile10 P,
                    X_train_quantile90 P, X_test_quantile90 P))) e;
  pp_flag : add_quantile_predictions ens_params = false ->
    Forall q_frames_empty e
    /\ forall P, r = inr P ->
         Forall (eq pd_DataFrame) (quantile_locals Q10 P ++ quantile_locals Q90 P);
  pp_skip : forall out tag,
    In (Ev_scale_forecasters_dataframe (Some out)) e -> tag <> Q50 ->
    empty (scaled_frame tag out) = true ->
    Forall (skips tag) e
    /\ forall P, r = inr P -> Forall (eq pd_DataFrame) (quantile_locals tag P)
}.

(** Calls of the inner loop over quantiles (lines 315-355). *)
Definition var_kind (ev : Event) : Prop :=
  match ev with
  | Ev_predico_ensemble_variability_predictions _ _ => True
  | Ev_rescale_predictions stage _ _ => stage = Stage2nd
  | _ => False
  end.

(** Calls of the first-stage loop (lines 223-376) and what they receive
    from the prepared data [P]; [failed] says that the run stopped on the
    96-rows assertion. *)
Definition loop_event (P : Prepared) (failed : Prop) (ev : Event) : Prop :=
  match ev with
  | Ev_predico_ensemble_predictions_per_quantile a _ =>
      Fit.df_train_ensemble a = df_train_ensemble P
      /\ Fit.df_train_ensemble_quantile10 a = df_train_ensemble_quantile10 P
      /\ Fit.df_train_ensemble_quantile90 a = df_train_ensemble_quantile90 P
      /\ (Fit.X_train_quantile10 a, Fit.X_test_quantile10 a,
          Fit.X_train_quantile90 a, Fit.X_test_quantile90 a)
         = (X_train_quantile10 P, X_test_quantile10 P,
            X_train_quantile90 P, X_test_quantile90 P)
  | Ev_prepare_pre_test_data test10 test90 _ =>
      test10 = df_test_ensemble_quantile10 P
      /\ test90 = df_test_ensemble_quantile90 P
  | Ev_split_train_test_data site out =>
      site = Split2Stage
      /\ forall train test, out = Some (train, test) -> len test = 96%nat \/ failed
  | Ev_collect_quantile_ensemble_predictions stage _ _ => stage = Stage2nd
  | Ev_rescale_predictions stage _ _ => stage = Stage2nd
  | Ev_rescale_targets stage _ => stage = Stage2nd
  | Ev_predict _ | Ev_create_2stage_dataframe _
  | Ev_create_augmented_dataframe_2stage _ | Ev_get_numpy_Xy_train_test_2stage _
  | Ev_predico_ensemble_variability_predictions _ _
  | Ev_create_var_ensemble_dataframe _ _ | Ev_melt_dataframe _ _ => True
  | _ => False
  end.

(** The second-stage tables are the ones the log shows being built. *)
Definition second_logged (L : SecondStage) (e : list Event) : Prop :=
  (exists d, In (Ev_create_var_ensemble_dataframe d (Some (df_var_ensemble L))) e)
  /\ In (Ev_melt_dataframe (df_var_ensemble L) (Some (df_var_ensemble_melt L))) e.

(** Lines 215-376. *)
Record loop_post (P : Prepared) (r : exn + LoopState) (e : list Event) : Prop := {
  lp_events : Forall (loop_event P (r = inl (AssertionError msg_96))) e;
  lp_error : forall x, r = inl x -> later_error x;
  lp_second : forall st, r = inr st ->
    forall L, second st = Some L -> second_logged L e
}.

(** Calls of the rescaling loop (lines 394-398). *)
Definition rescale_kind (ev : Event) : Prop :=
  match ev with
  | Ev_rescale_predictions stage _ _ => stage = Stage1st
  | Ev_set_non_negative_predictions _ _ => True
  | _ => False
  end.

(** Calls of the rescaling and assembly of the first-stage output (lines
    393-415); the predictions handed to the assembly are clipped. *)
Definition assemble_event (ens_params : EnsParams) (ev : Event) : Prop :=
  match ev with
  | Ev_rescale_predictions stage _ _ => stage = Stage1st
  | Ev_set_non_negative_predictions _ _ => True
  | Ev_rescale_targets stage _ => stage = Stage1st
  | Ev_collect_quantile_ensemble_predictions stage predictions _ =>
      stage = Stage1st
      /\ forall q, In q (quantiles ens_params) -> nonneg_at q predictions
  | Ev_create_ensemble_dataframe _ _ => True
  | _ => False
  end.

(** Lines 393-415. *)
Record assemble_post (ens_params : EnsParams) (r : exn + DataFrame * DataFrame)
    (e : list Event) : Prop := {
  ap_events : Forall (assemble_event ens_params) e;
  ap_error : forall x, r = inl x -> later_error x;
  ap_ok : forall targ pred, r = inr (targ, pred) ->
    exists predictions d,
      In (Ev_collect_quantile_ensemble_predictions Stage1st predictions (Some d)) e
      /\ In (Ev_create_ensemble_dataframe d (Some pred)) e
}.

(** Calls of the two run modes (lines 417-466). *)
Definition final_kind (ev : Event) : Prop :=
  match ev with
  | Ev_pd_concat _ _ _ | Ev_melt_dataframe _ _ | Ev_pickle_dump _ _ => True
  | _ => False
  end.

(** The simulation bundle built from the locals. *)
Definition simulation_bundle (P : Prepared) (st : LoopState) (L : SecondStage)
    (t : Timestamp) (wide wide_var outs ins : DataFrame) : Bundle.t :=
  Bundle.mk t (iteration P)
    (Bundle.mk_stage wide (previous_day_results_first_stage st) (best_results st))
    (Bundle.mk_stage wide_var (previous_day_results_second_stage L)
       (best_results_var st))
    (Some (Bundle.mk_ramp outs ins)).

(** The bundle of the normal mode. *)
Definition challenge_bundle (P : Prepared) (st : LoopState) (L : SecondStage)
    (t : Timestamp) (melted : DataFrame) : Bundle.t :=
  Bundle.mk t (iteration P)
    (Bundle.mk_stage melted (previous_day_results_first_stage st) (best_results st))
    (Bundle.mk_stage (df_var_ensemble_melt L) (previous_day_results_second_stage L)
       (best_results_var st))
    None.

(** Lines 419-443. *)
Record simulation_post (P : Prepared) (st : LoopState) (pred : DataFrame)
    (t : Timestamp) (cu : option string) (files : Files)
    (r : exn + Returned) (s' : Files) (e : list Event) : Prop := {
  sp_events : Forall final_kind e;
  sp_err : forall x, r = inl x -> later_error x /\ s' = files /\ Forall not_dump e;
  sp_ok : forall v, r = inr v ->
    usecase_is cu "simulation" = true
    /\ exists L tg tgv wide wide_var outs ins,
         second st = Some L
         /\ e = [Ev_pd_concat pred tg (Some wide);
                 Ev_pd_concat (df_var_ensemble L) tgv (Some wide_var);
                 Ev_pickle_dump (file_info P)
                   (simulation_bundle P st L t wide wide_var outs ins)]
         /\ s_name tg = L_str "targets" /\ s_name tgv = L_str "targets"
         /\ v = RetBundle (simulation_bundle P st L t wide wide_var outs ins)
         /\ s' = <[file_info P := simulation_bundle P st L t wide wide_var outs ins]> files
}.

(** Lines 445-466. *)
Record challenge_post (P : Prepared) (st : LoopState) (pred : DataFrame)
    (t : Timestamp) (cu : option string) (files : Files)
    (r : exn + Returned) (s' : Files) (e : list Event) : Prop := {
  cp_events : Forall final_kind e;
  cp_err : forall x, r = inl x ->
    later_error x
    /\ ((s' = files /\ Forall not_dump e)
        \/ (x = AssertionError msg_usecase
            /\ usecase_is cu "wind_power" = false
            /\ usecase_is cu "wind_power_variability" = false
            /\ exists L melted,
                 e = [Ev_melt_dataframe pred (Some melted);
                      Ev_pickle_dump (file_info P) (challenge_bundle P st L t melted)]
                 /\ s' = <[file_info P := challenge_bundle P st L t melted]> files));
  cp_ok : forall v, r = inr v ->
    (usecase_is cu "wind_power" = true
     \/ usecase_is cu "wind_power_variability" = true)
    /\ exists L melted,
         second st = Some L
         /\ e = [Ev_melt_dataframe pred (Some melted);
                 Ev_pickle_dump (file_info P) (challenge_bundle P st L t melted)]
         /\ s' = <[file_info P := challenge_bundle P st L t melted]> files
         /\ v = RetPredictions
                  (if usecase_is cu "wind_power" then melted
                   else df_var_ensemble_melt L)
}.

End Vocabulary.

(* ===================================================================== *)
(** * Vocabulary of the call log *)
(* ===================================================================== *)

Section CallLog.
Context `{Collaborators}.

Local Open Scope string_scope.

(** The Python name of the callee of a logged call. *)
Definition callee_of (ev : Event) : string :=
  match ev with
  | Ev_extract_quantile_columns _ _ => "extract_quantile_columns"
  | Ev_impute_mean_for_nan _ _ => "impute_mean_for_nan"
  | Ev_buyer_scaler_statistics _ => "buyer_scaler_statistics"
  | Ev_scale_forecasters_dataframe _ => "scale_forecasters_dataframe"
  | Ev_create_augmented_dataframe _ _ => "create_augmented_dataframe"
  | Ev_scale_buyer_dataframe _ => "scale_buyer_dataframe"
  | Ev_split_train_test_data _ _ => "split_train_test_data"
  | Ev_concatenate_feat_targ_dataframes _ => "concatenate_feat_targ_dataframes"
  | Ev_split_quantile_train_test_data _ _ => "split_quantile_train_test_data"
  | Ev_get_numpy_Xy_train_test _ => "get_numpy_Xy_train_test"
  | Ev_get_numpy_Xy_train_test_quantile _ _ _ _ _ => "get_numpy_Xy_train_test_quantile"
  | Ev_load_or_initialize_results _ => "load_or_initialize_results"
  | Ev_predico_ensemble_predictions_per_quantile _ _ =>
      "predico_ensemble_predictions_per_quantile"
  | Ev_prepare_pre_test_data _ _ _ => "prepare_pre_test_data"
  | Ev_predict _ => "predict"
  | Ev_create_2stage_dataframe _ => "create_2stage_dataframe"
  | Ev_create_augmented_dataframe_2stage _ => "create_augmented_dataframe_2stage"
  | Ev_get_numpy_Xy_train_test_2stage _ => "get_numpy_Xy_train_test_2stage"
  | Ev_predico_ensemble_variability_predictions _ _ =>
      "predico_ensemble_variability_predictions"
  | Ev_rescale_predictions _ _ _ => "rescale_predictions"
  | Ev_set_non_negative_predictions _ _ => "set_non_negative_predictions"
  | Ev_rescale_targets _ _ => "rescale_targets"
  | Ev_collect_quantile_ensemble_predictions _ _ _ =>
      "collect_quantile_ensemble_predictions"
  | Ev_create_ensemble_dataframe _ _ => "create_ensemble_dataframe"
  | Ev_create_var_ensemble_dataframe _ _ => "create_var_ensemble_dataframe"
  | Ev_melt_dataframe _ _ => "melt_dataframe"
  | Ev_pd_concat _ _ _ => "pd.concat"
  | Ev_pickle_dump _ _ => "pickle.dump"
  end.

(** The logged call raised. *)
Definition raised (ev : Event) : bool :=
  match ev with
  | Ev_extract_quantile_columns _ None | Ev_impute_mean_for_nan _ None
  | Ev_buyer_scaler_statistics None | Ev_scale_forecasters_dataframe None
  | Ev_create_augmented_dataframe _ None | Ev_scale_buyer_dataframe None
  | Ev_split_train_test_data _ None | Ev_concatenate_feat_targ_dataframes None
  | Ev_split_quantile_train_test_data _ None | Ev_get_numpy_Xy_train_test None
  | Ev_get_numpy_Xy_train_test_quantile _ _ _ _ None
  | Ev_load_or_initialize_results None
  | Ev_predico_ensemble_predictions_per_quantile _ None
  | Ev_prepare_pre_test_data _ _ None | Ev_predict None
  | Ev_create_2stage_dataframe None | Ev_create_augmented_dataframe_2stage None
  | Ev_get_numpy_Xy_train_test_2stage None
  | Ev_predico_ensemble_variability_predictions _ None
  | Ev_rescale_predictions _ _ None | Ev_set_non_negative_predictions _ None
  | Ev_rescale_targets _ None | Ev_collect_quantile_ensemble_predictions _ _ None
  | Ev_create_ensemble_dataframe _ None | Ev_create_var_ensemble_dataframe _ None
  | Ev_melt_dataframe _ None | Ev_pd_concat _ _ None => true
  | _ => false
  end.

(** No call of the log raised. *)
Definition quiet (e : list Event) : Prop := Forall (fun ev => raised ev = false) e.

(** The run stops at the first call that raises, with the exception of
    that call; an exception of a callee comes from the last call of the
    log. *)
Definition fail_stop {A} (r : exn + A) (e : list Event) : Prop :=
  (quiet e /\ forall callee, r <> inl (Raised callee))
  \/ exists l ev,
       e = (l ++ [ev])%list /\ quiet l /\ raised ev = true
       /\ r = inl (Raised (callee_of ev)).

End CallLog.

(* ===================================================================== *)
(** * Vocabulary of the data flow *)
(* ===================================================================== *)

Section DataFlow.
Context `{Collaborators}.

Local Open Scope string_scope.

Definition msg_index : string := "Datetime index are not equal".
Definition msg_lengths : string := "Lengths must match to compare".
Definition msg_simulation : string :=
  "challenge_usecase must be " ++ dq ++ "simulation" ++ dq.

(** Not a call of [load_or_initialize_results]. *)
Definition not_load (ev : Event) : Prop :=
  match ev with Ev_load_or_initialize_results _ => False | _ => True end.

(** What [load_or_initialize_results] returned is what the prepared data
    [P] holds. *)
Definition loaded (P : Prepared)
    (out : string * nat * BestResults * BestResultsVar) : Prop :=
  out = (file_info P, iteration P, best_results0 P, best_results_var0 P).

(** Lines 81-205, the state file: it is read once, by the last call of the
    phase, in the store [files] the phase started from. *)
Definition reads_state_last (ens_params : EnsParams) (name : Label) (files : Files)
    (r : exn + Prepared) (e : list Event) : Prop :=
  (Forall not_load e /\ exists x, r = inl x)
  \/ exists pre,
       Forall not_load pre
       /\ e = (pre
               ++ [Ev_load_or_initialize_results
                     (load_or_initialize_results ens_params name files)])%list
       /\ match load_or_initialize_results ens_params name files with
          | Some out => exists P, r = inr P /\ loaded P out
          | None => r = inl (Raised "load_or_initialize_results")
          end.

(** Lines 81-205, what the training data are made of. *)
Record prepared_flow (ens_params : EnsParams) (name : Label) (files : Files)
    (r : exn + Prepared) (e : list Event) : Prop := {
  pf_state : reads_state_last ens_params name files r e;
  pf_data : forall P, r = inr P ->
    index (df_test_targ P) = index (df_test_ensemble P)
    /\ (exists train,
          In (Ev_split_train_test_data SplitTargets (Some (train, df_test_targ P))) e)
    /\ exists y_test,
         In (Ev_get_numpy_Xy_train_test
               (Some (X_train P, y_train P, X_test P, y_test))) e;
  pf_index : forall train test train' test',
    In (Ev_split_train_test_data SplitTargets (Some (train, test))) e ->
    In (Ev_concatenate_feat_targ_dataframes (Some (train', test'))) e ->
    index test <> index test' ->
    Forall not_load e
    /\ (exists x, r = inl x)
    /\ (quiet e -> len test' = 96%nat ->
        r = inl (if (length (index test) =? length (index test'))%nat
                 then AssertionError msg_index
                 else ValueError msg_lengths));
  pf_used : forall out tag P,
    add_quantile_predictions ens_params = true -> tag <> Q50 ->
    In (Ev_scale_forecasters_dataframe (Some out)) e ->
    empty (scaled_frame tag out) = false -> r = inr P ->
    exists lag train test,
      In (Ev_create_augmented_dataframe tag (Some lag)) e
      /\ In (Ev_split_quantile_train_test_data tag (Some (train, test))) e
      /\ quantile_locals tag P = [lag; train; test]
}.

End DataFlow.

(* ===================================================================== *)
(** * Vocabulary of the two loops over quantiles *)
(* ===================================================================== *)

Section Fits.
Context `{Collaborators}.

Local Open Scope string_scope.

(** The first-stage fits of a log, in order, with what they returned. *)
Fixpoint fit_calls (e : list Event) : list (Fit.args * option WP.results) :=
  match e with
  | [] => []
  | Ev_predico_ensemble_predictions_per_quantile a out :: e' => (a, out) :: fit_calls e'
  | _ :: e' => fit_calls e'
  end.

(** The second-stage fits of a log, in order, with what they returned. *)
Fixpoint var_calls (e : list Event) : list (FitVar.args * option WPV.results) :=
  match e with
  | [] => []
  | Ev_predico_ensemble_variability_predictions a out :: e' => (a, out) :: var_calls e'
  | _ :: e' => var_calls e'
  end.

(** [quantile == 0.5] *)
Definition is_median (q : Q) : bool := Qeq_bool q (1 # 2).

(** The quantiles the second stage is fitted for when the first-stage
    loop runs over [qs]: all the configured ones, each time the loop
    meets 0.5. *)
Definition second_stage_quantiles (ens_params : EnsParams) (qs : list Q) : list Q :=
  flat_map (fun q => if is_median q then quantiles ens_params else []) qs.

(** Every fit but the last one returned, and each receives the predictions
    dict and the best results that the one before it returned; the first
    one receives [predictions] and [best]. *)
Fixpoint threaded (predictions : dict vector) (best : BestResults)
    (calls : list (Fit.args * option WP.results)) : Prop :=
  match calls with
  | [] => True
  | (a, out) :: calls' =>
      Fit.predictions a = predictions
      /\ Fit.best_results a = best
      /\ match out with
         | Some w => threaded (WP.predictions w) (WP.best_results w) calls'
         | None => calls' = []
         end
  end.

(** The predictions dict and best results after the fits [calls]. *)
Fixpoint outcome (predictions : dict vector) (best : BestResults)
    (calls : list (Fit.args * option WP.results)) : dict vector * BestResults :=
  match calls with
  | [] => (predictions, best)
  | (_, Some w) :: calls' => outcome (WP.predictions w) (WP.best_results w) calls'
  | (_, None) :: calls' => outcome predictions best calls'
  end.

(** The same for the best results of the second stage. *)
Fixpoint threaded_var (best : BestResultsVar)
    (calls : list (FitVar.args * option WPV.results)) : Prop :=
  match calls with
  | [] => True
  | (a, out) :: calls' =>
      FitVar.best_results_var a = best
      /\ match out with
         | Some w => threaded_var (WPV.best_results_var w) calls'
         | None => calls' = []
         end
  end.

Fixpoint outcome_var (best : BestResultsVar)
    (calls : list (FitVar.args * option WPV.results)) : BestResultsVar :=
  match calls with
  | [] => best
  | (_, Some w) :: calls' => outcome_var (WPV.best_results_var w) calls'
  | (_, None) :: calls' => outcome_var best calls'
  end.

(** What every fit of either stage receives from the prepared data. *)
Definition fit_inputs (ens_params : EnsParams) (P : Prepared) (ev : Event) : Prop :=
  match ev with
  | Ev_predico_ensemble_predictions_per_quantile a _ =>
      Fit.ens_params a = ens_params
      /\ Fit.iteration a = iteration P
      /\ Fit.X_train a = X_train P
      /\ Fit.y_train a = y_train P
      /\ Fit.X_test a = X_test P
  | Ev_predico_ensemble_variability_predictions a _ =>
      FitVar.ens_params a = ens_params
      /\ FitVar.iteration a = iteration P
  | _ => True
  end.

(** The diagnostics of the linear model are in an entry of
    [previous_day_results_first_stage] for the model type LR, and only
    then. *)
Definition diagnostics_as_configured (ens_params : EnsParams) (i : Info1.t) : Prop :=
  if String.eqb (model_type ens_params) "LR"
  then Info1.coefs i <> None /\ Info1.p_values i <> None
       /\ Info1.model_summary i <> None
  else Info1.coefs i = None /\ Info1.p_values i = None
       /\ Info1.model_summary i = None.

(** The entry of [previous_day_results_first_stage] comes from the fit
    result [w]. *)
Definition recorded (P : Prepared) (w : WP.results) (i : Info1.t) : Prop :=
  Info1.fitted_model i = WP.fitted_model w
  /\ Info1.X_train_augmented i = WP.X_train_augmented w
  /\ Info1.X_test_augmented i = WP.X_test_augmented w
  /\ Info1.df_train_ensemble_augmented i = WP.df_train_ensemble_augmented w
  /\ Info1.buyer_scaler_stats i = buyer_scaler_stats P.

(** Every entry of the first-stage diagnostics comes from a fit of its
    quantile that returned. *)
Definition entries_recorded (ens_params : EnsParams) (P : Prepared)
    (info : dict Info1.t) (e : list Event) : Prop :=
  forall k i, In (k, i) info ->
    diagnostics_as_configured ens_params i
    /\ exists a w,
         In (Ev_predico_ensemble_predictions_per_quantile a (Some w)) e
         /\ Qeq_bool k (Fit.quantile a) = true
         /\ recorded P w i.

(** Every entry of the second-stage diagnostics holds the first-stage
    model fitted at quantile 0.5 and the test matrix that
    [prepare_pre_test_data] returned. *)
Definition var_entries_recorded (P : Prepared) (info : dict Info2.t)
    (e : list Event) : Prop :=
  forall k i, In (k, i) info ->
    (exists a w,
       In (Ev_predico_ensemble_predictions_per_quantile a (Some w)) e
       /\ is_median (Fit.quantile a) = true
       /\ Info2.fitted_model i = WP.fitted_model w
       /\ Info2.X_train_augmented i = WP.X_train_augmented w
       /\ Info2.df_train_ensemble_augmented i = WP.df_train_ensemble_augmented w)
    /\ (exists X y,
          In (Ev_prepare_pre_test_data (df_test_ensemble_quantile10 P)
                (df_test_ensemble_quantile90 P) (Some (X, y))) e
          /\ Info2.X_test_augmented i = X)
    /\ (exists a w,
          In (Ev_predico_ensemble_variability_predictions a (Some w)) e
          /\ Qeq_bool k (FitVar.quantile a) = true
          /\ Info2.var_fitted_model i = WPV.var_fitted_model w)
    /\ Info2.df_train_ensemble i = df_train_ensemble P
    /\ Info2.df_test_ensemble i = df_test_ensemble P
    /\ Info2.y_train i = y_train P
    /\ Info2.buyer_scaler_stats i = buyer_scaler_stats P.

(** Every call of the list returned. *)
Definition all_returned {A B} (calls : list (A * option B)) : Prop :=
  Forall (fun c => snd c <> None) calls.

(** The entry [i] under key [k] of [previous_day_results_second_stage]
    comes from a second-stage fit of that quantile in the log [e], and
    holds the locals of the second stage it was made in. *)
Definition var_entry (P : Prepared) (fitted_model : Model)
    (X_train_augmented X_test_augmented : matrix)
    (df_train_ensemble_augmented : DataFrame) (e : list Event)
    (k : Q) (i : Info2.t) : Prop :=
  exists a w,
    In (Ev_predico_ensemble_variability_predictions a (Some w)) e
    /\ Qeq_bool k (FitVar.quantile a) = true
    /\ i = Info2.mk fitted_model (WPV.var_fitted_model w) X_train_augmented
             X_test_augmented df_train_ensemble_augmented
             (df_train_ensemble P) (df_test_ensemble P) (y_train P)
             (buyer_scaler_stats P).

(** A first-stage fit. *)
Definition is_first_stage_fit (ev : Event) : Prop :=
  match ev with
  | Ev_predico_ensemble_predictions_per_quantile _ _ => True
  | _ => False
  end.

(** The keys of a dict. *)
Definition has_key {V} (q : Q) (d : dict V) : Prop := dict_get q d <> None.

(** The first-stage loop after the quantiles [done]: every one of them has
    been fitted, in order, each fit threading the predictions and best
    results on; the second stage has run each time the loop met 0.5; the
    loop state holds what the last fits returned and one diagnostics entry
    per quantile. *)
Definition fitted_so_far (ens_params : EnsParams) (P : Prepared) (done : list Q)
    (st : LoopState) (e : list Event) : Prop :=
  map (fun c => Fit.quantile (fst c)) (fit_calls e) = done
  /\ all_returned (fit_calls e)
  /\ outcome [] (best_results0 P) (fit_calls e) = (predictions st, best_results st)
  /\ map (fun c => FitVar.quantile (fst c)) (var_calls e)
     = second_stage_quantiles ens_params done
  /\ all_returned (var_calls e)
  /\ outcome_var (best_results_var0 P) (var_calls e) = best_results_var st
  /\ (second st = None <-> forallb (fun q => negb (is_median q)) done = true)
  /\ entries_recorded ens_params P (previous_day_results_first_stage st) e
  /\ (forall q, In q done -> has_key q (previous_day_results_first_stage st))
  /\ forall L, second st = Some L ->
       var_entries_recorded P (previous_day_results_second_stage L) e
       /\ forall q, In q (quantiles ens_params) ->
            has_key q (previous_day_results_second_stage L).

(** Lines 215-376, the flow of the loop. *)
Record loop_flow (ens_params : EnsParams) (P : Prepared)
    (r : exn + LoopState) (e : list Event) : Prop := {
  lf_inputs : Forall (fit_inputs ens_params P) e;
  lf_threaded : threaded [] (best_results0 P) (fit_calls e);
  lf_threaded_var : threaded_var (best_results_var0 P) (var_calls e);
  lf_prefix : exists rest,
    quantiles ens_params
    = (map (fun c => Fit.quantile (fst c)) (fit_calls e) ++ rest)%list;
  lf_no_median :
    forallb (fun q => negb (is_median q)) (quantiles ens_params) = true ->
    Forall is_first_stage_fit e;
  lf_done : forall st, r = inr st ->
    fitted_so_far ens_params P (quantiles ens_params) st e
}.

End Fits.

(* ===================================================================== *)
(** * Vocabulary of the last lines *)
(* ===================================================================== *)

Section LastLines.
Context `{Collaborators}.

Local Open Scope string_scope.

(** The first key among 'coefs', 'p_values' and 'model-summary' that the
    result of a fit lacks. *)
Definition lacks (w : WP.results) : option string :=
  match WP.coefs w, WP.p_values w, WP.model_summary w with
  | None, _, _ => Some "coefs"
  | Some _, None, _ => Some "p_values"
  | Some _, Some _, None => Some "model-summary"
  | Some _, Some _, Some _ => None
  end.

(** Lines 243-246: for the linear model a fit result that lacks a key
    ends the run with [KeyError]. *)
Definition keys_read (ens_params : EnsParams) (r : exn + LoopState) (e : list Event)
    : Prop :=
  model_type ens_params = "LR" ->
  forall a w k,
    In (Ev_predico_ensemble_predictions_per_quantile a (Some w)) e ->
    lacks w = Some k -> r = inl (KeyError k).

(** Lines 393-415: the wind-power table is the last thing made. *)
Definition table_last (r : exn + DataFrame * DataFrame) (e : list Event) : Prop :=
  forall d wide, In (Ev_create_ensemble_dataframe d (Some wide)) e ->
    exists targets, r = inr (targets, wide).

(** Lines 419-443 when the use case is not 'simulation', or when the
    second stage has not run. *)
Definition simulation_guard (s : LoopState) (challenge_usecase : option string)
    (r : exn + Returned) (e : list Event) : Prop :=
  (usecase_is challenge_usecase "simulation" = false ->
   r = inl (AssertionError msg_simulation) /\ e = [])
  /\ (second s = None ->
      (exists x, r = inl x)
      /\ forall df t out, In (Ev_pd_concat df t (Some out)) e ->
           r = inl (UnboundLocalError "df_var_ensemble")).

(** Lines 445-466 when the second stage has not run. *)
Definition challenge_guard (s : LoopState) (r : exn + Returned) (e : list Event)
    : Prop :=
  second s = None ->
  (exists x, r = inl x)
  /\ forall df melted, In (Ev_melt_dataframe df (Some melted)) e ->
       r = inl (UnboundLocalError "df_var_ensemble_melt").

(** Lines 426-443 and 451-464: the diagnostics in the bundle that is
    written are those of the two loops. *)
Definition dumped (P : Prepared) (s : LoopState) (e : list Event) : Prop :=
  forall path b, In (Ev_pickle_dump path b) e ->
    exists L,
      second s = Some L
      /\ Bundle.info_contributions (Bundle.wind_power b)
         = previous_day_results_first_stage s
      /\ Bundle.info_contributions (Bundle.wind_power_variability b)
         = previous_day_results_second_stage L.

End LastLines.

(* ===================================================================== *)
(** * Vocabulary of the rescaling loop *)
(* ===================================================================== *)

Section Rescaling.
Context `{Collaborators}.

(** The quantiles that [rescale_predictions] is called for with the given
    [stage], in order. *)
Fixpoint rescaled (stage : Stage) (e : list Event) : list Q :=
  match e with
  | [] => []
  | Ev_rescale_predictions Stage1st q _ :: e' =>
      match stage with
      | Stage1st => q :: rescaled stage e'
      | Stage2nd => rescaled stage e'
      end
  | Ev_rescale_predictions Stage2nd q _ :: e' =>
      match stage with
      | Stage1st => rescaled stage e'
      | Stage2nd => q :: rescaled stage e'
      end
  | _ :: e' => rescaled stage e'
  end.

(** The quantiles that [set_non_negative_predictions] is called for, in
    order. *)
Fixpoint clipped (e : list Event) : list Q :=
  match e with
  | [] => []
  | Ev_set_non_negative_predictions q _ :: e' => q :: clipped e'
  | _ :: e' => clipped e'
  end.

(** Neither a first-stage rescaling nor a clipping. *)
Definition outside_rescaling (ev : Event) : Prop :=
  match ev with
  | Ev_rescale_predictions Stage1st _ _ | Ev_set_non_negative_predictions _ _ => False
  | _ => True
  end.

(** Lines 394-398 over the quantiles [qs]. *)
Definition rescale_flow (qs : list Q) (r : exn + dict vector) (e : list Event)
    : Prop :=
  (exists rest, qs = (rescaled Stage1st e ++ rest)%list)
  /\ (rescaled Stage1st e = clipped e
      \/ exists q, rescaled Stage1st e = (clipped e ++ [q])%list)
  /\ (forall p, r = inr p -> rescaled Stage1st e = qs /\ clipped e = qs).

(** Lines 42-54: an extraction that is not empty is imputed. *)
Definition imputed_when_not_empty (e : list Event) : Prop :=
  forall tag d,
    In (Ev_extract_quantile_columns (suffix_of tag) (Some d)) e ->
    empty d = false ->
    exists out, In (Ev_impute_mean_for_nan tag out) e.

End Rescaling.

(* ===================================================================== *)
(** * Variants of the scenario *)
(* ===================================================================== *)

Module Variants.
Import Scenario.
Local Open Scope string_scope.

(** The configuration [ens] with other quantiles. *)
Definition with_quantiles (qs : list Q) (ens : EnsParams) : EnsParams :=
  {| model_type := model_type ens;
     normalize := normalize ens;
     standardize := standardize ens;
     scale_features := scale_features ens;
     max_lags := max_lags ens;
     forecasters_diversity := forecasters_diversity ens;
     add_lags := add_lags ens;
     augment_with_poly := augment_with_poly ens;
     augment_with_roll_stats := augment_with_roll_stats ens;
     differenciate := differenciate ens;
     add_quantile_predictions := add_quantile_predictions ens;
     quantiles := qs;
     order_diff := order_diff ens;
     differenciate_var := differenciate_var ens;
     max_lags_var := max_lags_var ens;
     add_lags_var := add_lags_var ens;
     augment_with_poly_var := augment_with_poly_var ens |}.

(** The linear model on standardized features. *)
Definition lr_params : EnsParams := params "LR" false true true false.

(** A buyer frame that stops half way: its measurements do not cover the
    index of the market frame. *)
Definition df_buyer_short : DataFrame :=
  mk_DataFrame (firstn 50 timestamps)
    [(L_str "wind", firstn 50 (column_of (fun _ => Some (1 # 4))))].

(** A concatenation that returns the test features one step late. *)
Definition concatenate_late (name : Label)
    (train_feat test_feat train_targ test_targ : DataFrame) (max_lag : Z)
    : option (DataFrame * DataFrame) :=
  match concatenate name train_feat test_feat train_targ test_targ max_lag with
  | Some (train, test) =>
      Some (train, mk_DataFrame (map Z.succ (index test)) (columns test))
  | None => None
  end.

(** A fit whose result has no 'p_values' and no 'model-summary'. *)
Definition fit_without_p_values (a : Fit.args) : option WP.results :=
  match fit a with
  | Some w =>
      Some (WP.mk (WP.predictions w) (WP.best_results w) (WP.fitted_model w)
              (WP.X_train_augmented w) (WP.X_test_augmented w)
              (WP.df_train_ensemble_augmented w) (WP.coefs w) None None)
  | None => None
  end.

(** The collaborators of the scenario, with another concatenation and
    another first-stage fit. *)
Definition collaborators_with
    (concat : Label -> DataFrame -> DataFrame -> DataFrame -> DataFrame -> Z ->
              option (DataFrame * DataFrame))
    (fit : Fit.args -> option WP.results) : Collaborators := {|
  extract_quantile_columns := extract;
  impute_mean_for_nan := impute;
  buyer_scaler_statistics := fun _ _ _ _ => Some tt;
  scale_forecasters_dataframe := fun _ _ d50 d10 d90 _ => Some (d50, d10, d90);
  create_augmented_dataframe := fun df _ _ _ _ _ _ _ _ => Some df;
  scale_buyer_dataframe := fun _ _ df =>
    Some (mk_DataFrame (index df) (map rename_norm (columns df)));
  split_train_test_data := split;
  concatenate_feat_targ_dataframes := concat;
  split_quantile_train_test_data := split;
  get_numpy_Xy_train_test := fun train test =>
    Some (to_rows train, last_column train, to_rows test, last_column test);
  get_numpy_Xy_train_test_quantile := fun _ a b c d =>
    Some (to_rows a, to_rows b, to_rows c, to_rows d);
  load_or_initialize_results := fun _ _ files => load files;
  predico_ensemble_predictions_per_quantile := fit;
  prepare_pre_test_data := fun _ _ test _ _ => Some (to_rows test, last_column test);
  predict := fun m X => Some (constant m X);
  create_2stage_dataframe := fun train test y_train y_test p_in p_out =>
    Some (mk_DataFrame (index train ++ index test)%list
            [(L_str "predictions", (p_in ++ p_out)%list);
             (L_str "targets", (y_train ++ y_test)%list)]);
  create_augmented_dataframe_2stage := fun df _ _ _ _ _ _ _ => Some df;
  get_numpy_Xy_train_test_2stage := fun train test =>
    Some (to_rows train, last_column train, to_rows test);
  predico_ensemble_variability_predictions := fit_var;
  inverse_scale := fun _ _ _ x => x;
  rescale_targets := fun _ _ df target_name _ => targets_of df target_name;
  collect_quantile_ensemble_predictions := fun qs _ predictions => collect qs predictions;
  create_ensemble_dataframe := fun _ _ d df => Some (mk_DataFrame (index df) d);
  create_var_ensemble_dataframe := fun _ _ d df => Some (mk_DataFrame (index df) d);
  melt_dataframe := melt;
  pd_concat := fun df s =>
    if same_index (index df) (s_index s)
    then Some (mk_DataFrame (index df) (columns df ++ [(s_name s, s_values s)])%list)
    else None
|}.

Definition run_with (C : Collaborators) (ens : EnsParams) (buyer market : DataFrame)
    (challenge_usecase : option string) (simulation : bool) : Out Files Event Returned :=
  @create_ensemble_forecasts _ C ens buyer market end_training_timestamp forecast_range
    challenge_usecase simulation ∅.
End Variants.

(* ===================================================================== *)
(** * Reasoning rules of the run monad *)
(* ===================================================================== *)

#[local] Set Warnings "-clear-no-such-hyp,-unused-intro-pattern".

Section Rules.
Context {St E : Type}.
Implicit Types (s : St).

Lemma wp_out A (m : M St E A) s (Q : exn + A -> St -> list E -> Prop) :
  wp m s Q -> Q (res (m s)) (st (m s)) (evs (m s)).
Proof. intro HQ. exact HQ. Qed.

Lemma wp_ret A (a : A) s (Q : exn + A -> St -> list E -> Prop) :
  Q (inr a) s [] -> wp (ret a) s Q.
Proof. intro HQ. exact HQ. Qed.

Lemma wp_raise A (e : exn) s (Q : exn + A -> St -> list E -> Prop) :
  Q (inl e) s [] -> wp (raise e) s Q.
Proof. intro HQ. exact HQ. Qed.

Lemma wp_bind A B (m : M St E A) (k : A -> M St E B) s
    (Q : exn + B -> St -> list E -> Prop) :
  wp m s (fun r s1 e1 =>
            match r with
            | inl x => Q (inl x) s1 e1
            | inr a => wp (k a) s1 (fun r2 s2 e2 => Q r2 s2 (e1 ++ e2))
            end) ->
  wp (bind m k) s Q.
Proof.
  unfold wp, bind. destruct (res (m s)); simpl; auto.
Qed.

Lemma wp_call A callee (ev : option A -> E) (r : option A) s
    (Q : exn + A -> St -> list E -> Prop) :
  match r with
  | Some a => Q (inr a) s [ev (Some a)]
  | None => Q (inl (Raised callee)) s [ev None]
  end ->
  wp (call callee ev r) s Q.
Proof. unfold wp, call. destruct r; simpl; auto. Qed.

Lemma wp_assert (c : bool) msg s (Q : exn + unit -> St -> list E -> Prop) :
  (if c then Q (inr tt) s [] else Q (inl (AssertionError msg)) s []) ->
  wp (assert_ c msg) s Q.
Proof. unfold wp, assert_. destruct c; simpl; auto. Qed.

Lemma wp_get s (Q : exn + St -> St -> list E -> Prop) :
  Q (inr s) s [] -> wp get s Q.
Proof. intro HQ. exact HQ. Qed.

Lemma wp_mono A (m : M St E A) s (Q Q' : exn + A -> St -> list E -> Prop) :
  wp m s Q -> (forall r s' e, Q r s' e -> Q' r s' e) -> wp m s Q'.
Proof. unfold wp. intros HQ Himp. apply Himp, HQ. Qed.

(** As [wp_mono], remembering which computation the result comes from. *)
Lemma wp_keep A (m : M St E A) s (Q Q' : exn + A -> St -> list E -> Prop) :
  wp m s Q -> (forall r s' e, Q r s' e -> r = res (m s) -> Q' r s' e) -> wp m s Q'.
Proof. unfold wp. intros HQ Himp. apply Himp; [exact HQ | reflexivity]. Qed.

(** The loop rule.  [I done b e] is the invariant on the elements already
    processed, the loop state and the events so far; [J x e] is what holds
    when the body raised [x].  The body leaves the state alone. *)
Lemma wp_for_each A B (body : A -> B -> M St E B)
    (I : list A -> B -> list E -> Prop) (J : exn -> list E -> Prop) s :
  forall (l done : list A) (b : B) (e0 : list E),
  I done b e0 ->
  (forall x done b e, In x l -> I done b e ->
     wp (body x b) s (fun r s' e' =>
       s' = s /\ match r with
                 | inr b' => I (done ++ [x]) b' (e ++ e')
                 | inl x => J x (e ++ e')
                 end)) ->
  wp (for_each l body b) s (fun r s' e' =>
    s' = s /\ match r with
              | inr b' => I (done ++ l) b' (e0 ++ e')
              | inl x => J x (e0 ++ e')
              end).
Proof.
  induction l as [|x l IH]; intros done b e0 HI Hbody.
  - apply wp_ret. split; [reflexivity|]. rewrite !app_nil_r. exact HI.
  - simpl. apply wp_bind.
    eapply wp_mono; [apply (Hbody x done b e0); [left; reflexivity | exact HI]|].
    intros r s' e [-> Hr]. destruct r as [x'|b'].
    + split; [reflexivity | exact Hr].
    + eapply wp_mono.
      * apply (IH (done ++ [x]) b' (e0 ++ e) Hr).
        intros y done' b'' e'' Hy. apply Hbody. right; exact Hy.
      * intros r2 s2 e2 [-> Hr2]. split; [reflexivity|].
        destruct r2; rewrite <- !app_assoc in Hr2; exact Hr2.
Qed.
End Rules.

Section DumpRule.
Context `{Collaborators}.

Lemma wp_pickle_dump path (b : Bundle.t) (s : Files)
    (Q : exn + unit -> Files -> list Event -> Prop) :
  Q (inr tt) (<[path := b]> s) [Ev_pickle_dump path b] ->
  wp (pickle_dump path b) s Q.
Proof. intro HQ. exact HQ. Qed.
End DumpRule.

(** One step of symbolic execution. *)
Ltac wp_step :=
  lazymatch goal with
  | |- wp (bind _ _) _ _ => apply wp_bind
  | |- wp (ret _) _ _ => apply wp_ret
  | |- wp (raise _) _ _ => apply wp_raise
  | |- wp (call _ _ ?r) _ _ => apply wp_call; destruct r eqn:?
  | |- wp (assert_ ?c _) _ _ => apply wp_assert; destruct c eqn:?
  | |- wp get _ _ => apply wp_get
  | |- wp (pickle_dump _ _) _ _ => apply wp_pickle_dump
  | |- wp (if negb ?c then _ else _) _ _ => destruct c eqn:?; cbn [negb]
  | |- wp (if ?c then _ else _) _ _ => destruct c eqn:?
  | |- wp (match ?x with _ => _ end) _ _ => destruct x eqn:?
  end; cbv beta iota zeta.

Ltac wp_run := repeat wp_step.

(** Use the specification [lem] of the action the goal is about. *)
Ltac wp_apply lem :=
  eapply wp_mono; [apply lem|];
  cbv beta; intros [?|?] ? ? [-> ?]; cbv beta iota zeta.

Ltac wp_apply_keep lem :=
  eapply wp_keep; [apply lem|];
  cbv beta; intros [?|?] ? ? [-> ?] ?; cbv beta iota zeta.

Ltac wp_use lem := apply wp_bind; wp_apply lem.

(** Turn a goal about the outcome of [m s] into a [wp] goal. *)
Ltac as_wp :=
  lazymatch goal with
  | |- context [evs (?m ?s)] =>
      pattern (res (m s)), (st (m s)), (evs (m s)); apply wp_out
  end.

(** Case analysis on membership in an explicit list. *)
Ltac in_cases :=
  repeat match goal with
  | H : In _ (_ :: _) |- _ => destruct H as [H|H]
  | H : In _ [] |- _ => destruct H
  | H : In _ (_ ++ _) |- _ => apply in_app_or in H; destruct H as [H|H]
  end.

(** Membership in an explicit list. *)
Ltac in_list :=
  cbn [In];
  repeat first [ left; reflexivity | eassumption | right
               | apply in_or_app; first [left; eassumption | right] ].

(** Every event of an explicit list satisfies a predicate given by cases. *)
Ltac kinds :=
  repeat (apply List.Forall_cons; [cbn; try exact I; try congruence; auto|]);
  apply List.Forall_nil.

Ltac split_ands :=
  repeat match goal with Hc : _ /\ _ |- _ => destruct Hc end.

(* ===================================================================== *)
(** * The phases of the run *)
(* ===================================================================== *)

Section Dict.
Context {V : Type}.

Lemma Qeq_bool_trans_l (a b c : Q) :
  Qeq_bool a b = true -> Qeq_bool a c = Qeq_bool b c.
Proof.
  intro Hab. apply Qeq_bool_iff in Hab.
  destruct (Qeq_bool b c) eqn:Hbc.
  - apply Qeq_bool_iff. apply Qeq_bool_iff in Hbc. rewrite Hab. exact Hbc.
  - destruct (Qeq_bool a c) eqn:Hac; [|reflexivity].
    apply Qeq_bool_iff in Hac. rewrite Hab in Hac.
    apply Qeq_bool_iff in Hac. congruence.
Qed.

(** Reading a dict after [d[k] = v]. *)
Lemma dict_get_set (q k : Q) (v : V) (d : dict V) :
  dict_get q (dict_set k v d) = if Qeq_bool k q then Some v else dict_get q d.
Proof.
  induction d as [|[k' w] d IH]; cbn.
  - reflexivity.
  - destruct (Qeq_bool k' k) eqn:Hk; cbn.
    + rewrite (Qeq_bool_trans_l _ _ q Hk). destruct (Qeq_bool k q); reflexivity.
    + rewrite IH. destruct (Qeq_bool k' q) eqn:Hq; [|reflexivity].
      destruct (Qeq_bool k q) eqn:Hkq; [|reflexivity].
      exfalso. apply Qeq_bool_iff in Hq, Hkq.
      assert (Hc : Qeq_bool k' k = true)
        by (apply Qeq_bool_iff; rewrite Hq, Hkq; reflexivity).
      congruence.
Qed.
End Dict.

Section Phases.
Context `{Collaborators}.

Local Open Scope string_scope.

Ltac later := unfold later_error, msg_q50; congruence.

(** ** Lines 39-58 *)

Lemma quantile_frames_spec df_market s :
  wp (quantile_frames df_market) s (fun r s' e => s' = s /\ frames_post r e).
Proof.
  unfold quantile_frames, extract_and_impute. wp_run.
  all: cbn [app]; split; [reflexivity|].
  all: split.
  all: try solve [kinds].
  all: intros; simplify_eq; try solve [auto].
  all: try solve [match goal with Hd : empty ?d = true |- _ =>
                    exists d; split; [exact Hd|]; solve [left; in_list | right; in_list]
                  end].
  all: try solve [in_cases; simplify_eq; first
         [ congruence | left; reflexivity
         | right; repeat first [apply Exists_cons_hd; exact I | apply Exists_cons_tl] ]].
  all: try solve [destruct tag; [congruence|..]; cbn [suffix_of] in *;
                  in_cases; simplify_eq; try congruence; kinds].
Qed.

(** ** Lines 62-79 *)

Lemma check_configuration_spec ens_params s :
  wp (check_configuration ens_params) s
     (fun r s' e =>
        s' = s
        /\ e = []
        /\ r = match configuration_error ens_params with
               | Some x => inl x
               | None => inr tt
               end).
Proof.
  unfold check_configuration, configuration_error. wp_run.
  all: split; [reflexivity|split; [reflexivity|]].
  all: repeat match goal with Hc : _ = _ |- _ => rewrite Hc end; cbn; try reflexivity.
  all: repeat match goal with Hc : negb _ = _ |- _ => apply (f_equal negb) in Hc;
         rewrite negb_involutive in Hc; cbn in Hc; rewrite Hc end; cbn; reflexivity.
Qed.

(** ** Lines 81-205 *)

Lemma first_stage_data_spec ens_params df_buyer d50 d10 d90 name t0 t1 s :
  wp (first_stage_data ens_params df_buyer d50 d10 d90 name t0 t1) s
     (fun r s' e => s' = s /\ prepared_post ens_params r e).
Proof.
  unfold first_stage_data, augment_quantile, split_quantile, augment, index_equal_all.
  wp_run.
  all: split; [reflexivity|].
  all: cbn [app].
  all: rewrite ?Nat.eqb_eq, ?Nat.eqb_neq in *.
  all: split.
  all: try solve [kinds].
  all: try solve [intros; simplify_eq; later].
  all: try solve [intros; in_cases; simplify_eq; auto].
  all: try solve [intros; in_cases; simplify_eq; try congruence;
                  eexists; split; [reflexivity|]; intros; in_cases; simplify_eq; congruence].
  all: try solve [intros; simplify_eq; cbn [df_train_ensemble df_test_ensemble];
                  repeat split; solve [auto | in_list]].
  all: try solve [intros; first [congruence | split;
                  [kinds | intros; simplify_eq; cbn; repeat constructor]]].
  all: try solve [intros; in_cases; simplify_eq; destruct tag; try congruence;
                  cbn in *; simplify_eq; first [congruence | split;
                  [kinds | intros; simplify_eq; cbn; repeat constructor]]].
Qed.

(** ** Lines 265-376 *)

Lemma var_kind_loop_event P failed ev : var_kind ev -> loop_event P failed ev.
Proof. destruct ev; cbn; tauto. Qed.

Lemma loop_event_mono P (A B : Prop) ev :
  (A -> B) -> loop_event P A ev -> loop_event P B ev.
Proof.
  intro HAB. destruct ev; cbn; try tauto. intros [-> Hs]. split; [reflexivity|].
  intros train test Hout. destruct (Hs train test Hout); auto.
Qed.

Lemma Forall_loop_event_mono P (A B : Prop) e :
  (A -> B) -> Forall (loop_event P A) e -> Forall (loop_event P B) e.
Proof. intros HAB. apply List.Forall_impl. intro ev. apply loop_event_mono, HAB. Qed.

Ltac var_tail :=
  solve [ eapply List.Forall_impl; [|eassumption]; intro; apply var_kind_loop_event ].

Ltac ev_kinds :=
  repeat first
    [ apply List.Forall_nil
    | apply List.Forall_cons; [cbn; try exact I; try congruence; auto|]
    | var_tail
    | apply List.Forall_app; split; [var_tail|] ].

Lemma variability_body_spec ens_params P fm Xa dfa Xt tr te X y Xte q v s :
  wp (variability_body ens_params P fm Xa dfa Xt tr te X y Xte q v) s
     (fun r s' e =>
        s' = s /\ Forall var_kind e /\ forall x, r = inl x -> later_error x).
Proof.
  unfold variability_body, pd_DataFrame_of. wp_run.
  all: split; [reflexivity|]; cbn [app]; split; [ev_kinds|].
  all: intros; simplify_eq; later.
Qed.

Lemma variability_loop_spec ens_params P fm Xa dfa Xt tr te X y Xte qs v s :
  wp (for_each qs (variability_body ens_params P fm Xa dfa Xt tr te X y Xte) v) s
     (fun r s' e =>
        s' = s /\ Forall var_kind e /\ forall x, r = inl x -> later_error x).
Proof.
  eapply wp_mono.
  - apply wp_for_each
      with (I := fun _ _ e => Forall var_kind e)
           (J := fun x e => Forall var_kind e /\ later_error x)
           (done := []) (e0 := []).
    + constructor.
    + intros x done b e _ He. eapply wp_mono; [apply variability_body_spec|].
      intros r s' e' (-> & He' & Hx). split; [reflexivity|].
      destruct r; [split; [|auto]|]; apply List.Forall_app; auto.
  - intros r s' e [-> He]. split; [reflexivity|]. destruct r as [x|b].
    + destruct He. split; [assumption|]. intros; simplify_eq; assumption.
    + split; [exact He | discriminate].
Qed.

Lemma second_stage_spec ens_params P fm Xa dfa name t0 t1 q bv s :
  wp (second_stage ens_params P fm Xa dfa name t0 t1 q bv) s
     (fun r s' e =>
        s' = s
        /\ Forall (loop_event P (r = inl (AssertionError msg_96))) e
        /\ (forall x, r = inl x -> later_error x)
        /\ forall L bv', r = inr (L, bv') -> second_logged L e).
Proof.
  unfold second_stage. wp_run.
  all: try (wp_apply variability_loop_spec).
  all: wp_run.
  all: split; [reflexivity|]; cbn [app].
  all: rewrite ?Nat.eqb_eq, ?Nat.eqb_neq in *.
  all: split_ands.
  all: split; [ev_kinds|].
  all: try solve [split; [reflexivity|]; intros; simplify_eq; auto].
  all: split; [intros; simplify_eq; solve [later | auto]|].
  all: intros; simplify_eq.
  all: unfold second_logged; cbn [df_var_ensemble df_var_ensemble_melt].
  all: split; [eexists|]; in_list.
Qed.

(** ** Lines 215-376 *)

Lemma second_logged_app L e e' :
  second_logged L e \/ second_logged L e' -> second_logged L (e ++ e').
Proof.
  unfold second_logged. intros [[[d H1] H2]|[[d H1] H2]]; split;
    try (exists d); apply in_or_app; auto.
Qed.

Ltac loop_tail :=
  solve [ eapply Forall_loop_event_mono; [|eassumption]; congruence ].

Ltac ev_loop :=
  repeat first
    [ apply List.Forall_nil
    | apply List.Forall_cons; [cbn; try exact I; try congruence; auto|]
    | loop_tail
    | apply List.Forall_app; split; [loop_tail|] ].

Lemma first_stage_body_spec ens_params P name t0 t1 q st s :
  wp (first_stage_body ens_params P name t0 t1 q st) s
     (fun r s' e =>
        s' = s
        /\ Forall (loop_event P (r = inl (AssertionError msg_96))) e
        /\ (forall x, r = inl x -> later_error x)
        /\ forall st', r = inr st' ->
           forall L, second st' = Some L -> second_logged L e \/ second st = Some L).
Proof.
  unfold first_stage_body, key. wp_run.
  all: try (wp_apply second_stage_spec).
  all: wp_run.
  all: split; [reflexivity|]; cbn [app].
  all: split_ands.
  all: split; [ev_loop|].
  all: split; [intros; simplify_eq; solve [later | auto]|].
  all: intros; simplify_eq; cbn [second] in *; simplify_eq; auto.
  all: left; apply second_logged_app with (e := [_]); right; rewrite app_nil_r; eauto.
Qed.

Lemma first_stage_loop_spec ens_params P name t0 t1 s :
  wp (first_stage_loop ens_params P name t0 t1) s
     (fun r s' e => s' = s /\ loop_post P r e).
Proof.
  unfold first_stage_loop. eapply wp_mono.
  - apply wp_for_each
      with (I := fun _ st e =>
                   Forall (loop_event P False) e
                   /\ forall L, second st = Some L -> second_logged L e)
           (J := fun x e =>
                   Forall (loop_event P (x = AssertionError msg_96)) e
                   /\ later_error x)
           (done := []) (e0 := []).
    + split; [constructor|]. cbn. discriminate.
    + intros x done st e _ [He Hsec].
      eapply wp_mono; [apply first_stage_body_spec|].
      intros r s' e' (-> & He' & Hx & Hsec'). split; [reflexivity|].
      destruct r as [y|st'].
      * split; [|auto]. apply List.Forall_app; split.
        -- eapply Forall_loop_event_mono; [|exact He]. tauto.
        -- eapply Forall_loop_event_mono; [|exact He']. congruence.
      * split.
        -- apply List.Forall_app; split; [exact He|].
           eapply Forall_loop_event_mono; [|exact He']. discriminate.
        -- intros L HL. apply second_logged_app.
           destruct (Hsec' st' eq_refl L HL); auto.
  - intros r s' e [-> Hr]. split; [reflexivity|]. cbn [app] in Hr.
    destruct r as [y|st'].
    + destruct Hr as [He Hy]. split; [| intros; simplify_eq; assumption | discriminate].
      eapply Forall_loop_event_mono; [|exact He]. congruence.
    + destruct Hr as [He Hsec]. split; [| discriminate |].
      * eapply Forall_loop_event_mono; [|exact He]. tauto.
      * intros st Hst. simplify_eq. exact Hsec.
Qed.

(** ** Lines 393-415 *)

Lemma rescale_kind_assemble ens_params ev :
  rescale_kind ev -> assemble_event ens_params ev.
Proof. destruct ev; cbn; tauto. Qed.

Lemma clip_nonneg x : nonneg (clip x).
Proof.
  destruct x as [v|]; cbn; [|exact I].
  destruct (Qle_bool 0 v) eqn:Hv; cbn.
  - apply Qle_bool_iff. exact Hv.
  - apply Qle_refl.
Qed.

Lemma rescale_body_spec ens_params P q predictions s :
  wp (rescale_body ens_params P q predictions) s
     (fun r s' e =>
        s' = s /\ Forall rescale_kind e
        /\ (forall x, r = inl x -> later_error x)
        /\ forall predictions', r = inr predictions' ->
             nonneg_at q predictions'
             /\ forall q', nonneg_at q' predictions -> nonneg_at q' predictions').
Proof.
  unfold rescale_body. wp_run.
  all: split; [reflexivity|]; cbn [app].
  all: split; [kinds|].
  all: split; [intros; simplify_eq; later|].
  all: intros; simplify_eq.
  unfold rescale_predictions in Heqo. unfold set_non_negative_predictions in Heqo0.
  destruct (dict_get q predictions) as [v|] eqn:Hv; [|discriminate].
  simplify_eq. rewrite dict_get_set in Heqo0.
  assert (Hq : Qeq_bool q q = true) by (apply Qeq_bool_iff; reflexivity).
  rewrite Hq in Heqo0. simplify_eq.
  split.
  - eexists. rewrite dict_get_set, Hq. split; [reflexivity|].
    apply Forall_map. apply Forall_forall. intros. apply clip_nonneg.
  - intros q' (v' & Hv' & Hnn). unfold nonneg_at.
    rewrite !dict_get_set. destruct (Qeq_bool q q') eqn:Hqq'.
    + eexists. split; [reflexivity|].
      apply Forall_map. apply Forall_forall. intros. apply clip_nonneg.
    + eauto.
Qed.

Lemma rescale_loop_spec ens_params P qs predictions s :
  wp (for_each qs (rescale_body ens_params P) predictions) s
     (fun r s' e =>
        s' = s /\ Forall rescale_kind e
        /\ (forall x, r = inl x -> later_error x)
        /\ forall predictions', r = inr predictions' ->
             forall q, In q qs -> nonneg_at q predictions').
Proof.
  eapply wp_mono.
  - apply wp_for_each
      with (I := fun done p e =>
                   Forall rescale_kind e /\ forall q, In q done -> nonneg_at q p)
           (J := fun x e => Forall rescale_kind e /\ later_error x)
           (done := []) (e0 := []).
    + split; [constructor|]. intros q [].
    + intros x done p e _ [He Hdone].
      eapply wp_mono; [apply rescale_body_spec|].
      intros r s' e' (-> & He' & Hx & Hr). split; [reflexivity|].
      destruct r as [y|p'].
      * split; [|auto]. apply List.Forall_app; auto.
      * destruct (Hr p' eq_refl) as [Hnew Hkeep]. split.
        -- apply List.Forall_app; auto.
        -- intros q Hq. apply in_app_or in Hq. destruct Hq as [Hq|[<-|[]]]; auto.
  - intros r s' e [-> Hr]. split; [reflexivity|]. cbn [app] in Hr.
    destruct r as [y|p'].
    + destruct Hr. split; [assumption|]. split; [|discriminate].
      intros; simplify_eq; assumption.
    + destruct Hr as [He Hq]. split; [exact He|]. split; [discriminate|].
      intros p'' Hp. simplify_eq. exact Hq.
Qed.

Lemma rescale_and_assemble_spec ens_params P name st s :
  wp (rescale_and_assemble ens_params P name st) s
     (fun r s' e => s' = s /\ assemble_post ens_params r e).
Proof.
  unfold rescale_and_assemble, norm_name.
  wp_use rescale_loop_spec.
  all: wp_run.
  all: split; [reflexivity|]; cbn [app].
  all: split_ands.
  all: split;
    [ | intros; simplify_eq; solve [later | auto]
      | intros; simplify_eq; try (do 2 eexists; split; in_list) ].
  all: rewrite ?app_nil_r.
  all: try (apply List.Forall_app; split).
  all: try solve [eapply List.Forall_impl; [|eassumption]; intro;
                  apply rescale_kind_assemble].
  all: repeat (apply List.Forall_cons; [cbn; auto|]); try apply List.Forall_nil.
Qed.

(** ** Lines 417-466 *)

Lemma simulation_results_spec P st targ pred t cu files :
  wp (simulation_results P st targ pred t cu) files
     (simulation_post P st pred t cu files).
Proof.
  unfold simulation_results, getitem, bound. wp_run.
  all: cbn [app]; split; [kinds | |].
  all: intros; simplify_eq.
  all: try solve [split; [later|]; split; [reflexivity | kinds]].
  split; [assumption|].
  do 7 eexists. repeat split; try reflexivity; eassumption.
Qed.

Lemma challenge_results_spec P st pred t cu files :
  wp (challenge_results P st pred t cu) files
     (challenge_post P st pred t cu files).
Proof.
  unfold challenge_results, bound. wp_run.
  all: cbn [app]; split; [kinds | |].
  all: intros; simplify_eq.
  all: try solve [split; [later|]; left; split; [reflexivity | kinds]].
  - apply orb_true_iff in Heqb. split; [exact Heqb|].
    do 2 eexists. repeat split; try reflexivity; eassumption.
  - apply orb_false_iff in Heqb. destruct Heqb. split; [later|]. right.
    unfold msg_usecase. repeat split; try assumption.
    do 2 eexists. split; reflexivity.
Qed.

End Phases.


(* ===================================================================== *)
(** * The whole run *)
(* ===================================================================== *)

(** Walk through [create_ensemble_forecasts] phase by phase; what is left
    is one goal per place where the run can end, with what the phases
    before it guarantee. *)
Ltac walk :=
  unfold create_ensemble_forecasts, first_timestamp, last_timestamp, first_column;
  wp_run;
  try (wp_apply_keep quantile_frames_spec; wp_run);
  try (wp_apply check_configuration_spec; wp_run);
  try (wp_apply first_stage_data_spec; wp_run);
  try (wp_apply first_stage_loop_spec; wp_run);
  try (wp_apply rescale_and_assemble_spec; wp_run);
  try (eapply wp_mono; [apply simulation_results_spec|]; cbv beta; intros [?|?] ? ? ?);
  try (eapply wp_mono; [apply challenge_results_spec|]; cbv beta; intros [?|?] ? ? ?);
  split_ands;
  subst;
  cbn [app];
  rewrite ?app_nil_r.

(** Split a membership in the log of the whole run by phase. *)
Ltac by_phase Hin :=
  repeat match type of Hin with
  | In _ (_ ++ _) => apply in_app_or in Hin; destruct Hin as [Hin|Hin]
  | In _ [] => destruct Hin
  end.

(** What the phase that made the call [ev] says about its kind. *)
Ltac kind_of ev Hin Hk :=
  let e := match type of Hin with In _ ?e => e end in
  let use F := pose proof (proj1 (List.Forall_forall _ _) F ev Hin) as Hk in
  first
    [ match goal with Hp : frames_post _ e |- _ => use (fp_events Hp) end
    | match goal with Hp : prepared_post _ _ e |- _ => use (pp_kind Hp) end
    | match goal with Hp : loop_post _ _ e |- _ => use (lp_events Hp) end
    | match goal with Hp : assemble_post _ _ e |- _ => use (ap_events Hp) end
    | match goal with Hp : simulation_post _ _ _ _ _ _ _ _ e |- _ => use (sp_events Hp) end
    | match goal with Hp : challenge_post _ _ _ _ _ _ _ _ e |- _ => use (cp_events Hp) end ].

(** Reason about one call [ev] of the log, phase by phase. *)
Ltac each_call ev Hin Hk :=
  by_phase Hin; kind_of ev Hin Hk; destruct ev; cbn in Hk; try contradiction.

(** One goal per phase for a property of every call of the log. *)
Ltac split_phases :=
  repeat lazymatch goal with
         | |- Forall _ (_ ++ _) => apply List.Forall_app; split
         end.

Section WholeRun.
Context `{Collaborators}.
Local Open Scope string_scope.

Variables (ens_params : EnsParams) (df_buyer df_market : DataFrame)
  (end_training_timestamp : Timestamp) (forecast_range : list Timestamp)
  (challenge_usecase : option string) (simulation : bool) (files : Files).

(** ** Kinds of calls, phase by phase *)
Lemma frame_not_model ev : is_frame_event ev -> ~ is_model_event ev.
Proof. destruct ev; cbn; tauto. Qed.

Lemma prep_not_model ev : prep_kind ev -> ~ is_model_event ev.
Proof. destruct ev; cbn; tauto. Qed.

Lemma frame_not_dump ev : is_frame_event ev -> not_dump ev.
Proof. destruct ev; cbn; tauto. Qed.

Lemma prep_not_dump ev : prep_kind ev -> not_dump ev.
Proof. destruct ev; cbn; tauto. Qed.

Lemma loop_not_dump P failed ev : loop_event P failed ev -> not_dump ev.
Proof. destruct ev; cbn; tauto. Qed.

Lemma assemble_not_dump ens ev : assemble_event ens ev -> not_dump ev.
Proof. destruct ev; cbn; tauto. Qed.









Lemma frame_q_frames_empty ev : is_frame_event ev -> q_frames_empty ev.
Proof. destruct ev; cbn; tauto. Qed.

Lemma assemble_q_frames_empty ens ev : assemble_event ens ev -> q_frames_empty ev.
Proof. destruct ev; cbn; tauto. Qed.

Lemma final_q_frames_empty ev : final_kind ev -> q_frames_empty ev.
Proof. destruct ev; cbn; tauto. Qed.

Lemma loop_q_frames_empty P failed ev :
  Forall (eq pd_DataFrame) (quantile_locals Q10 P ++ quantile_locals Q90 P) ->
  loop_event P failed ev -> q_frames_empty ev.
Proof.
  intro HP. cbn in HP.
  repeat match goal with Hf : Forall _ (_ :: _) |- _ => inversion_clear Hf end.
  destruct ev; cbn; try tauto; intuition congruence.
Qed.


(** ** The configuration assertions (lines 62-79) *)










Lemma test_partitions :
  let o := create_ensemble_forecasts ens_params df_buyer df_market
             end_training_timestamp forecast_range challenge_usecase simulation files in
  forall ev test, In ev (evs o) -> test_partition ev = Some test ->
    len test = 96%nat \/ res o = inl (AssertionError msg_96).
Proof.
  intro o. subst o. as_wp. walk.
  all: intros ev test Hin Htp; each_call ev Hin Hk; cbn in Htp; try discriminate.
  all: repeat match goal with
         | o : option (DataFrame * DataFrame) |- _ => destruct o as [[? ?]|]
         | s : SplitSite |- _ => destruct s
         end; try discriminate; try congruence; simplify_eq.
  all: try (destruct Hk as [_ Hk]; destruct (Hk _ _ eq_refl); [left; assumption | right; congruence]).
  all: match goal with Hp : prepared_post _ _ _ |- _ =>
         destruct (pp_96 Hp _ _ Hin); [left; assumption | right; congruence] end.
Qed.

(** C5.  The test partition of the first-stage ensemble split and of the
    second-stage split has 96 rows in every run that returns; with any
    other length the run fails with the assertion of lines 163 and 302. *)
Theorem C5_test_partition_has_96_rows :
  let o := create_ensemble_forecasts ens_params df_buyer df_market
             end_training_timestamp forecast_range challenge_usecase simulation files in
  forall ev test, In ev (evs o) -> test_partition ev = Some test ->
    (len test <> 96%nat -> res o = inl (AssertionError msg_96))
    /\ (forall v, res o = inr v -> len test = 96%nat).
Proof.
  intros o ev test Hin Htp.
  pose proof test_partitions as Ht. cbv zeta in Ht.
  destruct (Ht ev test Hin Htp) as [Hlen|Herr]; [|fold o in Herr].
  - split; [intro Hne; contradiction | intros; exact Hlen].
  - split; [intros _; exact Herr | intros v Hv; congruence].
Qed.




(** C9.  Every first-stage fit receives as training frame the one the
    concatenation produced, with no NaN in it.  When that frame holds a
    NaN the run ends in an error with no model fitted or used and the
    state file left as it was; the error is the assertion of line 198
    once the arrays of the quantile frames were made. *)
Theorem C9_training_frame_has_no_NaN :
  let o := create_ensemble_forecasts ens_params df_buyer df_market
             end_training_timestamp forecast_range challenge_usecase simulation files in
  (forall a out,
     In (Ev_predico_ensemble_predictions_per_quantile a out) (evs o) ->
     isna_sum_sum (Fit.df_train_ensemble a) = 0%nat
     /\ exists test,
          In (Ev_concatenate_feat_targ_dataframes
                (Some (Fit.df_train_ensemble a, test))) (evs o))
  /\ (forall train test,
        In (Ev_concatenate_feat_targ_dataframes (Some (train, test))) (evs o) ->
        isna_sum_sum train <> 0%nat ->
        (exists x, res o = inl x)
        /\ st o = files
        /\ Forall (fun ev => ~ is_model_event ev) (evs o)
        /\ forall a b c d out,
             In (Ev_get_numpy_Xy_train_test_quantile a b c d (Some out)) (evs o) ->
             res o = inl (AssertionError EmptyString)).
Proof.
  intro o. subst o. as_wp. walk.
  all: split.
  (* the frame a fit receives *)
  all: try solve [
    intros a out Hin;
    lazymatch type of Hin with In ?ev _ => by_phase Hin; kind_of ev Hin Hk; cbn in Hk end;
    try contradiction;
    lazymatch goal with Hp : prepared_post _ (inr ?P) _ |- _ =>
      destruct (pp_ok Hp eq_refl) as (Hc & Hnan & _);
      destruct Hk as (-> & _); split; [exact Hnan|];
      eexists; in_list
    end ].
  (* a frame with NaN *)
  all: intros train test Hin Hnan.
  all: lazymatch type of Hin with In ?ev _ => by_phase Hin; kind_of ev Hin Hk; cbn in Hk end.
  all: try contradiction.
  all: lazymatch goal with Hp : prepared_post _ _ _ |- _ =>
         destruct (pp_nan Hp _ _ Hin Hnan) as (x & Hx & Hq); simplify_eq end.
  split; [eauto|]. split; [reflexivity|]. split.
  - apply List.Forall_app; split.
    + eapply List.Forall_impl; [apply frame_not_model|]. eapply fp_events; eassumption.
    + eapply List.Forall_impl; [apply prep_not_model|]. eapply pp_kind; eassumption.
  - intros a b c d' out Hq'. f_equal.
    lazymatch type of Hq' with In ?ev _ =>
      by_phase Hq'; [kind_of ev Hq' Hk'; cbn in Hk'; contradiction|] end.
    eapply Hq; eassumption.
Qed.

(** C10.  With [add_quantile_predictions] off, no q10 or q90 frame is
    augmented or split, every call that takes the q10 and q90 frames
    receives [pd.DataFrame()], the arrays of a fit are those made from
    four empty frames, and the q10 and q90 locals of the data preparation
    (augmented, train and test) are all [pd.DataFrame()]. *)
Theorem C10_quantile_frames_empty_without_the_flag :
  add_quantile_predictions ens_params = false ->
  let o := create_ensemble_forecasts ens_params df_buyer df_market
             end_training_timestamp forecast_range challenge_usecase simulation files in
  Forall q_frames_empty (evs o)
  /\ (forall a out,
        In (Ev_predico_ensemble_predictions_per_quantile a out) (evs o) ->
        In (Ev_get_numpy_Xy_train_test_quantile
              pd_DataFrame pd_DataFrame pd_DataFrame pd_DataFrame
              (Some (Fit.X_train_quantile10 a, Fit.X_test_quantile10 a,
                     Fit.X_train_quantile90 a, Fit.X_test_quantile90 a))) (evs o))
  /\ (forall d50 d10 d90 name t0 t1 s P,
        res (first_stage_data ens_params df_buyer d50 d10 d90 name t0 t1 s) = inr P ->
        Forall (eq pd_DataFrame) (quantile_locals Q10 P ++ quantile_locals Q90 P)).
Proof.
  intros Hflag o. split; [|split].
  3: { intros d50 d10 d90 name t0 t1 s P HP.
       destruct (first_stage_data_spec ens_params df_buyer d50 d10 d90 name t0 t1 s)
         as [_ Hpost].
       apply (pp_flag Hpost Hflag). exact HP. }
  all: subst o; as_wp; walk.
  all: repeat match goal with
         | Hp : prepared_post _ _ _ |- _ =>
             lazymatch goal with
             | _ : Forall q_frames_empty _ |- _ => fail
             | _ => destruct (pp_flag Hp Hflag)
             end
         end.
  (* every call *)
  all: try solve [
    split_phases;
    first
      [ apply List.Forall_nil
      | assumption
      | eapply List.Forall_impl; [apply frame_q_frames_empty|]; eapply fp_events; eassumption
      | eapply List.Forall_impl; [apply assemble_q_frames_empty|]; eapply ap_events; eassumption
      | eapply List.Forall_impl; [apply final_q_frames_empty|];
        first [eapply sp_events; eassumption | eapply cp_events; eassumption]
      | lazymatch goal with
        | Hl : loop_post _ _ ?e |- Forall _ ?e =>
            eapply List.Forall_impl; [|exact (lp_events Hl)];
            intro; apply loop_q_frames_empty;
            lazymatch goal with
            | HP : forall P0, inr _ = inr P0 -> _ |- _ => apply HP; reflexivity
            end
        end ] ].
  (* the arrays of a fit *)
  all: intros a out Hin.
  all: lazymatch type of Hin with In ?ev _ => by_phase Hin; kind_of ev Hin Hk; cbn in Hk end.
  all: try contradiction.
  all: lazymatch goal with
       | Hp : prepared_post _ (inr ?P) _, HP : forall P0, inr ?P = inr P0 -> _ |- _ =>
           destruct (pp_ok Hp eq_refl) as (_ & _ & _ & Hq);
           pose proof (HP P eq_refl) as HP'; cbn in HP';
           repeat match goal with Hf : Forall _ (_ :: _) |- _ => inversion_clear Hf end;
           destruct Hk as (_ & _ & _ & ->);
           repeat match goal with Hd : pd_DataFrame = _ |- _ => rewrite <- Hd in Hq; clear Hd end;
           in_list
       end.
Qed.

End WholeRun.

(* ===================================================================== *)
(** * Exceptions of the callees *)
(* ===================================================================== *)

Section FailStop.
Context `{Collaborators}.

Lemma quiet_app e e' : quiet e -> quiet e' -> quiet (e ++ e').
Proof. intros He He'. apply List.Forall_app. split; assumption. Qed.

Lemma fail_stop_returned A (a : A) e : fail_stop (inr a) e -> quiet e.
Proof. intros [[Hq _]|(l & ev & _ & _ & _ & Hr)]; [exact Hq | discriminate Hr]. Qed.

(** The events [e] of the calls made before, none of which raised, in
    front of a part of the run that stops at the first raising call. *)
Lemma fail_stop_app A B (x : exn) e e' :
  quiet e -> fail_stop (inl x : exn + A) e' -> fail_stop (inl x : exn + B) (e ++ e').
Proof.
  intros He [[Hq Hx]|(l & ev & -> & Hl & Hev & Hr)].
  - left. split; [apply quiet_app; assumption|]. intros c Hc. apply (Hx c). congruence.
  - right. exists (e ++ l), ev. rewrite app_assoc. split; [reflexivity|].
    split; [apply quiet_app; assumption|]. split; [exact Hev|]. congruence.
Qed.

Lemma fail_stop_app_returned A (a : A) e e' :
  quiet e -> fail_stop (inr a) e' -> fail_stop (inr a) (e ++ e').
Proof.
  intros He He'. left. split; [|discriminate].
  apply quiet_app; [exact He | eapply fail_stop_returned; exact He'].
Qed.

(** What [fail_stop] says, spelled out. *)
Lemma fail_stop_last A (r : exn + A) e l ev l' :
  fail_stop r e -> e = l ++ ev :: l' -> raised ev = true ->
  l' = [] /\ r = inl (Raised (callee_of ev)).
Proof.
  intros [[Hq _]|(l0 & ev0 & -> & Hl & Hev & Hr)] He Hraised.
  - subst e. apply Forall_app in Hq. destruct Hq as [_ Hq].
    inversion Hq; subst. congruence.
  - destruct l' as [|y l'] using rev_ind.
    + apply app_inj_tail in He. destruct He as [_ ->]. auto.
    + exfalso. rewrite app_comm_cons, app_assoc in He.
      apply app_inj_tail in He. destruct He as [-> _].
      apply Forall_app in Hl. destruct Hl as [_ Hl].
      inversion Hl; subst. congruence.
Qed.

Lemma fail_stop_raised A (r : exn + A) e callee :
  fail_stop r e -> r = inl (Raised callee) ->
  exists l ev, e = l ++ [ev] /\ quiet l /\ raised ev = true /\ callee_of ev = callee.
Proof.
  intros [[_ Hx]|(l & ev & -> & Hl & Hev & Hr)] Hraised.
  - destruct (Hx callee Hraised).
  - exists l, ev. repeat split; try assumption. congruence.
Qed.

End FailStop.

(** Settle [fail_stop] for the explicit log of one way through a phase. *)
Ltac quiet_list :=
  unfold quiet;
  repeat first
    [ apply List.Forall_nil
    | assumption
    | apply List.Forall_cons; [reflexivity|]
    | apply List.Forall_app; split ].

Ltac fail_stop_here :=
  repeat match goal with
         | Hf : fail_stop (inr _) _ |- _ => apply fail_stop_returned in Hf
         end;
  first
    [ left; split; [quiet_list | intros ? ?; discriminate]
    | rewrite ?app_nil_r;
      match goal with
      | Hf : fail_stop (inl ?x) ?e2 |- fail_stop (inl ?x) ?e =>
          let rec prefix e :=
            lazymatch e with
            | e2 => constr:(@nil Event)
            | ?a :: ?e' => let p := prefix e' in constr:(a :: p)
            | ?e1 ++ ?e' => let p := prefix e' in constr:(e1 ++ p)
            end in
          let p := prefix e in
          replace e with (p ++ e2)
            by (rewrite <- ?app_assoc; cbn [app]; rewrite ?app_nil_r; reflexivity);
          eapply fail_stop_app; [quiet_list | exact Hf]
      end
    | right;
      lazymatch goal with
      | |- exists l ev, ?e = _ /\ _ =>
          let rec go pre e :=
            lazymatch e with
            | [?ev] => exists pre, ev
            | ?x :: ?e' => go (pre ++ [x]) e'
            | ?e1 ++ ?e' => go (pre ++ e1) e'
            end in
          go (@nil Event) e
      end;
      split; [cbn [app]; rewrite <- ?app_assoc; reflexivity|];
      cbn [app]; split; [quiet_list|]; split; reflexivity ].

Section FailStopPhases.
Context `{Collaborators}.
Local Open Scope string_scope.

Lemma quantile_frames_fail_stop df_market s :
  wp (quantile_frames df_market) s (fun r s' e => s' = s /\ fail_stop r e).
Proof.
  unfold quantile_frames, extract_and_impute. wp_run.
  all: cbn [app]; split; [reflexivity|]; fail_stop_here.
Qed.

Lemma check_configuration_fail_stop ens_params s :
  wp (check_configuration ens_params) s (fun r s' e => s' = s /\ fail_stop r e).
Proof.
  unfold check_configuration. wp_run.
  all: cbn [app]; split; [reflexivity|]; fail_stop_here.
Qed.

Lemma first_stage_data_fail_stop ens_params df_buyer d50 d10 d90 name t0 t1 s :
  wp (first_stage_data ens_params df_buyer d50 d10 d90 name t0 t1) s
     (fun r s' e => s' = s /\ fail_stop r e).
Proof.
  unfold first_stage_data, augment_quantile, split_quantile, augment, index_equal_all.
  wp_run.
  all: cbn [app]; split; [reflexivity|]; fail_stop_here.
Qed.

(** The loop rule for [fail_stop]. *)
Lemma for_each_fail_stop A B (body : A -> B -> Eng B) (l : list A) (b : B) s :
  (forall x b, wp (body x b) s (fun r s' e => s' = s /\ fail_stop r e)) ->
  wp (for_each l body b) s (fun r s' e => s' = s /\ fail_stop r e).
Proof.
  intro Hbody. eapply wp_mono.
  - apply wp_for_each
      with (I := fun _ _ e => quiet e)
           (J := fun x e => fail_stop (inl x : exn + B) e)
           (done := []) (e0 := []).
    + constructor.
    + intros x done b' e _ He. eapply wp_mono; [apply Hbody|].
      intros r s' e' [-> Hr]. split; [reflexivity|]. destruct r.
      * eapply fail_stop_app; eassumption.
      * apply quiet_app; [exact He | eapply fail_stop_returned; exact Hr].
  - intros r s' e [-> Hr]. split; [reflexivity|]. cbn [app] in Hr.
    destruct r; [exact Hr|]. left. split; [exact Hr | discriminate].
Qed.

Lemma variability_body_fail_stop ens_params P fm Xa dfa Xt tr te X y Xte q v s :
  wp (variability_body ens_params P fm Xa dfa Xt tr te X y Xte q v) s
     (fun r s' e => s' = s /\ fail_stop r e).
Proof.
  unfold variability_body, pd_DataFrame_of. wp_run.
  all: cbn [app]; split; [reflexivity|]; fail_stop_here.
Qed.

Lemma variability_loop_fail_stop ens_params P fm Xa dfa Xt tr te X y Xte qs v s :
  wp (for_each qs (variability_body ens_params P fm Xa dfa Xt tr te X y Xte) v) s
     (fun r s' e => s' = s /\ fail_stop r e).
Proof. apply for_each_fail_stop. intros. apply variability_body_fail_stop. Qed.

Lemma second_stage_fail_stop ens_params P fm Xa dfa name t0 t1 q bv s :
  wp (second_stage ens_params P fm Xa dfa name t0 t1 q bv) s
     (fun r s' e => s' = s /\ fail_stop r e).
Proof.
  unfold second_stage. wp_run.
  all: try (wp_apply variability_loop_fail_stop).
  all: wp_run.
  all: cbn [app]; split; [reflexivity|]; fail_stop_here.
Qed.

Lemma first_stage_body_fail_stop ens_params P name t0 t1 q st s :
  wp (first_stage_body ens_params P name t0 t1 q st) s
     (fun r s' e => s' = s /\ fail_stop r e).
Proof.
  unfold first_stage_body, key. wp_run.
  all: try (wp_apply second_stage_fail_stop).
  all: wp_run.
  all: cbn [app]; split; [reflexivity|]; fail_stop_here.
Qed.

Lemma first_stage_loop_fail_stop ens_params P name t0 t1 s :
  wp (first_stage_loop ens_params P name t0 t1) s
     (fun r s' e => s' = s /\ fail_stop r e).
Proof. apply for_each_fail_stop. intros. apply first_stage_body_fail_stop. Qed.

Lemma rescale_body_fail_stop ens_params P q predictions s :
  wp (rescale_body ens_params P q predictions) s
     (fun r s' e => s' = s /\ fail_stop r e).
Proof.
  unfold rescale_body. wp_run.
  all: cbn [app]; split; [reflexivity|]; fail_stop_here.
Qed.

Lemma rescale_and_assemble_fail_stop ens_params P name st s :
  wp (rescale_and_assemble ens_params P name st) s
     (fun r s' e => s' = s /\ fail_stop r e).
Proof.
  unfold rescale_and_assemble, norm_name.
  apply wp_bind. eapply wp_mono.
  { apply for_each_fail_stop. intros. apply rescale_body_fail_stop. }
  cbv beta; intros [?|?] ? ? [-> ?]; cbv beta iota zeta.
  all: wp_run.
  all: cbn [app]; split; [reflexivity|]; fail_stop_here.
Qed.

Lemma simulation_results_fail_stop P st targ pred t cu files :
  wp (simulation_results P st targ pred t cu) files (fun r _ e => fail_stop r e).
Proof.
  unfold simulation_results, getitem, bound. wp_run.
  all: cbn [app]; fail_stop_here.
Qed.

Lemma challenge_results_fail_stop P st pred t cu files :
  wp (challenge_results P st pred t cu) files (fun r _ e => fail_stop r e).
Proof.
  unfold challenge_results, bound. wp_run.
  all: cbn [app]; fail_stop_here.
Qed.

Lemma create_ensemble_forecasts_fail_stop ens_params df_buyer df_market
    end_training_timestamp forecast_range challenge_usecase simulation files :
  wp (create_ensemble_forecasts ens_params df_buyer df_market
        end_training_timestamp forecast_range challenge_usecase simulation) files
     (fun r _ e => fail_stop r e).
Proof.
  unfold create_ensemble_forecasts, first_timestamp, last_timestamp, first_column.
  wp_run.
  all: try (wp_apply quantile_frames_fail_stop; wp_run).
  all: try (wp_apply check_configuration_fail_stop; wp_run).
  all: try (wp_apply first_stage_data_fail_stop; wp_run).
  all: try (wp_apply first_stage_loop_fail_stop; wp_run).
  all: try (wp_apply rescale_and_assemble_fail_stop; wp_run).
  all: try (eapply wp_mono; [apply simulation_results_fail_stop|];
            cbv beta; intros [?|?] ? ? ?).
  all: try (eapply wp_mono; [apply challenge_results_fail_stop|];
            cbv beta; intros [?|?] ? ? ?).
  all: cbn [app]; fail_stop_here.
Qed.
End FailStopPhases.

Section FlowPhases.
Context `{Collaborators}.
Local Open Scope string_scope.

Lemma forallb_index_eq (a b : list Timestamp) :
  length a = length b ->
  forallb (fun p => Z.eqb (fst p) (snd p)) (combine a b) = true -> a = b.
Proof.
  revert b. induction a as [|x a IH]; intros [|y b] Hlen Hall; try discriminate.
  - reflexivity.
  - cbn in Hall. apply andb_prop in Hall. destruct Hall as [Hxy Hall].
    apply Z.eqb_eq in Hxy. cbn in Hxy. subst y. f_equal. apply IH; [|exact Hall].
    cbn in Hlen. congruence.
Qed.

(** All but the last element of an explicit list. *)
Ltac but_last e :=
  lazymatch e with
  | [_] => constr:(@nil Event)
  | ?a :: ?e' => let p := but_last e' in constr:(a :: p)
  end.

Ltac not_quiet :=
  lazymatch goal with
  | Hq : quiet _ |- _ =>
      exfalso; unfold quiet in Hq;
      repeat match goal with
             | Hf : Forall _ (_ :: _) |- _ => inversion_clear Hf
             end;
      discriminate
  end.

Lemma first_stage_data_flow ens_params df_buyer d50 d10 d90 name t0 t1 s :
  wp (first_stage_data ens_params df_buyer d50 d10 d90 name t0 t1) s
     (fun r s' e => s' = s /\ prepared_flow ens_params name s r e).
Proof.
  unfold first_stage_data, augment_quantile, split_quantile, augment, index_equal_all.
  wp_run.
  all: split; [reflexivity|].
  all: cbn [app].
  all: rewrite ?Nat.eqb_eq in *.
  all: split.
  (* the state file *)
  all: try solve [left; split; [kinds | eexists; reflexivity]].
  all: try solve [
    right;
    lazymatch goal with
    | |- exists pre, _ /\ ?e = _ /\ _ => let p := but_last e in exists p
    end;
    lazymatch goal with
    | Hl : load_or_initialize_results _ _ _ = _ |- _ => rewrite Hl
    end;
    split; [kinds|]; split; [reflexivity|];
    first [reflexivity | eexists; split; [reflexivity|]; subst; reflexivity] ].
  (* the training data *)
  all: try solve [intros P HP; discriminate HP].
  all: try solve [
    intros P HP; simplify_eq;
    cbn [df_test_targ df_test_ensemble X_train y_train X_test];
    split; [apply forallb_index_eq; assumption|];
    split; eexists; in_list ].
  (* the index assertion *)
  all: try solve [
    intros train test train' test' Hsplit Hconcat Hne;
    in_cases; simplify_eq;
    first
      [ exfalso; apply Hne; apply forallb_index_eq; assumption
      | split; [kinds|]; split; [eexists; reflexivity|];
        intros Hq Hlen;
        first
          [ not_quiet
          | match goal with
            | Hc : (len _ =? 96)%nat = false |- _ => apply Nat.eqb_neq in Hc; congruence
            end
          | repeat match goal with
                   | Hc : (_ =? _)%nat = false |- _ => rewrite Hc
                   | Hc : length _ = length _ |- _ =>
                       rewrite <- Nat.eqb_eq in Hc; rewrite Hc
                   end;
            reflexivity ] ] ].
  (* the q10 and q90 frames *)
  all: try solve [
    intros out tag P Hadd Htag Hin Hempty HP;
    first
      [ discriminate HP
      | congruence
      | simplify_eq; in_cases; simplify_eq;
        destruct tag; cbn [scaled_frame fst snd] in Hempty;
        first
          [ congruence
          | do 3 eexists; split; [in_list|]; split; [in_list | reflexivity] ] ] ].
Qed.
End FlowPhases.

(* ===================================================================== *)
(** * The two loops over quantiles *)
(* ===================================================================== *)

Section LoopRule.
Context {St E : Type}.

(** The loop rule with the position in the list: the body is run on [x]
    with [done] before it and [rest] after it. *)
Lemma wp_for_each_at A B (body : A -> B -> M St E B) (l0 : list A)
    (I : list A -> B -> list E -> Prop) (J : exn -> list E -> Prop) (s : St) :
  (forall done x rest b e, l0 = done ++ x :: rest -> I done b e ->
     wp (body x b) s (fun r s' e' =>
       s' = s /\ match r with
                 | inr b' => I (done ++ [x]) b' (e ++ e')
                 | inl y => J y (e ++ e')
                 end)) ->
  forall (l done : list A) (b : B) (e0 : list E),
  l0 = done ++ l -> I done b e0 ->
  wp (for_each l body b) s (fun r s' e' =>
    s' = s /\ match r with
              | inr b' => I l0 b' (e0 ++ e')
              | inl y => J y (e0 ++ e')
              end).
Proof.
  intros Hbody. induction l as [|x l IH]; intros done b e0 Hl HI.
  - apply wp_ret. split; [reflexivity|]. rewrite !app_nil_r in *. subst l0. exact HI.
  - simpl. apply wp_bind.
    eapply wp_mono; [apply (Hbody done x l b e0 Hl HI)|].
    intros r s' e [-> Hr]. destruct r as [y|b'].
    + split; [reflexivity | exact Hr].
    + eapply wp_mono.
      * apply (IH (done ++ [x]) b' (e0 ++ e)); [|exact Hr].
        rewrite <- app_assoc. exact Hl.
      * intros r2 s2 e2 [-> Hr2]. split; [reflexivity|].
        destruct r2; rewrite <- !app_assoc in Hr2; exact Hr2.
Qed.
End LoopRule.

Section Calls.
Context `{Collaborators}.

Lemma fit_calls_app e e' : fit_calls (e ++ e') = fit_calls e ++ fit_calls e'.
Proof.
  induction e as [|ev e IH]; [reflexivity|].
  destruct ev; cbn; rewrite ?IH; reflexivity.
Qed.

Lemma var_calls_app e e' : var_calls (e ++ e') = var_calls e ++ var_calls e'.
Proof.
  induction e as [|ev e IH]; [reflexivity|].
  destruct ev; cbn; rewrite ?IH; reflexivity.
Qed.

Lemma in_fit_calls a out e :
  In (a, out) (fit_calls e) <-> In (Ev_predico_ensemble_predictions_per_quantile a out) e.
Proof.
  induction e as [|ev e IH]; [reflexivity|].
  destruct ev; cbn; rewrite IH; intuition (try discriminate; try (left; congruence)).
Qed.

Lemma in_var_calls a out e :
  In (a, out) (var_calls e) <-> In (Ev_predico_ensemble_variability_predictions a out) e.
Proof.
  induction e as [|ev e IH]; [reflexivity|].
  destruct ev; cbn; rewrite IH; intuition (try discriminate; try (left; congruence)).
Qed.

Lemma outcome_app p b cs cs' :
  outcome p b (cs ++ cs') = outcome (fst (outcome p b cs)) (snd (outcome p b cs)) cs'.
Proof.
  revert p b. induction cs as [|[a [w|]] cs IH]; intros p b; cbn; auto.
Qed.

Lemma threaded_app p b cs cs' :
  all_returned cs -> threaded p b cs ->
  threaded (fst (outcome p b cs)) (snd (outcome p b cs)) cs' ->
  threaded p b (cs ++ cs').
Proof.
  revert p b. induction cs as [|[a [w|]] cs IH]; intros p b Hret Hth Hth'; cbn in *.
  - exact Hth'.
  - destruct Hth as (Hp & Hb & Hth). inversion_clear Hret. auto.
  - inversion_clear Hret. cbn in *. congruence.
Qed.

Lemma outcome_var_app b cs cs' :
  outcome_var b (cs ++ cs') = outcome_var (outcome_var b cs) cs'.
Proof.
  revert b. induction cs as [|[a [w|]] cs IH]; intros b; cbn; auto.
Qed.

Lemma threaded_var_app b cs cs' :
  all_returned cs -> threaded_var b cs -> threaded_var (outcome_var b cs) cs' ->
  threaded_var b (cs ++ cs').
Proof.
  revert b. induction cs as [|[a [w|]] cs IH]; intros b Hret Hth Hth'; cbn in *.
  - exact Hth'.
  - destruct Hth as (Hb & Hth). inversion_clear Hret. auto.
  - inversion_clear Hret. cbn in *. congruence.
Qed.

Lemma all_returned_app A B (cs cs' : list (A * option B)) :
  all_returned cs -> all_returned cs' -> all_returned (cs ++ cs').
Proof. intros. apply List.Forall_app. split; assumption. Qed.

End Calls.

Section DictFacts.
Context {V : Type}.

Lemma in_dict_set (q k : Q) (v i : V) (d : dict V) :
  In (k, i) (dict_set q v d) -> (i = v /\ Qeq_bool k q = true) \/ In (k, i) d.
Proof.
  induction d as [|[k' w] d IH]; cbn.
  - intros [Heq|[]]. left. inversion Heq; subst. split; [reflexivity|].
    apply Qeq_bool_iff. reflexivity.
  - destruct (Qeq_bool k' q) eqn:Hk; cbn.
    + intros [Heq|Hin]; [|auto]. inversion Heq; subst. auto.
    + intros [Heq|Hin]; [auto|]. destruct (IH Hin); auto.
Qed.

Lemma has_key_set (q q' : Q) (v : V) (d : dict V) :
  Qeq_bool q q' = true \/ has_key q' d -> has_key q' (dict_set q v d).
Proof.
  unfold has_key. rewrite dict_get_set. destruct (Qeq_bool q q'); [discriminate|].
  intros [Hq|Hd]; [discriminate | exact Hd].
Qed.

Lemma Qeq_bool_refl (q : Q) : Qeq_bool q q = true.
Proof. apply Qeq_bool_iff. reflexivity. Qed.
End DictFacts.

Section VarLoop.
Context `{Collaborators}.
Local Open Scope string_scope.

Variables (ens_params : EnsParams) (P : Prepared) (fm : Model) (Xa : matrix)
  (dfa : DataFrame) (Xt : matrix) (tr te : DataFrame) (X : matrix) (y : vector)
  (Xte : matrix).

Lemma variability_body_calls q v s :
  wp (variability_body ens_params P fm Xa dfa Xt tr te X y Xte q v) s
     (fun r s' e =>
        s' = s
        /\ fit_calls e = []
        /\ Forall (fit_inputs ens_params P) e
        /\ Forall var_kind e
        /\ exists out,
             var_calls e
             = [(FitVar.mk ens_params X y Xte (variability_predictions v) q
                   (iteration P) (v_best_results_var v)
                   (variability_predictions_insample v)
                   (variability_predictions_outsample v), out)]
             /\ forall v', r = inr v' ->
                  exists w,
                    out = Some w
                    /\ v_best_results_var v' = WPV.best_results_var w
                    /\ v_previous_day_results_second_stage v'
                       = dict_set q
                           (Info2.mk fm (WPV.var_fitted_model w) Xa Xt dfa
                              (df_train_ensemble P) (df_test_ensemble P)
                              (y_train P) (buyer_scaler_stats P))
                           (v_previous_day_results_second_stage v)).
Proof.
  unfold variability_body, pd_DataFrame_of. wp_run.
  all: split; [reflexivity|]; cbn [app fit_calls var_calls].
  all: split; [reflexivity|].
  all: split; [kinds|].
  all: split; [kinds|].
  all: eexists; split; [reflexivity|].
  all: intros v' Hv'; try discriminate Hv'.
  simplify_eq. eexists. split; [reflexivity|]. split; reflexivity.
Qed.

(** Lines 315-355 over the quantiles [qs], from the empty dicts. *)
Lemma variability_loop_calls qs v0 s :
  v_previous_day_results_second_stage v0 = [] ->
  wp (for_each qs (variability_body ens_params P fm Xa dfa Xt tr te X y Xte) v0) s
     (fun r s' e =>
        s' = s
        /\ fit_calls e = []
        /\ Forall (fit_inputs ens_params P) e
        /\ Forall var_kind e
        /\ threaded_var (v_best_results_var v0) (var_calls e)
        /\ forall v, r = inr v ->
             map (fun c => FitVar.quantile (fst c)) (var_calls e) = qs
             /\ all_returned (var_calls e)
             /\ outcome_var (v_best_results_var v0) (var_calls e) = v_best_results_var v
             /\ (forall k i, In (k, i) (v_previous_day_results_second_stage v) ->
                   var_entry P fm Xa Xt dfa e k i)
             /\ forall q, In q qs -> has_key q (v_previous_day_results_second_stage v)).
Proof.
  intro Hempty. eapply wp_mono.
  - apply wp_for_each
      with (I := fun done v e =>
                   fit_calls e = []
                   /\ Forall (fit_inputs ens_params P) e
                   /\ Forall var_kind e
                   /\ threaded_var (v_best_results_var v0) (var_calls e)
                   /\ map (fun c => FitVar.quantile (fst c)) (var_calls e) = done
                   /\ all_returned (var_calls e)
                   /\ outcome_var (v_best_results_var v0) (var_calls e)
                      = v_best_results_var v
                   /\ (forall k i, In (k, i) (v_previous_day_results_second_stage v) ->
                         var_entry P fm Xa Xt dfa e k i)
                   /\ forall q, In q done ->
                        has_key q (v_previous_day_results_second_stage v))
           (J := fun _ e =>
                   fit_calls e = []
                   /\ Forall (fit_inputs ens_params P) e
                   /\ Forall var_kind e
                   /\ threaded_var (v_best_results_var v0) (var_calls e))
           (done := []) (e0 := []).
    + rewrite Hempty. cbn. repeat split; try constructor; intros; contradiction.
    + intros q done v e _ (Hfit & Hin & Hkind & Hth & Hq & Hret & Hout & Hent & Hkeys).
      eapply wp_mono; [apply variability_body_calls|].
      intros r s' e' (-> & Hfit' & Hin' & Hkind' & out & Hcalls & Hr).
      split; [reflexivity|].
      assert (Hth' : threaded_var (v_best_results_var v0) (var_calls (e ++ e'))).
      { rewrite var_calls_app. apply threaded_var_app; [exact Hret | exact Hth|].
        rewrite Hout, Hcalls. cbn. split; [reflexivity|].
        destruct out; [exact I | reflexivity]. }
      assert (Hbase : fit_calls (e ++ e') = []
                      /\ Forall (fit_inputs ens_params P) (e ++ e')
                      /\ Forall var_kind (e ++ e')
                      /\ threaded_var (v_best_results_var v0) (var_calls (e ++ e'))).
      { rewrite fit_calls_app, Hfit, Hfit'.
        repeat split; try apply List.Forall_app; auto. }
      destruct r as [x|v']; [exact Hbase|].
      destruct Hbase as (? & ? & ? & ?).
      destruct (Hr v' eq_refl) as (w & -> & Hbest & Hinfo).
      repeat split; try assumption.
      * rewrite var_calls_app, map_app, Hq, Hcalls. reflexivity.
      * rewrite var_calls_app, Hcalls. apply all_returned_app; [exact Hret|].
        constructor; [discriminate | constructor].
      * rewrite var_calls_app, outcome_var_app, Hcalls. cbn. symmetry. exact Hbest.
      * intros k i Hki. rewrite Hinfo in Hki. apply in_dict_set in Hki.
        destruct Hki as [[-> Hk]|Hki].
        -- eexists _, w. split; [|split; [|reflexivity]].
           ++ apply in_or_app. right. apply in_var_calls. rewrite Hcalls. left. reflexivity.
           ++ exact Hk.
        -- destruct (Hent k i Hki) as (a & w' & Ha & Hk & ->).
           exists a, w'. split; [apply in_or_app; left; exact Ha|]. split; [exact Hk|].
           reflexivity.
      * intros q' Hq'. rewrite Hinfo. apply has_key_set.
        apply in_app_or in Hq'. destruct Hq' as [Hq'|[<-|[]]].
        -- right. apply Hkeys, Hq'.
        -- left. apply Qeq_bool_refl.
  - intros r s' e [-> Hr]. split; [reflexivity|]. cbn [app] in Hr.
    destruct r as [x|v].
    + destruct Hr as (? & ? & ? & ?). do 4 (split; [assumption|]). discriminate.
    + destruct Hr as (? & ? & ? & ? & ? & ? & ? & ? & ?).
      do 4 (split; [assumption|]). intros v' Hv'. injection Hv' as <-.
      do 4 (split; [assumption|]). assumption.
Qed.
End VarLoop.

(** Normalise the calls of a log made of explicit events around the log
    of a loop. *)
Ltac calls_of_log :=
  cbn [app fit_calls var_calls];
  rewrite ?fit_calls_app, ?var_calls_app;
  cbn [app fit_calls var_calls];
  repeat match goal with
         | Hc : fit_calls ?e = _ |- _ => rewrite Hc
         end;
  cbn [app]; rewrite ?app_nil_r.

Ltac inputs_of_log :=
  repeat first
    [ apply List.Forall_nil
    | assumption
    | apply List.Forall_cons; [cbn; auto|]
    | apply List.Forall_app; split ].

Section SecondStageCalls.
Context `{Collaborators}.
Local Open Scope string_scope.

Lemma var_entry_incl P fm Xa Xt dfa e e' k i :
  var_entry P fm Xa Xt dfa e k i -> incl e e' -> var_entry P fm Xa Xt dfa e' k i.
Proof.
  intros (a & w & Hin & Hk & Hi) Hincl. exists a, w. split; [apply Hincl, Hin | auto].
Qed.

Lemma second_stage_calls ens_params P fm Xa dfa name t0 t1 q bv s :
  wp (second_stage ens_params P fm Xa dfa name t0 t1 q bv) s
     (fun r s' e =>
        s' = s
        /\ fit_calls e = []
        /\ Forall (fit_inputs ens_params P) e
        /\ threaded_var bv (var_calls e)
        /\ forall L bv', r = inr (L, bv') ->
             map (fun c => FitVar.quantile (fst c)) (var_calls e) = quantiles ens_params
             /\ all_returned (var_calls e)
             /\ outcome_var bv (var_calls e) = bv'
             /\ (exists Xt y,
                   In (Ev_prepare_pre_test_data (df_test_ensemble_quantile10 P)
                         (df_test_ensemble_quantile90 P) (Some (Xt, y))) e
                   /\ forall k i, In (k, i) (previous_day_results_second_stage L) ->
                        var_entry P fm Xa Xt dfa e k i)
             /\ forall q', In q' (quantiles ens_params) ->
                  has_key q' (previous_day_results_second_stage L)).
Proof.
  unfold second_stage. wp_run.
  all: try (eapply wp_mono; [apply variability_loop_calls; reflexivity|];
            cbv beta; intros [?|?] ? ? [-> ?]; cbv beta iota zeta).
  all: wp_run.
  all: split; [reflexivity|].
  all: split_ands.
  all: split; [calls_of_log; reflexivity|].
  all: split; [cbn [app]; inputs_of_log|].
  all: split; [calls_of_log; first [exact I | assumption]|].
  all: intros L bv' HL; try discriminate HL.
  injection HL as <- <-.
  match goal with
  | Hv : forall v, inr ?v0 = inr v -> _ |- _ =>
      destruct (Hv v0 eq_refl) as (Hq & Hret & Hout & Hent & Hkeys)
  end.
  calls_of_log. cbn [v_best_results_var] in *.
  split; [exact Hq|]. split; [exact Hret|]. split; [exact Hout|].
  split; [|exact Hkeys].
  do 2 eexists. split; [left; reflexivity|].
  intros k i Hki. eapply var_entry_incl; [apply Hent, Hki|].
  intros ev Hev. cbn [In]. do 7 right. apply in_or_app. left. exact Hev.
Qed.
End SecondStageCalls.

Section FirstStageCalls.
Context `{Collaborators}.
Local Open Scope string_scope.

Lemma var_entries_recorded_incl P info e e' :
  var_entries_recorded P info e -> incl e e' -> var_entries_recorded P info e'.
Proof.
  intros Hrec Hincl k i Hki.
  destruct (Hrec k i Hki)
    as ((a & w & Ha & Hrest) & (X & y & HX & HXi) & (a' & w' & Ha' & Hrest') & Hfields).
  split; [exists a, w; split; [apply Hincl, Ha | exact Hrest]|].
  split; [exists X, y; split; [apply Hincl, HX | exact HXi]|].
  split; [exists a', w'; split; [apply Hincl, Ha' | exact Hrest']|].
  exact Hfields.
Qed.

Lemma entries_recorded_incl ens_params P info e e' :
  entries_recorded ens_params P info e -> incl e e' ->
  entries_recorded ens_params P info e'.
Proof.
  intros Hrec Hincl k i Hki. destruct (Hrec k i Hki) as (Hd & a & w & Ha & Hrest).
  split; [exact Hd|]. exists a, w. split; [apply Hincl, Ha | exact Hrest].
Qed.

Lemma first_stage_body_calls ens_params P name t0 t1 q st s :
  wp (first_stage_body ens_params P name t0 t1 q st) s
     (fun r s' e =>
        s' = s
        /\ Forall (fit_inputs ens_params P) e
        /\ threaded_var (best_results_var st) (var_calls e)
        /\ (is_median q = false -> Forall is_first_stage_fit e)
        /\ exists a out,
             fit_calls e = [(a, out)]
             /\ Fit.predictions a = predictions st
             /\ Fit.best_results a = best_results st
             /\ Fit.quantile a = q
             /\ forall st', r = inr st' ->
                  exists w i,
                    out = Some w
                    /\ predictions st' = WP.predictions w
                    /\ best_results st' = WP.best_results w
                    /\ previous_day_results_first_stage st'
                       = dict_set q i (previous_day_results_first_stage st)
                    /\ diagnostics_as_configured ens_params i
                    /\ recorded P w i
                    /\ if is_median q
                       then
                         map (fun c => FitVar.quantile (fst c)) (var_calls e)
                         = quantiles ens_params
                         /\ all_returned (var_calls e)
                         /\ outcome_var (best_results_var st) (var_calls e)
                            = best_results_var st'
                         /\ exists L,
                              second st' = Some L
                              /\ var_entries_recorded P
                                   (previous_day_results_second_stage L) e
                              /\ forall q', In q' (quantiles ens_params) ->
                                   has_key q' (previous_day_results_second_stage L)
                       else
                         var_calls e = []
                         /\ best_results_var st' = best_results_var st
                         /\ second st' = second st).
Proof.
  unfold first_stage_body, key, is_median. wp_run.
  all: try (wp_apply second_stage_calls).
  all: wp_run.
  all: split; [reflexivity|].
  all: split_ands.
  all: split; [cbn [app]; inputs_of_log; repeat split; reflexivity|].
  all: split; [calls_of_log; first [exact I | assumption]|].
  all: split; [intro Hm; first [congruence | kinds]|].
  all: do 2 eexists; split; [calls_of_log; reflexivity|].
  all: do 3 (split; [reflexivity|]).
  all: intros st' Hst'; try discriminate Hst'.
  all: injection Hst' as <-.
  all: do 2 eexists; split; [reflexivity|].
  all: cbn [predictions best_results previous_day_results_first_stage
            best_results_var second].
  all: do 3 (split; [reflexivity|]).
  all: split; [unfold diagnostics_as_configured; cbn;
               repeat match goal with Hc : _ = _ |- _ => rewrite Hc end;
               repeat split; congruence|].
  all: split; [repeat split; reflexivity|].
  all: repeat match goal with Hc : Qeq_bool _ _ = _ |- _ => rewrite Hc end.
  all: try solve [repeat split; reflexivity].
  all: match goal with
       | Hs : forall L bv', inr (?L0, ?b0) = inr _ -> _ |- _ =>
           destruct (Hs L0 b0 eq_refl)
             as (Hq & Hret & Hout & (Xt & y & Hprep & Hent) & Hkeys)
       end.
  all: calls_of_log.
  all: split; [exact Hq|]; split; [exact Hret|]; split; [exact Hout|].
  all: eexists; split; [reflexivity|]; split; [|exact Hkeys].
  all: intros k i Hki; destruct (Hent k i Hki) as (a & w & Ha & Hk & ->); cbn.
  all: split; [do 2 eexists; split; [left; reflexivity|];
               split; [assumption|]; repeat split; reflexivity|].
  all: split; [exists Xt, y; split; [right; in_list | reflexivity]|].
  all: split; [exists a, w; split; [right; in_list|]; split; [exact Hk | reflexivity]|].
  all: repeat split; reflexivity.
Qed.
End FirstStageCalls.

Section FirstStageLoopCalls.
Context `{Collaborators}.

Lemma second_stage_quantiles_app ens_params qs qs' :
  second_stage_quantiles ens_params (qs ++ qs')
  = second_stage_quantiles ens_params qs ++ second_stage_quantiles ens_params qs'.
Proof. unfold second_stage_quantiles. apply flat_map_app. Qed.

Lemma first_stage_loop_flow ens_params P name t0 t1 s :
  wp (first_stage_loop ens_params P name t0 t1) s
     (fun r s' e => s' = s /\ loop_flow ens_params P r e).
Proof.
  unfold first_stage_loop. eapply wp_mono.
  - apply wp_for_each_at
      with (l0 := quantiles ens_params)
           (I := fun done st e =>
                   Forall (fit_inputs ens_params P) e
                   /\ threaded [] (best_results0 P) (fit_calls e)
                   /\ threaded_var (best_results_var0 P) (var_calls e)
                   /\ (forallb (fun q => negb (is_median q)) done = true ->
                       Forall is_first_stage_fit e)
                   /\ fitted_so_far ens_params P done st e)
           (J := fun _ e =>
                   Forall (fit_inputs ens_params P) e
                   /\ threaded [] (best_results0 P) (fit_calls e)
                   /\ threaded_var (best_results_var0 P) (var_calls e)
                   /\ (exists rest,
                         quantiles ens_params
                         = map (fun c => Fit.quantile (fst c)) (fit_calls e) ++ rest)
                   /\ (forallb (fun q => negb (is_median q)) (quantiles ens_params)
                       = true -> Forall is_first_stage_fit e))
           (done := []) (e0 := []).
    + intros done q rest st e Hpos
        (Hin & Hth & Hthv & Hnm
         & Hq & Hret & Hout & Hqv & Hretv & Houtv & Hsec & Hent & Hkeys & Hvar).
      eapply wp_mono; [apply first_stage_body_calls|].
      intros r s' e' (-> & Hin' & Hthv' & Hnm' & a & out & Hcalls & Hap & Hab & Haq & Hr).
      split; [reflexivity|].
      assert (Hbase :
        Forall (fit_inputs ens_params P) (e ++ e')
        /\ threaded [] (best_results0 P) (fit_calls (e ++ e'))
        /\ threaded_var (best_results_var0 P) (var_calls (e ++ e'))).
      { split; [apply List.Forall_app; auto|]. split.
        - rewrite fit_calls_app. apply threaded_app; [exact Hret | exact Hth|].
          rewrite Hout, Hcalls. cbn. split; [exact Hap|]. split; [exact Hab|].
          destruct out; [exact I | reflexivity].
        - rewrite var_calls_app. apply threaded_var_app; [exact Hretv | exact Hthv|].
          rewrite Houtv. exact Hthv'. }
      destruct Hbase as (Hb1 & Hb2 & Hb3).
      assert (Hquiet : forall l, forallb (fun q => negb (is_median q)) l = true ->
                incl (done ++ [q]) l -> Forall is_first_stage_fit (e ++ e')).
      { intros l Hl Hincl. apply List.Forall_app. split.
        - apply Hnm. apply forallb_forall. intros x Hx.
          apply (proj1 (forallb_forall _ _) Hl). apply Hincl, in_or_app. auto.
        - apply Hnm'. apply negb_true_iff.
          apply (proj1 (forallb_forall _ _) Hl). apply Hincl, in_or_app.
          right. left. reflexivity. }
      destruct r as [x|st'].
      * do 3 (split; [assumption|]). split.
        -- exists rest. rewrite fit_calls_app, map_app, Hq, Hcalls. cbn. rewrite Haq.
           rewrite <- app_assoc. exact Hpos.
        -- intro Hl. apply (Hquiet _ Hl). rewrite Hpos. intros y Hy.
           apply in_app_or in Hy. apply in_or_app. destruct Hy as [Hy|[<-|[]]]; auto.
           right. left. reflexivity.
      * do 3 (split; [assumption|]).
        split; [intro Hl; apply (Hquiet _ Hl); apply incl_refl|].
        destruct (Hr st' eq_refl)
          as (w & i & -> & Hp' & Hb' & Hinfo & Hdiag & Hrec & Hmed).
        unfold fitted_so_far.
        split; [rewrite fit_calls_app, map_app, Hq, Hcalls; cbn; congruence|].
        split; [rewrite fit_calls_app, Hcalls; apply all_returned_app; [exact Hret|];
                constructor; [discriminate | constructor]|].
        split; [rewrite fit_calls_app, outcome_app, Hout, Hcalls; cbn; congruence|].
        assert (Hle : incl e (e ++ e')) by (intros ev Hev; apply in_or_app; auto).
        assert (Hre : incl e' (e ++ e')) by (intros ev Hev; apply in_or_app; auto).
        rewrite var_calls_app, map_app, outcome_var_app, Hqv, Houtv.
        rewrite second_stage_quantiles_app, forallb_app.
        cbn [second_stage_quantiles flat_map forallb]. rewrite app_nil_r, andb_true_r.
        assert (Hentries :
          entries_recorded ens_params P (previous_day_results_first_stage st') (e ++ e')
          /\ forall q0, In q0 (done ++ [q]) ->
               has_key q0 (previous_day_results_first_stage st')).
        { rewrite Hinfo. split.
          - intros k i' Hki. apply in_dict_set in Hki. destruct Hki as [[-> Hk]|Hki].
            + split; [exact Hdiag|]. exists a, w. split.
              * apply Hre, in_fit_calls. rewrite Hcalls. left. reflexivity.
              * rewrite Haq. auto.
            + eapply entries_recorded_incl; eauto.
          - intros q0 Hq0. apply has_key_set. apply in_app_or in Hq0.
            destruct Hq0 as [Hq0|[<-|[]]]; [right; auto | left; apply Qeq_bool_refl]. }
        destruct Hentries as [He1 He2].
        destruct (is_median q) eqn:Hmq; cbn [negb].
        -- destruct Hmed as (Hqv' & Hretv' & Houtv' & L & HL & HLrec & HLkeys).
           split; [rewrite Hqv'; reflexivity|].
           split; [apply all_returned_app; assumption|].
           split; [exact Houtv'|].
           split; [rewrite HL, andb_false_r; split; discriminate|].
           split; [exact He1|]. split; [exact He2|].
           intros L' HL'. rewrite HL in HL'. injection HL' as <-.
           split; [eapply var_entries_recorded_incl; eauto | exact HLkeys].
        -- destruct Hmed as (Hv0 & Hbv & Hs2). rewrite Hv0, Hbv, Hs2, andb_true_r.
           cbn [map outcome_var]. rewrite !app_nil_r.
           split; [reflexivity|]. split; [exact Hretv|]. split; [reflexivity|].
           split; [exact Hsec|]. split; [exact He1|]. split; [exact He2|].
           intros L HL. destruct (Hvar L HL) as [Hv1 Hv2].
           split; [eapply var_entries_recorded_incl; eauto | exact Hv2].
    + reflexivity.
    + cbn. do 3 (split; [first [constructor | exact I]|]).
      split; [intros _; constructor|].
      unfold fitted_so_far. cbn.
      repeat split; try constructor; try discriminate; intros; try contradiction.
  - cbv beta. intros r s' e [-> Hr]. split; [reflexivity|]. cbn [app] in Hr.
    destruct r as [x|st].
    + destruct Hr as (? & ? & ? & ? & ?). split; try assumption. discriminate.
    + destruct Hr as (? & ? & ? & ? & Hdone). split; try assumption.
      * exists []. rewrite app_nil_r. symmetry. apply Hdone.
      * intros st' Hst'. injection Hst' as <-. exact Hdone.
Qed.
End FirstStageLoopCalls.

Section LastLinesPhases.
Context `{Collaborators}.
Local Open Scope string_scope.

Lemma first_stage_body_keys ens_params P name t0 t1 q st s :
  wp (first_stage_body ens_params P name t0 t1 q st) s
     (fun r s' e =>
        s' = s
        /\ keys_read ens_params r e
        /\ forall st', r = inr st' ->
             model_type ens_params = "LR" ->
             forall a w, In (Ev_predico_ensemble_predictions_per_quantile a (Some w)) e ->
               lacks w = None).
Proof.
  unfold first_stage_body, key. wp_run.
  all: try (wp_apply second_stage_calls).
  all: wp_run.
  all: split; [reflexivity|].
  all: split_ands.
  all: split;
    [ intros HLR a w k Hin Hk
    | intros st' Hst' HLR a w Hin; try discriminate Hst' ].
  all: try (rewrite HLR in *; cbn in *; discriminate).
  all: cbn [app] in Hin; rewrite ?app_nil_r in Hin.
  all: destruct Hin as [Hin|Hin];
    [ | try contradiction;
        try (exfalso; apply in_fit_calls in Hin;
             match goal with Hc : fit_calls _ = [] |- _ => rewrite Hc in Hin end;
             contradiction) ].
  all: try discriminate Hin.
  all: injection Hin as <- <-.
  all: unfold lacks in *.
  all: repeat match goal with
              | Hc : WP.coefs _ = _ |- _ => rewrite Hc in *; clear Hc
              | Hc : WP.p_values _ = _ |- _ => rewrite Hc in *; clear Hc
              | Hc : WP.model_summary _ = _ |- _ => rewrite Hc in *; clear Hc
              end.
  all: congruence.
Qed.

Lemma first_stage_loop_keys ens_params P name t0 t1 s :
  wp (first_stage_loop ens_params P name t0 t1) s
     (fun r s' e => s' = s /\ keys_read ens_params r e).
Proof.
  unfold first_stage_loop. eapply wp_mono.
  - apply wp_for_each
      with (I := fun _ _ e =>
                   model_type ens_params = "LR" ->
                   forall a w,
                     In (Ev_predico_ensemble_predictions_per_quantile a (Some w)) e ->
                     lacks w = None)
           (J := fun x e => keys_read ens_params (inl x : exn + LoopState) e)
           (done := []) (e0 := []).
    + intros _ a w [].
    + intros q done st e _ He.
      eapply wp_mono; [apply first_stage_body_keys|].
      intros r s' e' (-> & Hkeys & Hok). split; [reflexivity|].
      destruct r as [x|st'].
      * intros HLR a w k Hin Hk. apply in_app_or in Hin. destruct Hin as [Hin|Hin].
        -- rewrite (He HLR a w Hin) in Hk. discriminate.
        -- exact (Hkeys HLR a w k Hin Hk).
      * intros HLR a w Hin. apply in_app_or in Hin. destruct Hin as [Hin|Hin].
        -- exact (He HLR a w Hin).
        -- exact (Hok st' eq_refl HLR a w Hin).
  - cbv beta. intros r s' e [-> Hr]. split; [reflexivity|]. cbn [app] in Hr.
    destruct r as [x|st]; [exact Hr|].
    intros HLR a w k Hin Hk. rewrite (Hr HLR a w Hin) in Hk. discriminate.
Qed.

Lemma rescale_and_assemble_table ens_params P name st s :
  wp (rescale_and_assemble ens_params P name st) s
     (fun r s' e => s' = s /\ table_last r e).
Proof.
  unfold rescale_and_assemble, norm_name.
  wp_use rescale_loop_spec.
  all: wp_run.
  all: split; [reflexivity|]; cbn [app].
  all: split_ands.
  all: intros d' wide Hin.
  all: repeat match goal with
              | Hin : In _ (_ ++ _) |- _ => apply in_app_or in Hin; destruct Hin as [Hin|Hin]
              | Hf : Forall rescale_kind ?e, Hin : In ?ev ?e |- _ =>
                  exfalso; exact (proj1 (List.Forall_forall _ _) Hf ev Hin)
              end.
  all: in_cases; simplify_eq.
  all: eexists; reflexivity.
Qed.

Lemma simulation_results_guard P st targ pred t cu files :
  wp (simulation_results P st targ pred t cu) files
     (fun r _ e => simulation_guard st cu r e).
Proof.
  unfold simulation_results, getitem, bound. wp_run.
  all: cbn [app]; split.
  all: try solve [intro Hcu; first [congruence | split; reflexivity]].
  all: intro Hsec; try congruence.
  all: split; [eexists; reflexivity|].
  all: intros df t' out Hin; in_cases; simplify_eq; reflexivity.
Qed.

Lemma challenge_results_guard P st pred t cu files :
  wp (challenge_results P st pred t cu) files
     (fun r _ e => challenge_guard st r e).
Proof.
  unfold challenge_results, bound. wp_run.
  all: cbn [app]; intro Hsec; try congruence.
  all: split; [eexists; reflexivity|].
  all: intros df melted Hin; in_cases; simplify_eq; reflexivity.
Qed.
Lemma simulation_results_dumped P st targ pred t cu files :
  wp (simulation_results P st targ pred t cu) files (fun _ _ e => dumped P st e).
Proof.
  unfold simulation_results, getitem, bound. wp_run.
  all: cbn [app]; intros path b Hin; in_cases; simplify_eq.
  eexists. split; [eassumption|]. split; reflexivity.
Qed.

Lemma challenge_results_dumped P st pred t cu files :
  wp (challenge_results P st pred t cu) files (fun _ _ e => dumped P st e).
Proof.
  unfold challenge_results, bound. wp_run.
  all: cbn [app]; intros path b Hin; in_cases; simplify_eq.
  all: eexists; split; [eassumption|]; split; reflexivity.
Qed.
End LastLinesPhases.

(* ===================================================================== *)
(** * The whole run, with its data flow *)
(* ===================================================================== *)

Section Both.
Context {St E : Type}.

Lemma wp_and A (m : M St E A) (s : St) (Q1 Q2 : exn + A -> St -> list E -> Prop) :
  wp m s Q1 -> wp m s Q2 -> wp m s (fun r s' e => Q1 r s' e /\ Q2 r s' e).
Proof. unfold wp. auto. Qed.
End Both.

Section FullPhases.
Context `{Collaborators}.
Local Open Scope string_scope.

Lemma first_stage_data_full ens_params df_buyer d50 d10 d90 name t0 t1 s :
  wp (first_stage_data ens_params df_buyer d50 d10 d90 name t0 t1) s
     (fun r s' e =>
        s' = s /\ prepared_post ens_params r e /\ prepared_flow ens_params name s r e).
Proof.
  eapply wp_mono;
    [apply wp_and; [apply first_stage_data_spec | apply first_stage_data_flow]|].
  cbv beta. intros r s' e [[-> Hp] [_ Hf]]. auto.
Qed.

Lemma first_stage_loop_full ens_params P name t0 t1 s :
  wp (first_stage_loop ens_params P name t0 t1) s
     (fun r s' e =>
        s' = s /\ loop_post P r e /\ loop_flow ens_params P r e
        /\ keys_read ens_params r e).
Proof.
  eapply wp_mono;
    [apply wp_and;
       [apply first_stage_loop_spec
       | apply wp_and; [apply first_stage_loop_flow | apply first_stage_loop_keys]]|].
  cbv beta. intros r s' e [[-> Hp] [[_ Hf] [_ Hk]]]. auto.
Qed.

Lemma rescale_and_assemble_full ens_params P name st s :
  wp (rescale_and_assemble ens_params P name st) s
     (fun r s' e => s' = s /\ assemble_post ens_params r e /\ table_last r e).
Proof.
  eapply wp_mono;
    [apply wp_and; [apply rescale_and_assemble_spec | apply rescale_and_assemble_table]|].
  cbv beta. intros r s' e [[-> Hp] [_ Hf]]. auto.
Qed.

Lemma simulation_results_full P st targ pred t cu files :
  wp (simulation_results P st targ pred t cu) files
     (fun r s' e =>
        simulation_post P st pred t cu files r s' e /\ simulation_guard st cu r e
        /\ dumped P st e).
Proof.
  apply wp_and; [apply simulation_results_spec|].
  apply wp_and; [apply simulation_results_guard | apply simulation_results_dumped].
Qed.

Lemma challenge_results_full P st pred t cu files :
  wp (challenge_results P st pred t cu) files
     (fun r s' e =>
        challenge_post P st pred t cu files r s' e /\ challenge_guard st r e
        /\ dumped P st e).
Proof.
  apply wp_and; [apply challenge_results_spec|].
  apply wp_and; [apply challenge_results_guard | apply challenge_results_dumped].
Qed.

(** ** Which phase makes which calls *)

Lemma no_model_no_calls e :
  Forall (fun ev => ~ is_model_event ev) e -> fit_calls e = [] /\ var_calls e = [].
Proof.
  induction 1 as [|ev e Hev _ [IH1 IH2]]; [split; reflexivity|].
  destruct ev; cbn in *; auto; contradiction Hev; exact I.
Qed.

Lemma assemble_not_model ens_params ev : assemble_event ens_params ev -> ~ is_model_event ev.
Proof. destruct ev; cbn; tauto. Qed.

Lemma final_not_model ev : final_kind ev -> ~ is_model_event ev.
Proof. destruct ev; cbn; tauto. Qed.

Lemma frame_not_load ev : is_frame_event ev -> not_load ev.
Proof. destruct ev; cbn; tauto. Qed.

Lemma loop_not_load P failed ev : loop_event P failed ev -> not_load ev.
Proof. destruct ev; cbn; tauto. Qed.

Lemma assemble_not_load ens_params ev : assemble_event ens_params ev -> not_load ev.
Proof. destruct ev; cbn; tauto. Qed.

Lemma final_not_load ev : final_kind ev -> not_load ev.
Proof. destruct ev; cbn; tauto. Qed.

Lemma frames_calls r e : frames_post r e -> fit_calls e = [] /\ var_calls e = [].
Proof.
  intro Hp. apply no_model_no_calls.
  eapply List.Forall_impl; [apply frame_not_model | apply (fp_events Hp)].
Qed.

Lemma prepared_calls ens_params r e :
  prepared_post ens_params r e -> fit_calls e = [] /\ var_calls e = [].
Proof.
  intro Hp. apply no_model_no_calls.
  eapply List.Forall_impl; [apply prep_not_model | apply (pp_kind Hp)].
Qed.

Lemma assemble_calls ens_params r e :
  assemble_post ens_params r e -> fit_calls e = [] /\ var_calls e = [].
Proof.
  intro Hp. apply no_model_no_calls.
  eapply List.Forall_impl; [apply assemble_not_model | apply (ap_events Hp)].
Qed.

Lemma final_calls e : Forall final_kind e -> fit_calls e = [] /\ var_calls e = [].
Proof.
  intro Hp. apply no_model_no_calls.
  eapply List.Forall_impl; [apply final_not_model | exact Hp].
Qed.

Lemma first_stage_fits_only e :
  Forall is_first_stage_fit e ->
  var_calls e = [] /\ Forall not_dump e
  /\ (forall df melted, ~ In (Ev_melt_dataframe df melted) e).
Proof.
  induction 1 as [|ev e Hev _ (IH1 & IH2 & IH3)].
  - repeat split; [constructor | intros df melted []].
  - destruct ev; cbn in Hev; try contradiction. cbn. split; [exact IH1|].
    split; [constructor; [exact I | exact IH2]|].
    intros df melted [Heq|Hin]; [discriminate | exact (IH3 _ _ Hin)].
Qed.

Lemma state_loaded ens_params name files P e :
  prepared_flow ens_params name files (inr P) e ->
  In (Ev_load_or_initialize_results
        (Some (file_info P, iteration P, best_results0 P, best_results_var0 P))) e
  /\ load_or_initialize_results ens_params name files
     = Some (file_info P, iteration P, best_results0 P, best_results_var0 P).
Proof.
  intro Hf. destruct (pf_state Hf) as [[_ [x Hx]]|(pre & Hpre & -> & Hout)];
    [discriminate Hx|].
  destruct (load_or_initialize_results ens_params name files) as [out|];
    [|discriminate Hout].
  destruct Hout as (P' & HP' & ->). injection HP' as <-.
  split; [apply in_or_app; right; left; reflexivity | reflexivity].
Qed.

Lemma load_in_prepared ens_params name files r e :
  prepared_flow ens_params name files r e ->
  forall out, In (Ev_load_or_initialize_results (Some out)) e ->
  exists P, r = inr P /\ loaded P out.
Proof.
  intros Hf out Hin. destruct (pf_state Hf) as [[Hno _]|(pre & Hpre & -> & Hout)].
  - destruct (proj1 (List.Forall_forall _ _) Hno _ Hin).
  - apply in_app_or in Hin. destruct Hin as [Hin|[Hin|[]]].
    + destruct (proj1 (List.Forall_forall _ _) Hpre _ Hin).
    + injection Hin as Hin. rewrite Hin in Hout. exact Hout.
Qed.

End FullPhases.

(** Walk through [create_ensemble_forecasts] as [walk] does, with the
    data flow of each phase. *)
Ltac flow_walk :=
  unfold create_ensemble_forecasts, first_timestamp, last_timestamp, first_column;
  wp_run;
  try (wp_apply_keep quantile_frames_spec; wp_run);
  try (wp_apply check_configuration_spec; wp_run);
  try (wp_apply first_stage_data_full; wp_run);
  try (wp_apply first_stage_loop_full; wp_run);
  try (wp_apply rescale_and_assemble_full; wp_run);
  try (eapply wp_mono; [apply simulation_results_full|]; cbv beta; intros [?|?] ? ? ?);
  try (eapply wp_mono; [apply challenge_results_full|]; cbv beta; intros [?|?] ? ? ?);
  split_ands;
  subst;
  cbn [app];
  rewrite ?app_nil_r.

(** The calls of the two trainers in the log of the whole run: they are
    those of the loop. *)
Ltac calls_of_run :=
  repeat match goal with
         | Hp : frames_post _ ?e |- _ =>
             lazymatch goal with
             | _ : fit_calls e = [] |- _ => fail
             | _ => destruct (frames_calls Hp)
             end
         | Hp : prepared_post _ _ ?e |- _ =>
             lazymatch goal with
             | _ : fit_calls e = [] |- _ => fail
             | _ => destruct (prepared_calls Hp)
             end
         | Hp : assemble_post _ _ ?e |- _ =>
             lazymatch goal with
             | _ : fit_calls e = [] |- _ => fail
             | _ => destruct (assemble_calls Hp)
             end
         | Hp : simulation_post _ _ _ _ _ _ _ _ ?e |- _ =>
             lazymatch goal with
             | _ : fit_calls e = [] |- _ => fail
             | _ => destruct (final_calls (sp_events Hp))
             end
         | Hp : challenge_post _ _ _ _ _ _ _ _ ?e |- _ =>
             lazymatch goal with
             | _ : fit_calls e = [] |- _ => fail
             | _ => destruct (final_calls (cp_events Hp))
             end
         end;
  rewrite ?fit_calls_app, ?var_calls_app;
  repeat match goal with
         | Hc : fit_calls _ = [] |- _ => rewrite Hc
         | Hc : var_calls _ = [] |- _ => rewrite Hc
         end;
  cbn [app fit_calls var_calls map]; rewrite ?app_nil_r.

(** A successful call of [load_or_initialize_results] in the log of the
    whole run: it is the one of the data preparation. *)
Ltac load_in Hin HP :=
  by_phase Hin;
  lazymatch type of Hin with
  | In ?ev ?e =>
      first
        [ lazymatch goal with
          | Hf : prepared_flow _ _ _ _ e |- _ =>
              destruct (load_in_prepared Hf _ Hin) as (? & HP & ?);
              first [discriminate HP | injection HP as <-]
          end
        | exfalso;
          let Hk := fresh "Hk" in
          kind_of ev Hin Hk; cbn in Hk; exact Hk ]
  end.

(** The phases before the run modes do not write the state file. *)
Ltac not_dumped :=
  split_phases;
  first
    [ apply List.Forall_nil
    | assumption
    | eapply List.Forall_impl; [apply frame_not_dump|]; eapply fp_events; eassumption
    | eapply List.Forall_impl; [apply prep_not_dump|]; eapply pp_kind; eassumption
    | eapply List.Forall_impl; [apply loop_not_dump|]; eapply lp_events; eassumption
    | eapply List.Forall_impl; [apply assemble_not_dump|]; eapply ap_events; eassumption ].

Section WholeRunFlow.
Context `{Collaborators}.
Local Open Scope string_scope.

Variables (ens_params : EnsParams) (df_buyer df_market : DataFrame)
  (end_training_timestamp : Timestamp) (forecast_range : list Timestamp)
  (challenge_usecase : option string) (simulation : bool) (files : Files).

(** X7.  The quantiles that the first-stage fits are called for, in call
    order, are a prefix of the configured quantiles; in a run that returns
    they are the configured quantiles and every fit returned. *)
Theorem X7_fits_cover_the_quantiles :
  let o := create_ensemble_forecasts ens_params df_buyer df_market
             end_training_timestamp forecast_range challenge_usecase simulation files in
  let fitted := map (fun c => Fit.quantile (fst c)) (fit_calls (evs o)) in
  (exists rest, quantiles ens_params = (fitted ++ rest)%list)
  /\ (forall v, res o = inr v ->
      fitted = quantiles ens_params /\ all_returned (fit_calls (evs o))).
Proof.
  intros o fitted. subst o fitted. as_wp. flow_walk.
  all: calls_of_run.
  all: split;
    [ first [ eexists; reflexivity
            | lazymatch goal with
              | Hl : loop_flow _ _ _ _ |- _ => exact (lf_prefix Hl)
              end ]|].
  all: intros ret Hret; try discriminate Hret.
  all: lazymatch goal with
       | Hl : loop_flow _ _ (inr _) _ |- _ =>
           destruct (lf_done Hl eq_refl) as (Hq & Hr & _)
       end; split; assumption.
Qed.

(** X8.  The first-stage fits are chained: the first one receives an empty
    predictions dict and the best results read from the state file, every
    later one the predictions and best results that the one before it
    returned, and a fit that raises is the last one.  Without a state-file
    read that returned there is no fit. *)
Theorem X8_fits_are_threaded :
  let o := create_ensemble_forecasts ens_params df_buyer df_market
             end_training_timestamp forecast_range challenge_usecase simulation files in
  (forall path it best best_var,
     In (Ev_load_or_initialize_results (Some (path, it, best, best_var))) (evs o) ->
     threaded [] best (fit_calls (evs o)))
  /\ ((forall out, ~ In (Ev_load_or_initialize_results (Some out)) (evs o)) ->
      fit_calls (evs o) = []).
Proof.
  intro o. subst o. as_wp. flow_walk.
  all: split.
  all: try solve [intros _; calls_of_run; reflexivity].
  all: try solve [
    intros path it best best_var Hin; load_in Hin HP;
    lazymatch goal with
    | Hl : loaded _ _ |- _ => unfold loaded in Hl; injection Hl as -> -> -> ->
    end;
    calls_of_run;
    first [ exact I
          | lazymatch goal with
            | Hl : loop_flow _ _ _ _ |- _ => exact (lf_threaded Hl)
            end ] ].
  all: intro Hno; exfalso.
  all: lazymatch goal with
       | Hf : prepared_flow _ _ _ (inr ?P) _ |- _ =>
           destruct (state_loaded Hf) as [Hin _]; eapply Hno; in_list
       end.
Qed.

(** X11.  In a run that returns, 0.5 is among the configured quantiles, and
    the second-stage fits were called for all configured quantiles, in
    order, once for each occurrence of 0.5 among them; every one
    returned. *)
Theorem X11_second_stage_fits :
  let o := create_ensemble_forecasts ens_params df_buyer df_market
             end_training_timestamp forecast_range challenge_usecase simulation files in
  forall v, res o = inr v ->
    map (fun c => FitVar.quantile (fst c)) (var_calls (evs o))
    = second_stage_quantiles ens_params (quantiles ens_params)
    /\ all_returned (var_calls (evs o))
    /\ existsb is_median (quantiles ens_params) = true.
Proof.
  intro o. subst o. as_wp. flow_walk.
  all: intros ret Hret; try discriminate Hret.
  all: calls_of_run.
  all: lazymatch goal with
       | Hl : loop_flow _ _ (inr _) _ |- _ =>
           destruct (lf_done Hl eq_refl)
             as (_ & _ & _ & Hq & Hr & _ & Hsec & _)
       end.
  all: split; [exact Hq|]; split; [exact Hr|].
  all: destruct (existsb is_median (quantiles ens_params)) eqn:Hex; [reflexivity|].
  all: exfalso.
  all: assert (Hall : forallb (fun q => negb (is_median q)) (quantiles ens_params) = true)
         by (apply forallb_forall; intros q Hq'; apply negb_true_iff;
             destruct (is_median q) eqn:Hm; [|reflexivity];
             assert (existsb is_median (quantiles ens_params) = true)
               by (apply existsb_exists; eauto);
             congruence).
  all: apply Hsec in Hall.
  all: first
         [ lazymatch goal with
           | Hp : simulation_post _ _ _ _ _ _ _ _ _ |- _ =>
               destruct (sp_ok Hp eq_refl) as (_ & L & ? & ? & ? & ? & ? & ? & HL & _)
           end
         | lazymatch goal with
           | Hp : challenge_post _ _ _ _ _ _ _ _ _ |- _ =>
               destruct (cp_ok Hp eq_refl) as (_ & L & ? & HL & _)
           end ].
  all: congruence.
Qed.

(** X12.  The second-stage fits are chained: the first one receives the
    [best_results_var] read from the state file, every later one what the
    one before it returned, and one that raises is the last. *)
Theorem X12_second_stage_fits_are_threaded :
  let o := create_ensemble_forecasts ens_params df_buyer df_market
             end_training_timestamp forecast_range challenge_usecase simulation files in
  forall path it best best_var,
    In (Ev_load_or_initialize_results (Some (path, it, best, best_var))) (evs o) ->
    threaded_var best_var (var_calls (evs o)).
Proof.
  intro o. subst o. as_wp. flow_walk.
  all: intros path it best best_var Hin; load_in Hin HP.
  all: lazymatch goal with
       | Hl : loaded _ _ |- _ => unfold loaded in Hl; injection Hl as -> -> -> ->
       end.
  all: calls_of_run.
  all: first [ exact I
             | lazymatch goal with
               | Hl : loop_flow _ _ _ _ |- _ => exact (lf_threaded_var Hl)
               end ].
Qed.

(** X9.  Every first-stage fit receives [ens_params], the iteration read from
    the state file and the [X_train], [y_train], [X_test] that
    [get_numpy_Xy_train_test] returned; every second-stage fit receives
    [ens_params] and the same iteration. *)
Theorem X9_fits_share_their_inputs :
  let o := create_ensemble_forecasts ens_params df_buyer df_market
             end_training_timestamp forecast_range challenge_usecase simulation files in
  (forall a out,
     In (Ev_predico_ensemble_predictions_per_quantile a out) (evs o) ->
     Fit.ens_params a = ens_params
     /\ exists path it best best_var y_test,
          In (Ev_load_or_initialize_results (Some (path, it, best, best_var))) (evs o)
          /\ Fit.iteration a = it
          /\ In (Ev_get_numpy_Xy_train_test
                   (Some (Fit.X_train a, Fit.y_train a, Fit.X_test a, y_test))) (evs o))
  /\ (forall a out,
        In (Ev_predico_ensemble_variability_predictions a out) (evs o) ->
        FitVar.ens_params a = ens_params
        /\ exists path it best best_var,
             In (Ev_load_or_initialize_results (Some (path, it, best, best_var)))
                (evs o)
             /\ FitVar.iteration a = it).
Proof.
  intro o. subst o. as_wp. flow_walk.
  all: split; intros a out Hin.
  all: lazymatch type of Hin with
       | In ?ev _ => by_phase Hin; kind_of ev Hin Hk; cbn in Hk
       end.
  all: try contradiction.
  all: lazymatch type of Hin with
       | In ?ev ?e =>
           lazymatch goal with
           | Hl : loop_flow _ _ _ e |- _ =>
               pose proof (proj1 (List.Forall_forall _ _) (lf_inputs Hl) ev Hin) as Hi;
               cbn in Hi
           end
       end.
  all: lazymatch goal with
       | Hf : prepared_flow _ _ _ (inr ?P) _ |- _ =>
           destruct (state_loaded Hf) as [Hload _];
           destruct (pf_data Hf eq_refl) as (_ & _ & y_test & Hxy)
       end.
  all: split_ands.
  all: split; [assumption|].
  all: first
         [ solve [ do 5 eexists; (split; [in_list|]); (split; [eassumption|]);
                   repeat match goal with
                          | Hc : Fit.X_train _ = _ |- _ => rewrite Hc
                          | Hc : Fit.y_train _ = _ |- _ => rewrite Hc
                          | Hc : Fit.X_test _ = _ |- _ => rewrite Hc
                          end;
                   in_list ]
         | solve [ do 4 eexists; split; [in_list | eassumption] ] ].
Qed.
End WholeRunFlow.


(** As [as_wp], for a goal that does not mention the log. *)
Ltac as_wp_res :=
  lazymatch goal with
  | |- context [res (?m ?s)] =>
      pattern (res (m s)), (st (m s)), (evs (m s)); apply wp_out
  end.

Section WholeRunState.
Context `{Collaborators}.
Local Open Scope string_scope.

Variables (ens_params : EnsParams) (df_buyer df_market : DataFrame)
  (end_training_timestamp : Timestamp) (forecast_range : list Timestamp)
  (challenge_usecase : option string) (simulation : bool) (files : Files).

(** X13.  Without 0.5 among the configured quantiles the run never returns:
    there is no second-stage fit, nothing is written, and the run that gets
    to the last lines fails with UnboundLocalError, on
    [df_var_ensemble_melt] in normal mode and on [df_var_ensemble] in
    simulation mode. *)
Theorem X13_no_median_no_result :
  forallb (fun q => negb (is_median q)) (quantiles ens_params) = true ->
  let o := create_ensemble_forecasts ens_params df_buyer df_market
             end_training_timestamp forecast_range challenge_usecase simulation files in
  (exists x, res o = inl x)
  /\ st o = files
  /\ Forall not_dump (evs o)
  /\ var_calls (evs o) = []
  /\ (simulation = false -> forall df melted,
        In (Ev_melt_dataframe df (Some melted)) (evs o) ->
        res o = inl (UnboundLocalError "df_var_ensemble_melt"))
  /\ (simulation = true -> forall df t out,
        In (Ev_pd_concat df t (Some out)) (evs o) ->
        res o = inl (UnboundLocalError "df_var_ensemble")).
Proof.
  intros Hno o. subst o. as_wp. flow_walk.
  all: repeat match goal with
         | Hl : loop_flow _ _ _ ?e |- _ =>
             lazymatch goal with
             | _ : Forall is_first_stage_fit e |- _ => fail
             | _ =>
                 pose proof (lf_no_median Hl Hno) as Hfits;
                 destruct (first_stage_fits_only Hfits) as (Hvc & Hnd & Hmelt)
             end
         | Hl : loop_flow _ _ (inr ?st) _ |- _ =>
             lazymatch goal with
             | _ : second st = None |- _ => fail
             | _ =>
                 assert (Hsec : second st = None)
                   by (destruct (lf_done Hl eq_refl)
                         as (_ & _ & _ & _ & _ & _ & Hs & _); apply Hs, Hno)
             end
         end.
  all: repeat match goal with
         | Hg : simulation_guard _ _ _ _ |- _ =>
             destruct Hg as [_ Hg]; destruct (Hg Hsec) as [[x Hx] Hconcat]; clear Hg
         | Hg : challenge_guard _ _ _ |- _ =>
             destruct (Hg Hsec) as [[x Hx] Hmelted]; clear Hg
         end.
  all: try discriminate.
  all: split; [eexists; reflexivity|].
  all: try lazymatch goal with
         | Hp : simulation_post _ _ _ _ _ _ (inl _) _ _ |- _ =>
             destruct (sp_err Hp eq_refl) as (_ & -> & Hfinal)
         | Hp : challenge_post _ _ _ _ _ _ (inl _) _ _ |- _ =>
             destruct (cp_err Hp eq_refl)
               as (_ & [[-> Hfinal]|(-> & _ & _ & L & melted & Hlog & _)]);
             [ | exfalso;
                 assert (Hc : inl (AssertionError msg_usecase)
                              = (inl (UnboundLocalError "df_var_ensemble_melt")
                                 : exn + Returned))
                   by (eapply Hmelted; rewrite Hlog; left; reflexivity);
                 discriminate Hc ]
         end.
  all: split; [reflexivity|].
  all: split; [not_dumped|].
  all: split; [calls_of_run; first [reflexivity | assumption]|].
  all: split; intros Hmode df; intros;
    try discriminate Hmode;
    lazymatch goal with
    | Hin : In ?ev _ |- _ =>
        by_phase Hin;
        first
          [ lazymatch goal with
            | Hm : forall df melted, ~ In _ ?e, Hin : In _ ?e |- _ =>
                exfalso; exact (Hm _ _ Hin)
            end
          | lazymatch goal with
            | Hm : forall df melted, In _ ?e -> _, Hin : In _ ?e |- _ =>
                exact (Hm _ _ Hin)
            end
          | lazymatch goal with
            | Hm : forall df t out, In _ ?e -> _, Hin : In _ ?e |- _ =>
                exact (Hm _ _ _ Hin)
            end
          | exfalso; kind_of ev Hin Hk; cbn in Hk;
            first [ exact Hk | destruct Hk; discriminate | tauto ] ]
    end.
Qed.


(** X19.  A run that returns has written one bundle and changed nothing else
    of the store; it returns that bundle in simulation mode, and in normal
    mode the predictions of the bundle's entry for the use case. *)
Theorem X19_returned_from_the_state_file :
  let o := create_ensemble_forecasts ens_params df_buyer df_market
             end_training_timestamp forecast_range challenge_usecase simulation files in
  forall v, res o = inr v ->
    exists path b,
      st o !! path = Some b
      /\ (forall other, other <> path -> st o !! other = files !! other)
      /\ v = (if simulation
              then RetBundle b
              else RetPredictions
                     (if usecase_is challenge_usecase "wind_power"
                      then Bundle.predictions (Bundle.wind_power b)
                      else Bundle.predictions (Bundle.wind_power_variability b))).
Proof.
  intro o. subst o. as_wp_res. flow_walk.
  all: intros ret Hret; try discriminate Hret.
  all: first
         [ lazymatch goal with
           | Hp : simulation_post _ _ _ _ _ _ (inr _) _ _ |- _ =>
               destruct (sp_ok Hp eq_refl)
                 as (_ & L & tg & tgv & wide & wide_var & outs & ins
                     & _ & _ & _ & _ & -> & ->)
           end
         | lazymatch goal with
           | Hp : challenge_post _ _ _ _ _ _ (inr _) _ _ |- _ =>
               destruct (cp_ok Hp eq_refl) as (_ & L & melted & _ & _ & -> & ->)
           end ].
  all: do 2 eexists; split; [apply lookup_insert_eq|].
  all: split; [intros other Hother; apply lookup_insert_ne; congruence|].
  all: injection Hret as <-; reflexivity.
Qed.

(** X15.  In simulation mode with a use case other than 'simulation' the run
    never returns, writes nothing and never calls [pd.concat]; once the
    wind-power table is built it fails with the assertion of line 419. *)
Theorem X15_simulation_needs_its_use_case :
  simulation = true -> usecase_is challenge_usecase "simulation" = false ->
  let o := create_ensemble_forecasts ens_params df_buyer df_market
             end_training_timestamp forecast_range challenge_usecase simulation files in
  (exists x, res o = inl x)
  /\ st o = files
  /\ Forall not_dump (evs o)
  /\ (forall df t out, ~ In (Ev_pd_concat df t out) (evs o))
  /\ forall d wide, In (Ev_create_ensemble_dataframe d (Some wide)) (evs o) ->
       res o = inl (AssertionError msg_simulation).
Proof.
  intros Hmode Hcu o. subst o. as_wp. flow_walk.
  all: try discriminate Hmode.
  all: repeat match goal with
         | Hg : simulation_guard _ _ _ _ |- _ =>
             destruct Hg as [Hg _]; destruct (Hg Hcu) as [Hr ->]; clear Hg
         end.
  all: try discriminate.
  all: try lazymatch goal with Hr : inl _ = inl _ |- _ => injection Hr as -> end.
  all: try lazymatch goal with
         | Hp : simulation_post _ _ _ _ _ _ (inl _) _ _ |- _ =>
             destruct (sp_err Hp eq_refl) as (_ & -> & _)
         end.
  all: split; [eexists; reflexivity|].
  all: split; [reflexivity|].
  all: split; [rewrite ?app_nil_r; not_dumped|].
  all: split.
  all: try solve [
    intros df t' out Hin; rewrite ?app_nil_r in Hin;
    lazymatch type of Hin with
    | In ?ev _ => by_phase Hin; kind_of ev Hin Hk; cbn in Hk; tauto
    end ].
  all: intros d' wide Hin; rewrite ?app_nil_r in Hin.
  all: lazymatch type of Hin with In ?ev _ => by_phase Hin end.
  all: try reflexivity.
  all: try solve [
    lazymatch type of Hin with
    | In ?ev ?e =>
        first
          [ lazymatch goal with
            | Ht : table_last _ e |- _ =>
                destruct (Ht _ _ Hin) as [? Hc]; discriminate Hc
            end
          | kind_of ev Hin Hk; cbn in Hk; tauto ]
    end ].
Qed.
End WholeRunState.

Section ReadOnce.
Context `{Collaborators}.

Lemma no_load_in e l out l' :
  Forall not_load e -> e = l ++ Ev_load_or_initialize_results out :: l' -> False.
Proof.
  intros He ->. apply Forall_app in He. destruct He as [_ He].
  inversion He; subst. assumption.
Qed.

(** A log with one call of [load_or_initialize_results] splits at that
    call in one way only. *)
Lemma split_at_load a b out0 l out l' :
  Forall not_load a -> Forall not_load b ->
  a ++ Ev_load_or_initialize_results out0 :: b
  = l ++ Ev_load_or_initialize_results out :: l' ->
  l = a /\ out = out0 /\ l' = b.
Proof.
  intros Ha Hb. revert l. induction a as [|x a IH]; intros [|y l] Heq; cbn in Heq.
  - injection Heq as -> ->. auto.
  - injection Heq as <- ->. exfalso. eapply no_load_in; [exact Hb | reflexivity].
  - injection Heq as -> _. inversion Ha; subst. contradiction.
  - injection Heq as -> Heq. inversion Ha; subst.
    destruct (IH H4 l Heq) as (-> & -> & ->). auto.
Qed.
End ReadOnce.

Section WholeRunData.
Context `{Collaborators}.
Local Open Scope string_scope.

Variables (ens_params : EnsParams) (df_buyer df_market : DataFrame)
  (end_training_timestamp : Timestamp) (forecast_range : list Timestamp)
  (challenge_usecase : option string) (simulation : bool) (files : Files).

(** No phase but the data preparation reads the state file. *)
Ltac not_loaded :=
  split_phases;
  first
    [ apply List.Forall_nil
    | assumption
    | eapply List.Forall_impl; [apply frame_not_load|]; eapply fp_events; eassumption
    | eapply List.Forall_impl; [apply loop_not_load|]; eapply lp_events; eassumption
    | eapply List.Forall_impl; [apply assemble_not_load|]; eapply ap_events; eassumption
    | eapply List.Forall_impl; [apply final_not_load|];
      first [eapply sp_events; eassumption | eapply cp_events; eassumption] ].

Ltac not_model :=
  split_phases;
  first
    [ apply List.Forall_nil
    | eapply List.Forall_impl; [apply frame_not_model|]; eapply fp_events; eassumption
    | eapply List.Forall_impl; [apply prep_not_model|]; eassumption ].

(** X6.  [load_or_initialize_results] is called at most once; no model is
    fitted or used and nothing is written before it; it is called for the
    first column of the buyer frame, on the store the run started from. *)
Theorem X6_state_file_is_read_once :
  let o := create_ensemble_forecasts ens_params df_buyer df_market
             end_training_timestamp forecast_range challenge_usecase simulation files in
  forall l out l',
    evs o = (l ++ Ev_load_or_initialize_results out :: l')%list ->
    Forall not_load l /\ Forall not_load l'
    /\ Forall (fun ev => ~ is_model_event ev) l
    /\ Forall not_dump l
    /\ exists name column rest,
         columns df_buyer = (name, column) :: rest
         /\ out = load_or_initialize_results ens_params name files.
Proof.
  intro o. subst o. as_wp. flow_walk.
  all: intros l' out l'' Hlog.
  all: try lazymatch goal with
         | Hf : prepared_flow _ _ _ _ ?e1, Hp : prepared_post _ _ ?e1 |- _ =>
             pose proof (pp_kind Hp) as Hkind;
             destruct (pf_state Hf) as [[Hnone _]|(pre & Hpre & -> & _)];
             [ | apply Forall_app in Hkind; destruct Hkind as [Hkind _] ]
         end.
  all: try solve [exfalso; eapply no_load_in; [|exact Hlog]; not_loaded].
  all: rewrite <- ?app_assoc in Hlog; cbn [app] in Hlog.
  all: rewrite app_assoc in Hlog.
  all: lazymatch type of Hlog with
       | (?a ++ _ :: ?b)%list = _ =>
           assert (Ha : Forall not_load a) by not_loaded;
           assert (Hb : Forall not_load b) by (rewrite ?app_nil_r; not_loaded);
           destruct (@split_at_load _ _ _ _ _ _ _ Ha Hb Hlog) as (-> & -> & ->)
       end.
  all: split; [not_loaded|].
  all: split; [rewrite ?app_nil_r; not_loaded|].
  all: split; [not_model|].
  all: split; [split_phases;
               first [ eapply List.Forall_impl; [apply frame_not_dump|];
                       eapply fp_events; eassumption
                     | eapply List.Forall_impl; [apply prep_not_dump|]; eassumption ]|].
  all: do 3 eexists; split; reflexivity.
Qed.

Lemma quiet_app_l e e' : quiet (e ++ e') -> quiet e'.
Proof. intro Hq. apply Forall_app in Hq. tauto. Qed.

(** X4.  The index assertion of line 184.  When the test targets of the split
    and the test frame of the concatenation have different indexes the run
    fails, the store untouched, before the state file is read and before
    any fit; when no call raised and the test frame has 96 rows the error
    is the AssertionError of line 184 for indexes of the same length and
    the ValueError of the comparison otherwise.  In a run that reads the
    state file the two indexes are equal. *)
Theorem X4_test_indexes_agree :
  let o := create_ensemble_forecasts ens_params df_buyer df_market
             end_training_timestamp forecast_range challenge_usecase simulation files in
  forall train test train' test',
    In (Ev_split_train_test_data SplitTargets (Some (train, test))) (evs o) ->
    In (Ev_concatenate_feat_targ_dataframes (Some (train', test'))) (evs o) ->
    (index test <> index test' ->
     (exists x, res o = inl x)
     /\ st o = files
     /\ Forall not_load (evs o)
     /\ fit_calls (evs o) = []
     /\ (quiet (evs o) -> len test' = 96%nat ->
         res o = inl (if (length (index test) =? length (index test'))%nat
                      then AssertionError msg_index
                      else ValueError msg_lengths)))
    /\ (forall out, In (Ev_load_or_initialize_results out) (evs o) ->
        index test = index test').
Proof.
  intro o. subst o. as_wp. flow_walk.
  all: intros train test train' test' Hsplit Hconcat.
  all: lazymatch type of Hsplit with
       | In ?ev _ => by_phase Hsplit; kind_of ev Hsplit Hk; cbn in Hk
       end.
  all: try solve [contradiction | destruct Hk; discriminate].
  all: clear Hk.
  all: lazymatch type of Hconcat with
       | In ?ev _ => by_phase Hconcat; kind_of ev Hconcat Hk; cbn in Hk
       end.
  all: try contradiction.
  all: lazymatch goal with
       | Hf : prepared_flow _ _ _ _ _ |- _ =>
           pose proof (pf_index Hf _ _ _ _ Hsplit Hconcat) as Hindex
       end.
  all: split.
  all: try solve [intro Hne; destruct (Hindex Hne) as (_ & [x Hx] & _); discriminate Hx].
  all: try solve [
    intros out Hin;
    destruct (decide (index test = index test')) as [Heq|Hne]; [exact Heq|];
    destruct (Hindex Hne) as (_ & [x Hx] & _); discriminate Hx ].
  1: { intro Hne. destruct (Hindex Hne) as (Hnl & _ & Hq).
       split; [eexists; reflexivity|]. split; [reflexivity|].
       split; [not_loaded|]. split; [calls_of_run; reflexivity|].
       intros Hquiet Hlen. f_equal.
       apply quiet_app_l in Hquiet. specialize (Hq Hquiet Hlen). congruence. }
  intros out Hin.
  destruct (decide (index test = index test')) as [Heq|Hne]; [exact Heq|].
  exfalso. destruct (Hindex Hne) as (Hnl & _ & _).
  by_phase Hin.
  - kind_of (Ev_load_or_initialize_results out) Hin Hk'. exact Hk'.
  - exact (proj1 (List.Forall_forall _ _) Hnl _ Hin).
Qed.


(** X10.  For the model type LR, a first-stage fit whose result lacks one of
    'coefs', 'p_values', 'model-summary' ends the run with the KeyError
    of the first missing key, in that order. *)
Theorem X10_linear_model_keys :
  model_type ens_params = "LR" ->
  let o := create_ensemble_forecasts ens_params df_buyer df_market
             end_training_timestamp forecast_range challenge_usecase simulation files in
  forall a w k,
    In (Ev_predico_ensemble_predictions_per_quantile a (Some w)) (evs o) ->
    lacks w = Some k ->
    res o = inl (KeyError k).
Proof.
  intros HLR o. subst o. as_wp. flow_walk.
  all: intros a w k Hfit Hk.
  all: lazymatch type of Hfit with
       | In ?ev _ => by_phase Hfit; kind_of ev Hfit Hkind; cbn in Hkind
       end.
  all: try contradiction.
  all: lazymatch goal with
       | Hkeys : keys_read _ _ _ |- _ => pose proof (Hkeys HLR a w k Hfit Hk) as Hr
       end.
  all: first [discriminate Hr | injection Hr as ->; reflexivity].
Qed.

(** The bundle that a call of [pickle.dump] wrote, with the final state of
    the first-stage loop. *)
Ltac dumped_bundle Hin L HL Hinfo Hinfo_var :=
  lazymatch type of Hin with In ?ev _ => by_phase Hin end;
  lazymatch type of Hin with
  | In ?ev ?e =>
      first
        [ lazymatch goal with
          | Hd : dumped _ _ e |- _ =>
              destruct (Hd _ _ Hin) as (L & HL & Hinfo & Hinfo_var)
          end
        | exfalso;
          let Hk := fresh "Hk" in
          kind_of ev Hin Hk; cbn in Hk; exact Hk ]
  end.

(** X17.  The first-stage diagnostics of the written bundle have an entry for
    every configured quantile; every entry holds what a first-stage fit of
    its quantile returned, with the diagnostics of the linear model
    exactly for the model type LR. *)
Theorem X17_first_stage_diagnostics :
  let o := create_ensemble_forecasts ens_params df_buyer df_market
             end_training_timestamp forecast_range challenge_usecase simulation files in
  forall path b, In (Ev_pickle_dump path b) (evs o) ->
    (forall q, In q (quantiles ens_params) ->
       has_key q (Bundle.info_contributions (Bundle.wind_power b)))
    /\ forall k i, In (k, i) (Bundle.info_contributions (Bundle.wind_power b)) ->
         diagnostics_as_configured ens_params i
         /\ exists a w,
              In (Ev_predico_ensemble_predictions_per_quantile a (Some w)) (evs o)
              /\ Qeq_bool k (Fit.quantile a) = true
              /\ Info1.fitted_model i = WP.fitted_model w
              /\ Info1.X_train_augmented i = WP.X_train_augmented w
              /\ Info1.X_test_augmented i = WP.X_test_augmented w
              /\ Info1.df_train_ensemble_augmented i
                 = WP.df_train_ensemble_augmented w.
Proof.
  intro o. subst o. as_wp. flow_walk.
  all: intros path b Hin; dumped_bundle Hin L HL Hinfo Hinfo_var.
  all: rewrite Hinfo.
  all: lazymatch goal with
       | Hl : loop_flow _ _ (inr ?s) _ |- _ =>
           destruct (lf_done Hl eq_refl)
             as (_ & _ & _ & _ & _ & _ & _ & Hent & Hkeys & _)
       end.
  all: split; [exact Hkeys|].
  all: intros k i Hki; destruct (Hent k i Hki) as (Hd & a & w & Ha & Hq & Hrec).
  all: split; [exact Hd|].
  all: exists a, w; split; [in_list|]; split; [exact Hq|].
  all: destruct Hrec as (? & ? & ? & ? & _); auto.
Qed.

(** X18.  The second-stage diagnostics of the written bundle have an entry
    for every configured quantile; every entry holds the first-stage model
    fitted at 0.5 with its training matrix and frame, the test matrix of
    [prepare_pre_test_data], the model of a second-stage fit of its
    quantile and the frames of the concatenation. *)
Theorem X18_second_stage_diagnostics :
  let o := create_ensemble_forecasts ens_params df_buyer df_market
             end_training_timestamp forecast_range challenge_usecase simulation files in
  forall path b, In (Ev_pickle_dump path b) (evs o) ->
    (forall q, In q (quantiles ens_params) ->
       has_key q (Bundle.info_contributions (Bundle.wind_power_variability b)))
    /\ forall k i,
         In (k, i) (Bundle.info_contributions (Bundle.wind_power_variability b)) ->
         (exists a w,
            In (Ev_predico_ensemble_predictions_per_quantile a (Some w)) (evs o)
            /\ is_median (Fit.quantile a) = true
            /\ Info2.fitted_model i = WP.fitted_model w
            /\ Info2.X_train_augmented i = WP.X_train_augmented w
            /\ Info2.df_train_ensemble_augmented i = WP.df_train_ensemble_augmented w)
         /\ (exists test10 test90 X y,
               In (Ev_prepare_pre_test_data test10 test90 (Some (X, y))) (evs o)
               /\ Info2.X_test_augmented i = X)
         /\ (exists a w,
               In (Ev_predico_ensemble_variability_predictions a (Some w)) (evs o)
               /\ Qeq_bool k (FitVar.quantile a) = true
               /\ Info2.var_fitted_model i = WPV.var_fitted_model w)
         /\ In (Ev_concatenate_feat_targ_dataframes
                  (Some (Info2.df_train_ensemble i, Info2.df_test_ensemble i))) (evs o).
Proof.
  intro o. subst o. as_wp. flow_walk.
  all: intros path b Hin; dumped_bundle Hin L HL Hinfo Hinfo_var.
  all: rewrite Hinfo_var.
  all: lazymatch goal with
       | Hl : loop_flow _ _ (inr ?s) _ |- _ =>
           destruct (lf_done Hl eq_refl)
             as (_ & _ & _ & _ & _ & _ & _ & _ & _ & Hvar);
           destruct (Hvar L HL) as [Hent Hkeys]
       end.
  all: lazymatch goal with
       | Hp : prepared_post _ (inr ?P) _ |- _ =>
           destruct (pp_ok Hp eq_refl) as (Hconcat & _)
       end.
  all: split; [exact Hkeys|].
  all: intros k i Hki;
    destruct (Hent k i Hki)
      as ((a & w & Ha & Hrest) & (X & y & HX & HXi) & (a' & w' & Ha' & Hrest')
          & Htrain & Htest & _).
  all: split; [exists a, w; split; [in_list | exact Hrest]|].
  all: split; [do 4 eexists; split; [in_list | exact HXi]|].
  all: split; [exists a', w'; split; [in_list | exact Hrest']|].
  all: rewrite Htrain, Htest; in_list.
Qed.
End WholeRunData.

Section WholeRunEdges.
Context `{Collaborators}.
Local Open Scope string_scope.

Variables (ens_params : EnsParams) (df_buyer df_market : DataFrame)
  (end_training_timestamp : Timestamp) (forecast_range : list Timestamp)
  (challenge_usecase : option string) (simulation : bool) (files : Files).

(** X1.  No exception of a helper is caught.  A call that raises is the last
    call of the run, and the run ends with the exception of that callee; a
    run that ends with the exception of a callee made no call that raised
    before its last one; a run that returns made no call that raised. *)
Theorem X1_exceptions_of_callees_propagate :
  let o := create_ensemble_forecasts ens_params df_buyer df_market
             end_training_timestamp forecast_range challenge_usecase simulation files in
  (forall l ev l', evs o = (l ++ ev :: l')%list -> raised ev = true ->
     l' = [] /\ res o = inl (Raised (callee_of ev)))
  /\ (forall callee, res o = inl (Raised callee) ->
      exists l ev,
        evs o = (l ++ [ev])%list /\ quiet l /\ raised ev = true
        /\ callee_of ev = callee)
  /\ (forall v, res o = inr v -> quiet (evs o)).
Proof.
  intro o.
  pose proof (create_ensemble_forecasts_fail_stop ens_params df_buyer df_market
                end_training_timestamp forecast_range challenge_usecase simulation files)
    as Hfs.
  unfold wp in Hfs. fold o in Hfs. split; [|split].
  - intros l ev l' Hlog Hev. eapply fail_stop_last; eassumption.
  - intros callee Hres. eapply fail_stop_raised; eassumption.
  - intros v Hres. rewrite Hres in Hfs. eapply fail_stop_returned; eassumption.
Qed.

Lemma empty_forecast_range :
  forecast_range = [] ->
  let o := create_ensemble_forecasts ens_params df_buyer df_market
             end_training_timestamp forecast_range challenge_usecase simulation files in
  res o = inl (IndexError "index 0 is out of bounds for axis 0 with size 0")
  /\ st o = files
  /\ evs o = [].
Proof. intros -> o. subst o. repeat split. Qed.

Lemma buyer_frame_without_columns :
  forecast_range <> [] -> columns df_buyer = [] ->
  let o := create_ensemble_forecasts ens_params df_buyer df_market
             end_training_timestamp forecast_range challenge_usecase simulation files in
  (exists x, res o = inl x)
  /\ st o = files
  /\ Forall is_frame_event (evs o)
  /\ (forall frames, res (quantile_frames df_market files) = inr frames ->
      res o = inl (IndexError "index 0 is out of bounds for axis 0 with size 0")).
Proof.
  intros Hrange Hcols o. subst o. as_wp. walk.
  all: try congruence.
  all: split; [eexists; reflexivity|]; split; [reflexivity|].
  all: split; [first [constructor | eapply fp_events; eassumption]|].
  all: intros frames Hframes; congruence.
Qed.

(** X2.  Empty inputs.  With an empty forecast range the run fails with the
    IndexError of [forecast_range[0]] before any call, the store untouched.
    With a buyer frame without columns the run fails with the store
    untouched and only extraction and imputation calls made; when the
    quantile frames were extracted, with q50 present, the error is the
    IndexError of [df_buyer.columns[0]]. *)
Theorem X2_empty_inputs :
  let o := create_ensemble_forecasts ens_params df_buyer df_market
             end_training_timestamp forecast_range challenge_usecase simulation files in
  let out_of_bounds := IndexError "index 0 is out of bounds for axis 0 with size 0" in
  (forecast_range = [] ->
   res o = inl out_of_bounds /\ st o = files /\ evs o = [])
  /\ (forecast_range <> [] -> columns df_buyer = [] ->
      (exists x, res o = inl x)
      /\ st o = files
      /\ Forall is_frame_event (evs o)
      /\ (forall frames, res (quantile_frames df_market files) = inr frames ->
          res o = inl out_of_bounds)).
Proof.
  intros o out_of_bounds. split.
  - apply empty_forecast_range.
  - apply buyer_frame_without_columns.
Qed.
End WholeRunEdges.

Section RescalingPhases.
Context `{Collaborators}.

Lemma rescaled_app stage e e' :
  rescaled stage (e ++ e') = (rescaled stage e ++ rescaled stage e')%list.
Proof.
  induction e as [|ev e IH]; [reflexivity|].
  destruct ev; cbn; rewrite ?IH; try reflexivity.
  destruct stage0, stage; cbn; rewrite ?IH; reflexivity.
Qed.

Lemma clipped_app e e' : clipped (e ++ e') = (clipped e ++ clipped e')%list.
Proof.
  induction e as [|ev e IH]; [reflexivity|].
  destruct ev; cbn; rewrite ?IH; reflexivity.
Qed.

Lemma quantile_frames_imputed df_market s :
  wp (quantile_frames df_market) s (fun _ _ e => imputed_when_not_empty e).
Proof.
  unfold quantile_frames, extract_and_impute. wp_run.
  all: cbn [app]; intros tag d' Hin Hne.
  all: in_cases; simplify_eq.
  all: destruct tag; cbn [suffix_of] in *; try discriminate; simplify_eq.
  all: try congruence.
  all: eexists; in_list.
Qed.

Lemma rescale_body_flow ens_params P q predictions s :
  wp (rescale_body ens_params P q predictions) s
     (fun r s' e =>
        s' = s
        /\ rescaled Stage1st e = [q]
        /\ (clipped e = [] \/ clipped e = [q])
        /\ forall p, r = inr p -> clipped e = [q]).
Proof.
  unfold rescale_body. wp_run.
  all: split; [reflexivity|]; cbn [app rescaled clipped].
  all: split; [reflexivity|].
  all: split; [auto|].
  all: intros p' Hp; first [discriminate Hp | reflexivity].
Qed.

Lemma rescale_loop_flow ens_params P predictions s :
  wp (for_each (quantiles ens_params) (rescale_body ens_params P) predictions) s
     (fun r s' e => s' = s /\ rescale_flow (quantiles ens_params) r e).
Proof.
  eapply wp_mono.
  - apply wp_for_each_at
      with (l0 := quantiles ens_params)
           (I := fun done _ e => rescaled Stage1st e = done /\ clipped e = done)
           (J := fun _ e =>
                   (exists rest, quantiles ens_params = rescaled Stage1st e ++ rest)
                   /\ (rescaled Stage1st e = clipped e
                       \/ exists q, rescaled Stage1st e = clipped e ++ [q]))
           (done := []) (e0 := []).
    + intros done q rest p e Hpos [Hr Hc].
      eapply wp_mono; [apply rescale_body_flow|].
      intros r s' e' (-> & Hr' & Hc' & Hok). split; [reflexivity|].
      rewrite rescaled_app, clipped_app, Hr, Hc, Hr'.
      destruct r as [x|p'].
      * split; [exists rest; rewrite <- app_assoc; exact Hpos|].
        destruct Hc' as [->| ->]; [right; exists q; rewrite app_nil_r|left]; reflexivity.
      * rewrite (Hok p' eq_refl). split; reflexivity.
    + reflexivity.
    + split; reflexivity.
  - cbv beta. intros r s' e [-> Hr]. split; [reflexivity|]. cbn [app] in Hr.
    unfold rescale_flow. destruct r as [x|p].
    + destruct Hr as [Hpre Hclip]. split; [exact Hpre|]. split; [exact Hclip|].
      discriminate.
    + destruct Hr as [Hr Hc]. split; [exists []; rewrite app_nil_r; congruence|].
      split; [left; congruence|]. intros p' _. split; assumption.
Qed.

Lemma rescale_and_assemble_flow ens_params P name st s :
  wp (rescale_and_assemble ens_params P name st) s
     (fun r s' e =>
        s' = s
        /\ (exists rest, quantiles ens_params = (rescaled Stage1st e ++ rest)%list)
        /\ (rescaled Stage1st e = clipped e
            \/ exists q, rescaled Stage1st e = (clipped e ++ [q])%list)
        /\ forall v, r = inr v ->
             rescaled Stage1st e = quantiles ens_params
             /\ clipped e = quantiles ens_params).
Proof.
  unfold rescale_and_assemble, norm_name.
  wp_use rescale_loop_flow.
  all: wp_run.
  all: split; [reflexivity|].
  all: rewrite ?rescaled_app, ?clipped_app; cbn [rescaled clipped app];
    rewrite ?app_nil_r.
  all: lazymatch goal with
       | Hf : rescale_flow _ _ _ |- _ => destruct Hf as (Hpre & Hclip & Hok)
       end.
  all: split; [exact Hpre|]; split; [exact Hclip|].
  all: intros v Hv; first [discriminate Hv | exact (Hok _ eq_refl)].
Qed.

Lemma outside_rescaling_none e :
  Forall outside_rescaling e -> rescaled Stage1st e = [] /\ clipped e = [].
Proof.
  induction 1 as [|ev e Hev _ [IH1 IH2]]; [split; reflexivity|].
  destruct ev; cbn in *; auto; try contradiction.
  destruct stage; [contradiction | auto].
Qed.

Lemma frame_outside_rescaling ev : is_frame_event ev -> outside_rescaling ev.
Proof. destruct ev; cbn; tauto. Qed.

Lemma prep_outside_rescaling ev : prep_kind ev -> outside_rescaling ev.
Proof. destruct ev; cbn; tauto. Qed.

Lemma loop_outside_rescaling P failed ev : loop_event P failed ev -> outside_rescaling ev.
Proof. destruct ev; cbn; try tauto. destruct stage; [discriminate | tauto]. Qed.

Lemma final_outside_rescaling ev : final_kind ev -> outside_rescaling ev.
Proof. destruct ev; cbn; tauto. Qed.

Lemma quantile_frames_full df_market s :
  wp (quantile_frames df_market) s
     (fun r s' e => s' = s /\ frames_post r e /\ imputed_when_not_empty e).
Proof.
  eapply wp_mono;
    [apply wp_and; [apply quantile_frames_spec | apply quantile_frames_imputed]|].
  cbv beta. intros r s' e [[-> Hp] Hf]. auto.
Qed.

Lemma rescale_and_assemble_calls ens_params P name st s :
  wp (rescale_and_assemble ens_params P name st) s
     (fun r s' e =>
        s' = s /\ assemble_post ens_params r e
        /\ (exists rest, quantiles ens_params = (rescaled Stage1st e ++ rest)%list)
        /\ (rescaled Stage1st e = clipped e
            \/ exists q, rescaled Stage1st e = (clipped e ++ [q])%list)
        /\ forall v, r = inr v ->
             rescaled Stage1st e = quantiles ens_params
             /\ clipped e = quantiles ens_params).
Proof.
  eapply wp_mono;
    [apply wp_and; [apply rescale_and_assemble_spec | apply rescale_and_assemble_flow]|].
  cbv beta. intros r s' e [[-> Hp] [_ Hf]]. auto.
Qed.
End RescalingPhases.

(** Walk through [create_ensemble_forecasts] as [walk] does, with the
    imputations and the calls of the rescaling loop. *)
Ltac rescale_walk :=
  unfold create_ensemble_forecasts, first_timestamp, last_timestamp, first_column;
  wp_run;
  try (wp_apply quantile_frames_full; wp_run);
  try (wp_apply check_configuration_spec; wp_run);
  try (wp_apply first_stage_data_spec; wp_run);
  try (wp_apply first_stage_loop_spec; wp_run);
  try (wp_apply rescale_and_assemble_calls; wp_run);
  try (eapply wp_mono; [apply simulation_results_spec|]; cbv beta; intros [?|?] ? ? ?);
  try (eapply wp_mono; [apply challenge_results_spec|]; cbv beta; intros [?|?] ? ? ?);
  split_ands;
  subst;
  cbn [app];
  rewrite ?app_nil_r.

(** The rescaling and clipping calls in the log of the whole run: they
    are those of lines 394-398. *)
Ltac outside_rescaling_of e :=
  lazymatch goal with
  | _ : clipped e = [] |- _ => fail
  | _ =>
      let Ho := fresh "Ho" in
      assert (Ho : Forall outside_rescaling e)
        by (eapply List.Forall_impl;
            [| first [eapply fp_events; eassumption | eapply pp_kind; eassumption
                     | eapply lp_events; eassumption | eapply sp_events; eassumption
                     | eapply cp_events; eassumption]];
            first [exact frame_outside_rescaling | exact prep_outside_rescaling
                  | exact final_outside_rescaling
                  | intros ? ?; eapply loop_outside_rescaling; eassumption]);
      destruct (outside_rescaling_none Ho); clear Ho
  end.

Ltac rescalings_of_run :=
  repeat match goal with
         | _ : frames_post _ ?e |- _ => outside_rescaling_of e
         | _ : prepared_post _ _ ?e |- _ => outside_rescaling_of e
         | _ : loop_post _ _ ?e |- _ => outside_rescaling_of e
         | _ : simulation_post _ _ _ _ _ _ _ _ ?e |- _ => outside_rescaling_of e
         | _ : challenge_post _ _ _ _ _ _ _ _ ?e |- _ => outside_rescaling_of e
         end;
  rewrite ?rescaled_app, ?clipped_app;
  repeat match goal with
         | Hc : rescaled Stage1st _ = [] |- _ => rewrite Hc
         | Hc : clipped _ = [] |- _ => rewrite Hc
         end;
  cbn [app rescaled clipped]; rewrite ?app_nil_r.

Section WholeRunRescaling.
Context `{Collaborators}.

Variables (ens_params : EnsParams) (df_buyer df_market : DataFrame)
  (end_training_timestamp : Timestamp) (forecast_range : list Timestamp)
  (challenge_usecase : option string) (simulation : bool) (files : Files).

(** X14.  The first-stage [rescale_predictions] calls are made for a prefix
    of the configured quantiles, in order, and
    [set_non_negative_predictions] for the same quantiles, at most the last
    one missing; in a run that returns both were called for exactly the
    configured quantiles. *)
Theorem X14_rescaled_then_clipped :
  let o := create_ensemble_forecasts ens_params df_buyer df_market
             end_training_timestamp forecast_range challenge_usecase simulation files in
  (exists rest, quantiles ens_params = rescaled Stage1st (evs o) ++ rest)
  /\ (rescaled Stage1st (evs o) = clipped (evs o)
      \/ exists q, rescaled Stage1st (evs o) = clipped (evs o) ++ [q])
  /\ (forall v, res o = inr v ->
      rescaled Stage1st (evs o) = quantiles ens_params
      /\ clipped (evs o) = quantiles ens_params).
Proof.
  intro o. subst o. as_wp. rescale_walk.
  all: rescalings_of_run.
  all: try solve [split; [eexists; reflexivity|]; split; [left; reflexivity|];
                  discriminate].
  all: split; [assumption|]; split; [assumption|].
  all: intros ret Hret; first [discriminate Hret | eauto].
Qed.

(** X3.  Whenever [extract_quantile_columns] returns a frame that is not
    empty for q50, q10 or q90, [impute_mean_for_nan] is called for that
    quantile. *)
Theorem X3_non_empty_extractions_are_imputed :
  let o := create_ensemble_forecasts ens_params df_buyer df_market
             end_training_timestamp forecast_range challenge_usecase simulation files in
  forall tag d,
    In (Ev_extract_quantile_columns (suffix_of tag) (Some d)) (evs o) ->
    empty d = false ->
    exists out, In (Ev_impute_mean_for_nan tag out) (evs o).
Proof.
  intro o. subst o. as_wp. rescale_walk.
  all: intros tag d' Hin Hne.
  all: lazymatch type of Hin with
       | In ?ev _ => by_phase Hin; kind_of ev Hin Hk; cbn in Hk
       end.
  all: try contradiction.
  all: lazymatch goal with
       | Hi : imputed_when_not_empty _ |- _ => destruct (Hi tag d' Hin Hne) as [out Hout]
       end.
  all: exists out; in_list.
Qed.
End WholeRunRescaling.

(* ===================================================================== *)
(** * The scenario, run *)
(* ===================================================================== *)

(** Pick from the log of a concrete run the first call that [f] accepts. *)
Ltac pick f o ev Hin Hf :=
  destruct (find f (evs o)) as [ev|] eqn:Hf;
  [ apply find_some in Hf; destruct Hf as [Hin Hf]
  | vm_compute in Hf; discriminate Hf ].

(** A concrete run returns. *)
Ltac returns :=
  lazymatch goal with
  | |- exists v, ?r = inr v =>
      let E := fresh "E" in
      destruct r eqn:E; [vm_compute in E; discriminate E | eexists; reflexivity]
  end.

(** A concrete run gets as far as the configuration assertions. *)
Ltac differs :=
  let E := fresh "E" in intro E; vm_compute in E; discriminate E.


Section Examples.
Import Scenario.
Local Open Scope string_scope.







(** C5: the first test partition of the wind-power run. *)
Lemma C5_witness :
  let o := run ens_params df_market (Some "wind_power") false in
  exists ev test,
    In ev (evs o) /\ test_partition ev = Some test /\ len test = 96%nat.
Proof.
  intro o.
  pick (fun ev => match test_partition ev with Some _ => true | None => false end)
       o ev Hin Hf.
  destruct (test_partition ev) as [test|] eqn:Htp; [|discriminate Hf].
  exists ev, test. split; [exact Hin|]. split; [exact Htp|].
  destruct (C5_test_partition_has_96_rows ens_params df_buyer df_market
              end_training_timestamp forecast_range (Some "wind_power") false ∅
              ev Hin Htp) as [_ Hlen].
  assert (Hret : exists v, res o = inr v) by returns.
  destruct Hret as [v Hv]. exact (Hlen v Hv).
Defined.




(** C9: the fits of the wind-power run receive a frame without NaN; with a
    forecaster that has no value at all the run fails on line 198. *)
Lemma C9_witness :
  let o := run ens_params df_market (Some "wind_power") false in
  let nan := run ens_params df_market_nan (Some "wind_power") false in
  (exists a out,
     In (Ev_predico_ensemble_predictions_per_quantile a out) (evs o)
     /\ isna_sum_sum (Fit.df_train_ensemble a) = 0%nat)
  /\ res nan = inl (AssertionError EmptyString)
  /\ st nan = ∅
  /\ Forall (fun ev => ~ is_model_event ev) (evs nan).
Proof.
  intros o nan. split.
  - destruct (C9_training_frame_has_no_NaN ens_params df_buyer df_market
                end_training_timestamp forecast_range (Some "wind_power") false ∅)
      as [Hfit _].
    pick (fun ev => match ev with
                    | Ev_predico_ensemble_predictions_per_quantile _ _ => true
                    | _ => false
                    end) o ev Hin Hf.
    destruct ev; try discriminate Hf.
    exists a, out. split; [exact Hin|]. apply (Hfit a out Hin).
  - destruct (C9_training_frame_has_no_NaN ens_params df_buyer df_market_nan
                end_training_timestamp forecast_range (Some "wind_power") false ∅)
      as [_ Hnan].
    pick (fun ev => match ev with
                    | Ev_concatenate_feat_targ_dataframes (Some (train, _)) =>
                        negb (isna_sum_sum train =? 0)%nat
                    | _ => false
                    end) nan ev Hin Hf.
    destruct ev; try discriminate Hf.
    destruct out as [[train test]|]; [|discriminate Hf].
    apply negb_true_iff, Nat.eqb_neq in Hf.
    destruct (Hnan train test Hin Hf) as (_ & Hst & Hev & Herr).
    split; [|split; assumption].
    pick (fun ev => match ev with
                    | Ev_get_numpy_Xy_train_test_quantile _ _ _ _ (Some _) => true
                    | _ => false
                    end) nan ev' Hin' Hf'.
    destruct ev'; try discriminate Hf'.
    destruct out as [out|]; [|discriminate Hf'].
    exact (Herr _ _ _ _ out Hin').
Defined.

(** C10: the three quantiles are in the market frame and the flag is
    off. *)
Lemma C10_witness :
  let o := run (params "GBR" false false false false) df_market_q
             (Some "wind_power") false in
  let prepared :=
    first_stage_data (params "GBR" false false false false) df_buyer
      (mk_DataFrame timestamps [(L_str "f2_q50", f2_q50)])
      (mk_DataFrame timestamps [(L_str "f1_q10", f1_q10)])
      (mk_DataFrame timestamps [(L_str "f1_q90", f1_q90)])
      (L_str "wind") 3%Z 4%Z ∅ in
  Forall q_frames_empty (evs o)
  /\ (exists a out,
        In (Ev_predico_ensemble_predictions_per_quantile a out) (evs o)
        /\ In (Ev_get_numpy_Xy_train_test_quantile
                 pd_DataFrame pd_DataFrame pd_DataFrame pd_DataFrame
                 (Some (Fit.X_train_quantile10 a, Fit.X_test_quantile10 a,
                        Fit.X_train_quantile90 a, Fit.X_test_quantile90 a))) (evs o))
  /\ exists P,
       res prepared = inr P
       /\ Forall (eq pd_DataFrame) (quantile_locals Q10 P ++ quantile_locals Q90 P).
Proof.
  intros o prepared.
  destruct (C10_quantile_frames_empty_without_the_flag
              (params "GBR" false false false false) df_buyer df_market_q
              end_training_timestamp forecast_range (Some "wind_power") false ∅ eq_refl)
    as (Hall & Hfit & Hlocals).
  split; [exact Hall|]. split.
  - pick (fun ev => match ev with
                    | Ev_predico_ensemble_predictions_per_quantile _ _ => true
                    | _ => false
                    end) o ev Hin Hf.
    destruct ev; try discriminate Hf.
    exists a, out. split; [exact Hin | exact (Hfit a out Hin)].
  - assert (Hret : exists P, res prepared = inr P) by returns.
    destruct Hret as [P HP]. exists P. split; [exact HP|].
    exact (Hlocals _ _ _ _ _ _ _ P HP).
Defined.
End Examples.

Section MoreExamples.
Import Scenario Variants.
Local Open Scope string_scope.

(** X1: the wind-power run returns and no call of it raised; with a buyer
    frame that stops half way the concatenation raises, and that is the
    last call of the run. *)
Lemma X1_witness :
  let o := run ens_params df_market (Some "wind_power") false in
  let short :=
    run_with collaborators ens_params df_buyer_short df_market (Some "wind_power") false in
  quiet (evs o)
  /\ exists l ev,
       evs short = (l ++ [ev])%list /\ quiet l /\ raised ev = true
       /\ callee_of ev = "concatenate_feat_targ_dataframes".
Proof.
  intros o short. split.
  - destruct (X1_exceptions_of_callees_propagate ens_params df_buyer df_market
                end_training_timestamp forecast_range (Some "wind_power") false ∅)
      as (_ & _ & Hquiet).
    assert (Hret : exists v, res o = inr v) by returns.
    destruct Hret as [v Hv]. exact (Hquiet v Hv).
  - destruct (X1_exceptions_of_callees_propagate ens_params df_buyer_short df_market
                end_training_timestamp forecast_range (Some "wind_power") false ∅)
      as (_ & Hraised & _).
    apply Hraised. vm_compute. reflexivity.
Defined.

(** X2: no forecast range, and a buyer frame without columns. *)
Lemma X2_witness :
  let no_range :=
    create_ensemble_forecasts ens_params df_buyer df_market end_training_timestamp []
      (Some "wind_power") false ∅ in
  let no_buyer :=
    run_with collaborators ens_params (mk_DataFrame timestamps []) df_market
      (Some "wind_power") false in
  evs no_range = []
  /\ res no_buyer = inl (IndexError "index 0 is out of bounds for axis 0 with size 0")
  /\ Forall is_frame_event (evs no_buyer).
Proof.
  intros no_range no_buyer. split.
  - destruct (X2_empty_inputs ens_params df_buyer df_market end_training_timestamp []
                (Some "wind_power") false ∅) as [Hrange _].
    apply Hrange. reflexivity.
  - destruct (X2_empty_inputs ens_params (mk_DataFrame timestamps []) df_market
                end_training_timestamp forecast_range (Some "wind_power") false ∅)
      as [_ Hbuyer].
    assert (Hne : forecast_range <> []) by differs.
    destruct (Hbuyer Hne eq_refl) as (_ & _ & Hev & Hr).
    split; [|exact Hev].
    assert (Hret : exists frames, res (quantile_frames df_market ∅) = inr frames)
      by returns.
    destruct Hret as [frames Hframes]. exact (Hr frames Hframes).
Defined.

(** X3: the q10 columns of the market frame with three quantiles. *)
Lemma X3_witness :
  let o := run ens_params df_market_q (Some "wind_power") false in
  exists out, In (Ev_impute_mean_for_nan Q10 out) (evs o).
Proof.
  intro o.
  pick (fun ev => match ev with
                  | Ev_extract_quantile_columns s (Some d) =>
                      String.eqb s "q10" && negb (empty d)
                  | _ => false
                  end) o ev Hin Hf.
  destruct ev; try discriminate Hf.
  destruct out as [d|]; [|discriminate Hf].
  apply andb_prop in Hf. destruct Hf as [Hs Hd].
  apply String.eqb_eq in Hs. rewrite Hs in Hin.
  apply negb_true_iff in Hd.
  exact (X3_non_empty_extractions_are_imputed ens_params df_buyer df_market_q
           end_training_timestamp forecast_range (Some "wind_power") false ∅
           Q10 d Hin Hd).
Defined.

(** X4: with a concatenation that returns the test features one step
    late the run fails on the index assertion, before any fit; in the
    scenario the two indexes are equal. *)
Lemma X4_witness :
  let late :=
    run_with (collaborators_with concatenate_late fit) ens_params df_buyer df_market
      (Some "wind_power") false in
  let o := run ens_params df_market (Some "wind_power") false in
  ((exists x, res late = inl x) /\ st late = ∅ /\ fit_calls (evs late) = [])
  /\ exists train test train' test',
       In (Ev_split_train_test_data SplitTargets (Some (train, test))) (evs o)
       /\ In (Ev_concatenate_feat_targ_dataframes (Some (train', test'))) (evs o)
       /\ index test = index test'.
Proof.
  intros late o. split.
  - pick (fun ev => match ev with
                    | Ev_split_train_test_data SplitTargets (Some (_, test)) =>
                        bool_decide (index test = forecast_range)
                    | _ => false
                    end) late ev Hin Hf.
    destruct ev; try discriminate Hf.
    destruct site; try discriminate Hf.
    destruct out as [[train test]|]; [|discriminate Hf].
    apply bool_decide_eq_true in Hf.
    pick (fun ev => match ev with
                    | Ev_concatenate_feat_targ_dataframes (Some (_, test)) =>
                        bool_decide (index test = map Z.succ forecast_range)
                    | _ => false
                    end) late ev' Hin' Hf'.
    destruct ev'; try discriminate Hf'.
    destruct out as [[train' test']|]; [|discriminate Hf'].
    apply bool_decide_eq_true in Hf'.
    destruct (@X4_test_indexes_agree _ (collaborators_with concatenate_late fit)
                ens_params df_buyer df_market end_training_timestamp forecast_range
                (Some "wind_power") false ∅ train test train' test' Hin Hin')
      as [Hdiffer _].
    assert (Hne : index test <> index test').
    { rewrite Hf, Hf'. intro E. vm_compute in E. discriminate E. }
    destruct (Hdiffer Hne) as (Hx & Hst & _ & Hfits & _).
    split; [exact Hx|]. split; [exact Hst | exact Hfits].
  - pick (fun ev => match ev with
                    | Ev_split_train_test_data SplitTargets (Some _) => true
                    | _ => false
                    end) o ev Hin Hf.
    destruct ev; try discriminate Hf.
    destruct site; try discriminate Hf.
    destruct out as [[train test]|]; [|discriminate Hf].
    pick (fun ev => match ev with
                    | Ev_concatenate_feat_targ_dataframes (Some _) => true
                    | _ => false
                    end) o ev' Hin' Hf'.
    destruct ev'; try discriminate Hf'.
    destruct out as [[train' test']|]; [|discriminate Hf'].
    pick (fun ev => match ev with
                    | Ev_load_or_initialize_results _ => true
                    | _ => false
                    end) o ev'' Hin'' Hf''.
    destruct ev''; try discriminate Hf''.
    destruct (X4_test_indexes_agree ens_params df_buyer df_market end_training_timestamp
                forecast_range (Some "wind_power") false ∅ train test train' test'
                Hin Hin') as [_ Hsame].
    exists train, test, train', test'.
    split; [exact Hin|]. split; [exact Hin'|]. exact (Hsame _ Hin'').
Defined.


(** X6: the state file of the wind-power run. *)
Lemma X6_witness :
  let o := run ens_params df_market (Some "wind_power") false in
  exists l out l',
    evs o = (l ++ Ev_load_or_initialize_results out :: l')%list
    /\ Forall not_load l /\ Forall not_load l'
    /\ out = load_or_initialize_results ens_params (L_str "wind") ∅.
Proof.
  intro o.
  pick (fun ev => match ev with
                  | Ev_load_or_initialize_results _ => true
                  | _ => false
                  end) o ev Hin Hf.
  destruct ev; try discriminate Hf.
  apply in_split in Hin. destruct Hin as (l & l' & Hlog).
  destruct (X6_state_file_is_read_once ens_params df_buyer df_market end_training_timestamp
              forecast_range (Some "wind_power") false ∅ l out l' Hlog)
    as (Hl & Hl' & _ & _ & name & column & rest & Hcols & Hout).
  exists l, out, l'. split; [exact Hlog|]. split; [exact Hl|]. split; [exact Hl'|].
  injection Hcols as <- _ _. exact Hout.
Defined.

(** X7: the first-stage fits of the wind-power run. *)
Lemma X7_witness :
  let o := run ens_params df_market (Some "wind_power") false in
  map (fun c => Fit.quantile (fst c)) (fit_calls (evs o)) = [1 # 10; 1 # 2; 9 # 10]%Q
  /\ all_returned (fit_calls (evs o)).
Proof.
  intro o.
  destruct (X7_fits_cover_the_quantiles ens_params df_buyer df_market end_training_timestamp
              forecast_range (Some "wind_power") false ∅) as [_ Hall].
  assert (Hret : exists v, res o = inr v) by returns.
  destruct Hret as [v Hv]. exact (Hall v Hv).
Defined.

(** X8: the fits of the wind-power run start from the best results of the
    state file; the run of the linear model without scaling has no fit. *)
Lemma X8_witness :
  let o := run ens_params df_market (Some "wind_power") false in
  let failed :=
    run (params "LR" false false false true) df_market (Some "wind_power") false in
  (exists best, threaded [] best (fit_calls (evs o)))
  /\ fit_calls (evs failed) = [].
Proof.
  intros o failed. split.
  - pick (fun ev => match ev with
                    | Ev_load_or_initialize_results (Some _) => true
                    | _ => false
                    end) o ev Hin Hf.
    destruct ev; try discriminate Hf.
    destruct out as [[[[path it] best] best_var]|]; [|discriminate Hf].
    destruct (X8_fits_are_threaded ens_params df_buyer df_market end_training_timestamp
                forecast_range (Some "wind_power") false ∅) as [Hthreaded _].
    exists best. exact (Hthreaded path it best best_var Hin).
  - destruct (X8_fits_are_threaded (params "LR" false false false true) df_buyer df_market
                end_training_timestamp forecast_range (Some "wind_power") false ∅)
      as [_ Hnone].
    apply Hnone. intros out Hin.
    assert (Hall : Forall not_load (evs failed))
      by (apply Forall_fold_right; vm_compute; tauto).
    exact (proj1 (List.Forall_forall _ _) Hall _ Hin).
Defined.

(** X9: a first-stage fit of the wind-power run. *)
Lemma X9_witness :
  let o := run ens_params df_market (Some "wind_power") false in
  exists a out y_test,
    In (Ev_predico_ensemble_predictions_per_quantile a out) (evs o)
    /\ Fit.ens_params a = ens_params
    /\ In (Ev_get_numpy_Xy_train_test
             (Some (Fit.X_train a, Fit.y_train a, Fit.X_test a, y_test))) (evs o).
Proof.
  intro o.
  pick (fun ev => match ev with
                  | Ev_predico_ensemble_predictions_per_quantile _ _ => true
                  | _ => false
                  end) o ev Hin Hf.
  destruct ev; try discriminate Hf.
  destruct (X9_fits_share_their_inputs ens_params df_buyer df_market end_training_timestamp
              forecast_range (Some "wind_power") false ∅) as [Hfit _].
  destruct (Hfit a out Hin) as (Hens & _ & _ & _ & _ & y_test & _ & _ & Hxy).
  exists a, out, y_test. split; [exact Hin|]. split; [exact Hens | exact Hxy].
Defined.

(** X10: the linear model with a fit whose result has no 'p_values'. *)
Lemma X10_witness :
  res (run_with (collaborators_with concatenate fit_without_p_values) lr_params
         df_buyer df_market (Some "wind_power") false)
  = inl (KeyError "p_values").
Proof.
  set (C := collaborators_with concatenate fit_without_p_values).
  pick (fun ev => match ev with
                  | Ev_predico_ensemble_predictions_per_quantile _ (Some w) =>
                      bool_decide (lacks w = Some "p_values")
                  | _ => false
                  end)
       (run_with C lr_params df_buyer df_market (Some "wind_power") false) ev Hin Hf.
  destruct ev; try discriminate Hf.
  destruct out as [w|]; [|discriminate Hf].
  apply bool_decide_eq_true in Hf.
  exact (@X10_linear_model_keys _ C lr_params df_buyer df_market end_training_timestamp
           forecast_range (Some "wind_power") false ∅ eq_refl a w "p_values" Hin Hf).
Defined.

(** X11: the second-stage fits of the wind-power run. *)
Lemma X11_witness :
  let o := run ens_params df_market (Some "wind_power") false in
  map (fun c => FitVar.quantile (fst c)) (var_calls (evs o)) = [1 # 10; 1 # 2; 9 # 10]%Q
  /\ all_returned (var_calls (evs o)).
Proof.
  intro o.
  assert (Hret : exists v, res o = inr v) by returns.
  destruct Hret as [v Hv].
  destruct (@X11_second_stage_fits _ _ ens_params df_buyer df_market end_training_timestamp
              forecast_range (Some "wind_power") false ∅ v Hv) as (Hmap & Hall & _).
  split; [exact Hmap | exact Hall].
Defined.

(** X12: the second-stage fits of the wind-power run start from the best
    results of the state file. *)
Lemma X12_witness :
  let o := run ens_params df_market (Some "wind_power") false in
  exists best_var, threaded_var best_var (var_calls (evs o)).
Proof.
  intro o.
  pick (fun ev => match ev with
                  | Ev_load_or_initialize_results (Some _) => true
                  | _ => false
                  end) o ev Hin Hf.
  destruct ev; try discriminate Hf.
  destruct out as [[[[path it] best] best_var]|]; [|discriminate Hf].
  exists best_var.
  exact (X12_second_stage_fits_are_threaded ens_params df_buyer df_market
           end_training_timestamp forecast_range (Some "wind_power") false ∅
           path it best best_var Hin).
Defined.

(** X13: the wind-power run for the quantiles 0.1 and 0.9 only. *)
Lemma X13_witness :
  let o := run (with_quantiles [1 # 10; 9 # 10]%Q ens_params) df_market
             (Some "wind_power") false in
  res o = inl (UnboundLocalError "df_var_ensemble_melt")
  /\ st o = ∅
  /\ var_calls (evs o) = [].
Proof.
  intro o.
  destruct (X13_no_median_no_result (with_quantiles [1 # 10; 9 # 10]%Q ens_params) df_buyer
              df_market end_training_timestamp forecast_range (Some "wind_power") false ∅
              eq_refl)
    as (_ & Hst & _ & Hvar & Hmelt & _).
  split; [|split; [exact Hst | exact Hvar]].
  pick (fun ev => match ev with
                  | Ev_melt_dataframe _ (Some _) => true
                  | _ => false
                  end) o ev Hin Hf.
  destruct ev; try discriminate Hf.
  destruct out as [melted|]; [|discriminate Hf].
  exact (Hmelt eq_refl df melted Hin).
Defined.

(** X14: the rescaling loop of the wind-power run. *)
Lemma X14_witness :
  let o := run ens_params df_market (Some "wind_power") false in
  rescaled Stage1st (evs o) = [1 # 10; 1 # 2; 9 # 10]%Q
  /\ clipped (evs o) = [1 # 10; 1 # 2; 9 # 10]%Q.
Proof.
  intro o.
  destruct (X14_rescaled_then_clipped ens_params df_buyer df_market end_training_timestamp
              forecast_range (Some "wind_power") false ∅) as (_ & _ & Hall).
  assert (Hret : exists v, res o = inr v) by returns.
  destruct Hret as [v Hv]. exact (Hall v Hv).
Defined.

(** X15: simulation mode with the use case 'wind_power'. *)
Lemma X15_witness :
  let o := run ens_params df_market (Some "wind_power") true in
  res o = inl (AssertionError msg_simulation)
  /\ st o = ∅
  /\ Forall not_dump (evs o).
Proof.
  intro o.
  destruct (@X15_simulation_needs_its_use_case _ _ ens_params df_buyer df_market
              end_training_timestamp forecast_range (Some "wind_power") true ∅
              eq_refl eq_refl)
    as (_ & Hst & Hdump & _ & Htable).
  split; [|split; [exact Hst | exact Hdump]].
  pick (fun ev => match ev with
                  | Ev_create_ensemble_dataframe _ (Some _) => true
                  | _ => false
                  end) o ev Hin Hf.
  destruct ev; try discriminate Hf.
  destruct out as [wide|]; [|discriminate Hf].
  exact (Htable _ wide Hin).
Defined.


(** X17: the first-stage diagnostics that the wind-power run writes. *)
Lemma X17_witness :
  let o := run ens_params df_market (Some "wind_power") false in
  exists path b,
    In (Ev_pickle_dump path b) (evs o)
    /\ has_key (9 # 10) (Bundle.info_contributions (Bundle.wind_power b)).
Proof.
  intro o.
  pick (fun ev => match ev with Ev_pickle_dump _ _ => true | _ => false end) o ev Hin Hf.
  destruct ev; try discriminate Hf.
  destruct (X17_first_stage_diagnostics ens_params df_buyer df_market end_training_timestamp
              forecast_range (Some "wind_power") false ∅ path obj Hin) as [Hkeys _].
  exists path, obj. split; [exact Hin|].
  apply Hkeys. right. right. left. reflexivity.
Defined.

(** X18: the second-stage diagnostics that the wind-power run writes. *)
Lemma X18_witness :
  let o := run ens_params df_market (Some "wind_power") false in
  exists path b,
    In (Ev_pickle_dump path b) (evs o)
    /\ has_key (1 # 10) (Bundle.info_contributions (Bundle.wind_power_variability b)).
Proof.
  intro o.
  pick (fun ev => match ev with Ev_pickle_dump _ _ => true | _ => false end) o ev Hin Hf.
  destruct ev; try discriminate Hf.
  destruct (X18_second_stage_diagnostics ens_params df_buyer df_market end_training_timestamp
              forecast_range (Some "wind_power") false ∅ path obj Hin) as [Hkeys _].
  exists path, obj. split; [exact Hin|].
  apply Hkeys. left. reflexivity.
Defined.

(** X19: what the variability run returns is in the state file. *)
Lemma X19_witness :
  let o := run ens_params df_market (Some "wind_power_variability") false in
  exists path b,
    st o !! path = Some b
    /\ res o
       = inr (RetPredictions (Bundle.predictions (Bundle.wind_power_variability b))).
Proof.
  intro o.
  assert (Hret : exists v, res o = inr v) by returns.
  destruct Hret as [v Hv].
  destruct (@X19_returned_from_the_state_file _ _ ens_params df_buyer df_market
              end_training_timestamp forecast_range (Some "wind_power_variability")
              false ∅ v Hv) as (path & b & Hfile & _ & Hval).
  exists path, b. split; [exact Hfile|]. rewrite Hv, Hval. reflexivity.
Defined.
End MoreExamples.
